(** * Inventario: product list, Excel upload and the productos table

    A shallow embedding of the Angular front end
    (producto-list.component.ts, carga-excel.component.ts, the two
    producto.service.ts variants) and of the schema in backend/init.sql.

    Conventions of the embedding:
    - a JavaScript string is a [string] holding the UTF-8 bytes of the
      text; [toLowerCase] maps the ASCII letters and leaves every other
      byte alone, [trim] strips the ECMAScript WhiteSpace and
      LineTerminator code points in their UTF-8 encoding;
    - a JavaScript number that the code uses as a counter or an index is a
      [Z]; a number that can hold a fraction is a [number] (a rational or
      NaN);
    - a method of a component is a function from the component state to
      the new state, paired with the requests or timers it starts;
      answers of the user to [confirm] are arguments. *)

From Stdlib Require Import ZArith QArith Qround List Permutation Bool Ascii String Lia Arith.
From Stdlib Require Import DecimalString DecimalZ.
Import ListNotations.
Open Scope string_scope.

(** ** JavaScript primitives *)

Module Js.

(** [String.prototype.toLowerCase], on the ASCII range. *)
Definition lower_ascii (c : ascii) : ascii :=
  let n := nat_of_ascii c in
  if (65 <=? n)%nat && (n <=? 90)%nat then ascii_of_nat (n + 32) else c.

Fixpoint toLowerCase (s : string) : string :=
  match s with
  | EmptyString => EmptyString
  | String c r => String (lower_ascii c) (toLowerCase r)
  end.

(** White space of one, two and three bytes: TAB LF VT FF CR SP;
    U+00A0; U+1680, U+2000..U+200A, U+2028, U+2029, U+202F, U+205F,
    U+3000, U+FEFF. *)
Definition ws1 (a : ascii) : bool :=
  let n := nat_of_ascii a in
  ((9 <=? n)%nat && (n <=? 13)%nat) || (n =? 32)%nat.

Definition ws2 (a b : ascii) : bool :=
  (nat_of_ascii a =? 194)%nat && (nat_of_ascii b =? 160)%nat.

Definition ws3 (a b c : ascii) : bool :=
  let x := nat_of_ascii a in
  let y := nat_of_ascii b in
  let z := nat_of_ascii c in
  ((x =? 225)%nat && (y =? 154)%nat && (z =? 128)%nat)
  || ((x =? 226)%nat && (y =? 128)%nat &&
      (((128 <=? z)%nat && (z <=? 138)%nat)
       || (z =? 168)%nat || (z =? 169)%nat || (z =? 175)%nat))
  || ((x =? 226)%nat && (y =? 129)%nat && (z =? 159)%nat)
  || ((x =? 227)%nat && (y =? 128)%nat && (z =? 128)%nat)
  || ((x =? 239)%nat && (y =? 187)%nat && (z =? 191)%nat).

(** Strips leading white space; with [back] the string is read from
    its end, so the bytes of a code point arrive last byte first. *)
Fixpoint strip (back : bool) (s : string) : string :=
  match s with
  | EmptyString => s
  | String a r1 =>
      if ws1 a then strip back r1 else
      match r1 with
      | EmptyString => s
      | String b r2 =>
          if (if back then ws2 b a else ws2 a b) then strip back r2 else
          match r2 with
          | EmptyString => s
          | String c r3 =>
              if (if back then ws3 c b a else ws3 a b c)
              then strip back r3 else s
          end
      end
  end.

Fixpoint rev_append (s acc : string) : string :=
  match s with
  | EmptyString => acc
  | String c r => rev_append r (String c acc)
  end.

Definition reverse (s : string) : string := rev_append s EmptyString.

(** [String.prototype.trim]. *)
Definition trim (s : string) : string :=
  reverse (strip true (reverse (strip false s))).

(** [String.prototype.includes]: [t] occurs in [s]. *)
Fixpoint includes (s t : string) : bool :=
  String.prefix t s ||
  match s with
  | EmptyString => false
  | String _ r => includes r t
  end.

(** [String.prototype.split] on a one-character separator; the result
    always has at least one segment. *)
Fixpoint split (sep : ascii) (s : string) : list string :=
  match s with
  | EmptyString => [EmptyString]
  | String c r =>
      if Ascii.eqb c sep then EmptyString :: split sep r
      else match split sep r with
           | [] => [String c EmptyString]
           | x :: xs => String c x :: xs
           end
  end.

(** [Array.prototype.pop] used as an expression: the last element. *)
Definition pop {A} (l : list A) : option A :=
  match rev l with
  | [] => None
  | x :: _ => Some x
  end.

(** [Array.prototype.slice start end] with the relative indices of the
    language: a negative index counts from the end. *)
Definition rel_index (len k : Z) : Z :=
  if (k <? 0)%Z then Z.max (len + k) 0 else Z.min k len.

Definition slice {A} (l : list A) (start fin : Z) : list A :=
  let len := Z.of_nat (List.length l) in
  let k := rel_index len start in
  let e := rel_index len fin in
  firstn (Z.to_nat (e - k)) (skipn (Z.to_nat k) l).

(** A number that may hold a fraction. *)
Inductive number : Type :=
| Num (q : Q)
| NaN.

(** [!x] on a number: zero and NaN are falsy. *)
Definition falsy (x : number) : bool :=
  match x with
  | Num q => Qeq_bool q 0
  | NaN => true
  end.

(** [x <= k] and [x < k]; every comparison with NaN is false. *)
Definition leq (x : number) (k : Q) : bool :=
  match x with
  | Num q => Qle_bool q k
  | NaN => false
  end.

Definition lt (x : number) (k : Q) : bool :=
  match x with
  | Num q => negb (Qle_bool k q)
  | NaN => false
  end.

(** [!s] on an optional string: undefined and the empty string. *)
Definition truthy_str (s : option string) : bool :=
  match s with
  | Some (String _ _) => true
  | _ => false
  end.

End Js.

(** ** producto.service.ts: the shared interface *)

Module Servicio.

Record Producto : Type := mkProducto {
  id : option Z;
  codigo : string;
  nombre : string;
  descripcion : option string;
  cantidad : Js.number;
  precio : Js.number;
  categoria : option string
}.

End Servicio.

(** ** producto-list.component.ts *)

Module ProductoList.
Import Servicio.

Record State : Type := mkState {
  productos : list Producto;
  productoForm : Producto;
  editando : bool;
  errores : list string;
  cargando : bool;
  paginaActual : Z;
  totalPaginas : Z;
  terminoBusqueda : string;
  productosFiltrados : list Producto
}.

Definition productosPorPagina : Z := 5.

Definition nuevoProducto : Producto :=
  {| id := None; codigo := ""; nombre := ""; descripcion := Some "";
     cantidad := Js.Num 0; precio := Js.Num 0; categoria := Some "" |}.

(** The field initialisers of the class. *)
Definition inicial : State :=
  {| productos := []; productoForm := nuevoProducto; editando := false;
     errores := []; cargando := false; paginaActual := 1; totalPaginas := 0;
     terminoBusqueda := ""; productosFiltrados := [] |}.

Definition con_errores (e : list string) (s : State) : State :=
  mkState (productos s) (productoForm s) (editando s) e (cargando s)
    (paginaActual s) (totalPaginas s) (terminoBusqueda s) (productosFiltrados s).

Definition con_cargando (b : bool) (s : State) : State :=
  mkState (productos s) (productoForm s) (editando s) (errores s) b
    (paginaActual s) (totalPaginas s) (terminoBusqueda s) (productosFiltrados s).

Definition con_productos (l : list Producto) (s : State) : State :=
  mkState l (productoForm s) (editando s) (errores s) (cargando s)
    (paginaActual s) (totalPaginas s) (terminoBusqueda s) (productosFiltrados s).

Definition con_paginaActual (p : Z) (s : State) : State :=
  mkState (productos s) (productoForm s) (editando s) (errores s) (cargando s)
    p (totalPaginas s) (terminoBusqueda s) (productosFiltrados s).

Definition con_totalPaginas (t : Z) (s : State) : State :=
  mkState (productos s) (productoForm s) (editando s) (errores s) (cargando s)
    (paginaActual s) t (terminoBusqueda s) (productosFiltrados s).

Definition con_terminoBusqueda (t : string) (s : State) : State :=
  mkState (productos s) (productoForm s) (editando s) (errores s) (cargando s)
    (paginaActual s) (totalPaginas s) t (productosFiltrados s).

Definition con_productosFiltrados (l : list Producto) (s : State) : State :=
  mkState (productos s) (productoForm s) (editando s) (errores s) (cargando s)
    (paginaActual s) (totalPaginas s) (terminoBusqueda s) l.

(** The request a call of [guardarProducto] hands to the service. *)
Inductive Peticion : Type :=
| crearProducto (p : Producto)
| actualizarProducto (productoId : Z) (p : Producto).

(** [this.productoForm.id] as a condition: present and not zero. *)
Definition id_valido (p : Producto) : option Z :=
  match id p with
  | Some k => if (k =? 0)%Z then None else Some k
  | None => None
  end.

Definition guardarProducto (s : State) : State * option Peticion :=
  let s := con_errores [] s in
  let f := productoForm s in
  if (codigo f =? "") || (Js.trim (codigo f) =? "") then
    (con_errores (errores s ++ ["📌 El código es obligatorio"]) s, None)
  else if (nombre f =? "") || (Js.trim (nombre f) =? "") then
    (con_errores (errores s ++ ["📌 El nombre es obligatorio"]) s, None)
  else if Js.falsy (precio f) || Js.leq (precio f) 0 then
    (con_errores (errores s ++ ["📌 El precio debe ser mayor a 0"]) s, None)
  else if Js.lt (cantidad f) 0 then
    (con_errores (errores s ++ ["📌 La cantidad no puede ser negativa"]) s, None)
  else
    let s := con_cargando true s in
    match (if editando s then id_valido f else None) with
    | Some productoId => (s, Some (actualizarProducto productoId f))
    | None => (s, Some (crearProducto f))
    end.

(** [Math.ceil] of the quotient of two integers. *)
Definition ceil_div (a b : Z) : Z := Qceiling (inject_Z a / inject_Z b).

Definition calcularTotalPaginas (s : State) : State :=
  let s :=
    con_totalPaginas
      (ceil_div (Z.of_nat (List.length (productosFiltrados s))) productosPorPagina) s in
  if (paginaActual s >? totalPaginas s)%Z && (totalPaginas s >? 0)%Z
  then con_paginaActual (totalPaginas s) s
  else s.

Definition obtenerProductosPaginados (s : State) : list Producto :=
  let inicio := ((paginaActual s - 1) * productosPorPagina)%Z in
  let fin := (inicio + productosPorPagina)%Z in
  Js.slice (productosFiltrados s) inicio fin.

(** The scroll to the top of the window is not part of the state. *)
Definition cambiarPagina (nuevaPagina : Z) (s : State) : State :=
  if (nuevaPagina >=? 1)%Z && (nuevaPagina <=? totalPaginas s)%Z
  then con_paginaActual nuevaPagina s
  else s.

Definition obtenerRangoPaginas (s : State) : list Z :=
  map (fun i => (Z.of_nat i + 1)%Z) (seq 0 (Z.to_nat (totalPaginas s))).

(** The predicate handed to [filter] in [aplicarFiltros]. *)
Definition coincide (termino : string) (producto : Producto) : bool :=
  Js.includes (Js.toLowerCase (codigo producto)) termino
  || Js.includes (Js.toLowerCase (nombre producto)) termino
  || (Js.truthy_str (descripcion producto) &&
      match descripcion producto with
      | Some d => Js.includes (Js.toLowerCase d) termino
      | None => false
      end)
  || (Js.truthy_str (categoria producto) &&
      match categoria producto with
      | Some c => Js.includes (Js.toLowerCase c) termino
      | None => false
      end).

Definition aplicarFiltros (s : State) : State :=
  let s :=
    if (terminoBusqueda s =? "") || (Js.trim (terminoBusqueda s) =? "")
    then con_productosFiltrados (productos s) s
    else
      let termino := Js.trim (Js.toLowerCase (terminoBusqueda s)) in
      con_productosFiltrados (filter (coincide termino) (productos s)) s in
  let s := con_paginaActual 1 s in
  calcularTotalPaginas s.

Definition buscar (s : State) : State := aplicarFiltros s.

Definition limpiarBusqueda (s : State) : State :=
  aplicarFiltros (con_terminoBusqueda "" s).

(** The [next] handler of [cargarProductos]. *)
Definition productosRecibidos (data : list Producto) (s : State) : State :=
  con_cargando false (aplicarFiltros (con_productos data s)).

(** What can happen to the list view: the pagination and search methods,
    a keystroke in the search box (two-way binding of [terminoBusqueda])
    and the arrival of the product list. *)
Inductive Operacion : Type :=
| OpAplicarFiltros
| OpBuscar
| OpLimpiarBusqueda
| OpCambiarPagina (nuevaPagina : Z)
| OpCalcularTotalPaginas
| OpEscribirTermino (t : string)
| OpProductosRecibidos (data : list Producto).

Definition ejecutar (o : Operacion) (s : State) : State :=
  match o with
  | OpAplicarFiltros => aplicarFiltros s
  | OpBuscar => buscar s
  | OpLimpiarBusqueda => limpiarBusqueda s
  | OpCambiarPagina n => cambiarPagina n s
  | OpCalcularTotalPaginas => calcularTotalPaginas s
  | OpEscribirTermino t => con_terminoBusqueda t s
  | OpProductosRecibidos data => productosRecibidos data s
  end.

Definition ejecutar_todas (ops : list Operacion) (s : State) : State :=
  fold_left (fun st o => ejecutar o st) ops s.

End ProductoList.

(** ** producto.service.ts: the Excel interface *)

Module Excel.
Import Servicio.

(** A [File] of the browser: what the components read of it. *)
Record File : Type := mkFile {
  name : string;
  size : Z
}.

Record ValidacionExcel : Type := mkValidacion {
  valido : bool;
  v_mensaje : string;
  v_errores : list string;
  total_filas : Z;
  datos_previos : list Producto;
  advertencias : option (list string)
}.

Record ResultadoCarga : Type := mkResultado {
  success : bool;
  r_mensaje : string;
  productos_creados : Z;
  productos_actualizados : Z;
  r_errores : list string;
  total_procesados : Z
}.

End Excel.

(** ** carga-excel.component.ts *)

Module CargaExcel.
Import Servicio Excel.

(** [websocket] records whether a socket is held; [intervaloSimulacion]
    holds the running interval, identified by the increment that its
    callback captured. *)
Record State : Type := mkState {
  archivoSeleccionado : option File;
  nombreArchivo : string;
  validacion : option ValidacionExcel;
  resultado : option ResultadoCarga;
  validando : bool;
  cargando : bool;
  mostrarVistaPrevia : bool;
  mensajeError : string;
  mensajeExito : string;
  mensajeAdvertencia : string;
  progreso : Q;
  progresoMensaje : string;
  websocket : bool;
  intervaloSimulacion : option Q
}.

Definition inicial : State :=
  mkState None "" None None false false false "" "" "" 0 "" false None.

Definition con_archivoSeleccionado (x : option File) (s : State) : State :=
  mkState x (nombreArchivo s) (validacion s) (resultado s) (validando s)
    (cargando s) (mostrarVistaPrevia s) (mensajeError s) (mensajeExito s)
    (mensajeAdvertencia s) (progreso s) (progresoMensaje s) (websocket s)
    (intervaloSimulacion s).

Definition con_nombreArchivo (x : string) (s : State) : State :=
  mkState (archivoSeleccionado s) x (validacion s) (resultado s)
    (validando s) (cargando s) (mostrarVistaPrevia s) (mensajeError s)
    (mensajeExito s) (mensajeAdvertencia s) (progreso s) (progresoMensaje s)
    (websocket s) (intervaloSimulacion s).

Definition con_validacion (x : option ValidacionExcel) (s : State) : State :=
  mkState (archivoSeleccionado s) (nombreArchivo s) x (resultado s)
    (validando s) (cargando s) (mostrarVistaPrevia s) (mensajeError s)
    (mensajeExito s) (mensajeAdvertencia s) (progreso s) (progresoMensaje s)
    (websocket s) (intervaloSimulacion s).

Definition con_resultado (x : option ResultadoCarga) (s : State) : State :=
  mkState (archivoSeleccionado s) (nombreArchivo s) (validacion s) x
    (validando s) (cargando s) (mostrarVistaPrevia s) (mensajeError s)
    (mensajeExito s) (mensajeAdvertencia s) (progreso s) (progresoMensaje s)
    (websocket s) (intervaloSimulacion s).

Definition con_validando (x : bool) (s : State) : State :=
  mkState (archivoSeleccionado s) (nombreArchivo s) (validacion s)
    (resultado s) x (cargando s) (mostrarVistaPrevia s) (mensajeError s)
    (mensajeExito s) (mensajeAdvertencia s) (progreso s) (progresoMensaje s)
    (websocket s) (intervaloSimulacion s).

Definition con_cargando (x : bool) (s : State) : State :=
  mkState (archivoSeleccionado s) (nombreArchivo s) (validacion s)
    (resultado s) (validando s) x (mostrarVistaPrevia s) (mensajeError s)
    (mensajeExito s) (mensajeAdvertencia s) (progreso s) (progresoMensaje s)
    (websocket s) (intervaloSimulacion s).

Definition con_mostrarVistaPrevia (x : bool) (s : State) : State :=
  mkState (archivoSeleccionado s) (nombreArchivo s) (validacion s)
    (resultado s) (validando s) (cargando s) x (mensajeError s)
    (mensajeExito s) (mensajeAdvertencia s) (progreso s) (progresoMensaje s)
    (websocket s) (intervaloSimulacion s).

Definition con_mensajeError (x : string) (s : State) : State :=
  mkState (archivoSeleccionado s) (nombreArchivo s) (validacion s)
    (resultado s) (validando s) (cargando s) (mostrarVistaPrevia s) x
    (mensajeExito s) (mensajeAdvertencia s) (progreso s) (progresoMensaje s)
    (websocket s) (intervaloSimulacion s).

Definition con_mensajeExito (x : string) (s : State) : State :=
  mkState (archivoSeleccionado s) (nombreArchivo s) (validacion s)
    (resultado s) (validando s) (cargando s) (mostrarVistaPrevia s)
    (mensajeError s) x (mensajeAdvertencia s) (progreso s)
    (progresoMensaje s) (websocket s) (intervaloSimulacion s).

Definition con_mensajeAdvertencia (x : string) (s : State) : State :=
  mkState (archivoSeleccionado s) (nombreArchivo s) (validacion s)
    (resultado s) (validando s) (cargando s) (mostrarVistaPrevia s)
    (mensajeError s) (mensajeExito s) x (progreso s) (progresoMensaje s)
    (websocket s) (intervaloSimulacion s).

Definition con_progreso (x : Q) (s : State) : State :=
  mkState (archivoSeleccionado s) (nombreArchivo s) (validacion s)
    (resultado s) (validando s) (cargando s) (mostrarVistaPrevia s)
    (mensajeError s) (mensajeExito s) (mensajeAdvertencia s) x
    (progresoMensaje s) (websocket s) (intervaloSimulacion s).

Definition con_progresoMensaje (x : string) (s : State) : State :=
  mkState (archivoSeleccionado s) (nombreArchivo s) (validacion s)
    (resultado s) (validando s) (cargando s) (mostrarVistaPrevia s)
    (mensajeError s) (mensajeExito s) (mensajeAdvertencia s) (progreso s) x
    (websocket s) (intervaloSimulacion s).

Definition con_websocket (x : bool) (s : State) : State :=
  mkState (archivoSeleccionado s) (nombreArchivo s) (validacion s)
    (resultado s) (validando s) (cargando s) (mostrarVistaPrevia s)
    (mensajeError s) (mensajeExito s) (mensajeAdvertencia s) (progreso s)
    (progresoMensaje s) x (intervaloSimulacion s).

Definition con_intervaloSimulacion (x : option Q) (s : State) : State :=
  mkState (archivoSeleccionado s) (nombreArchivo s) (validacion s)
    (resultado s) (validando s) (cargando s) (mostrarVistaPrevia s)
    (mensajeError s) (mensajeExito s) (mensajeAdvertencia s) (progreso s)
    (progresoMensaje s) (websocket s) x.

(** What a method starts besides changing the state.  The callbacks of
    timers are named: [IniciarCarga] is the body of the 100 ms timeout of
    [cargarArchivo], [TickSimulacion] the body of the interval of
    [simularProgresoGradual]. *)
Inductive Tarea : Type :=
| IniciarCarga
| TickSimulacion (incrementoPorCiclo : Q).

Inductive Efecto : Type :=
| ValidarExcel (archivo : File)
| CargarExcel (archivo : File)
| SetTimeout (ms : Z) (t : Tarea)
| SetInterval (ms : Z) (t : Tarea)
| ClearInterval
| AbrirWebSocket
| CerrarWebSocket.

Definition Metodo : Type := State -> State * list Efecto.

(** One method after another. *)
Definition luego (m1 m2 : Metodo) : Metodo :=
  fun s =>
    let (s1, e1) := m1 s in
    let (s2, e2) := m2 s1 in
    (s2, e1 ++ e2)%list.

Definition limpiarMensajes (s : State) : State :=
  con_mensajeAdvertencia "" (con_mensajeExito "" (con_mensajeError "" s)).

Definition validarArchivo : Metodo :=
  fun s =>
    match archivoSeleccionado s with
    | None => (con_mensajeAdvertencia "Por favor selecciona un archivo" s, [])
    | Some archivo =>
        let s := con_validando true s in
        let s := limpiarMensajes s in
        let s := con_validacion None s in
        (s, [ValidarExcel archivo])
    end.

Definition MAX_SIZE : Z := 10 * 1024 * 1024.

(** [file.name.split('.').pop()?.toLowerCase()], then [extension || '']. *)
Definition extension (file : File) : string :=
  match Js.pop (Js.split "." (name file)) with
  | Some e => Js.toLowerCase e
  | None => ""
  end.

(** [['xlsx', 'xls'].includes(x)]. *)
Definition es_excel (x : string) : bool :=
  existsb (String.eqb x) ["xlsx"; "xls"].

(** [event.target?.files?.[0]] is the argument: [None] when the dialog
    was closed without a file. *)
Definition onFileSelected (file : option File) : Metodo :=
  fun s =>
    let s := limpiarMensajes s in
    match file with
    | None => (con_mensajeAdvertencia "No se seleccionó ningún archivo" s, [])
    | Some file =>
        if (size file >? MAX_SIZE)%Z then
          let s := con_mensajeError "El archivo excede el tamaño máximo de 10 MB" s in
          let s := con_archivoSeleccionado None s in
          (con_nombreArchivo "" s, [])
        else if negb (es_excel (extension file)) then
          let s := con_mensajeError "Solo se permiten archivos Excel (.xlsx o .xls)" s in
          let s := con_archivoSeleccionado None s in
          (con_nombreArchivo "" s, [])
        else
          let s := con_archivoSeleccionado (Some file) s in
          let s := con_nombreArchivo (name file) s in
          let s := con_validacion None s in
          let s := con_resultado None s in
          let s := con_mostrarVistaPrevia false s in
          validarArchivo s
    end.

(** [this.validacion?.valido] as a condition. *)
Definition validacion_valida (s : State) : bool :=
  match validacion s with
  | Some v => valido v
  | None => false
  end.

(** [confirmar] is the answer of the user to the [confirm] dialog, which
    is only shown once both guards have passed. *)
Definition cargarArchivo (confirmar : bool) : Metodo :=
  fun s =>
    match archivoSeleccionado s with
    | None => (con_mensajeAdvertencia "Por favor selecciona un archivo" s, [])
    | Some _ =>
        if negb (validacion_valida s) then
          (con_mensajeAdvertencia "Primero valida el archivo" s, [])
        else if negb confirmar then (s, [])
        else
          let s := con_cargando true s in
          let s := con_progreso 0 s in
          let s := limpiarMensajes s in
          let s := con_resultado None s in
          (s, [SetTimeout 100 IniciarCarga])
    end.

Definition ejecutarCarga : Metodo :=
  fun s =>
    match archivoSeleccionado s with
    | None => (s, [])
    | Some archivo => (s, [CargarExcel archivo])
    end.

(** [this.validacion?.total_filas || 10]. *)
Definition totalFilas (s : State) : Z :=
  match validacion s with
  | Some v => if (total_filas v =? 0)%Z then 10%Z else total_filas v
  | None => 10%Z
  end.

Definition tiempoEstimado (filas : Z) : Z :=
  Z.max 8000 (Z.min (filas * 200) 30000).

Definition intervaloTiempo : Z := 200.

Definition incrementoPorCiclo (filas : Z) : Q :=
  80 / (inject_Z (tiempoEstimado filas) / inject_Z intervaloTiempo).

Definition simularProgresoGradual : Metodo :=
  fun s =>
    let s := con_progreso 0 s in
    let s := con_progresoMensaje "Iniciando carga..." s in
    let inc := incrementoPorCiclo (totalFilas s) in
    (con_intervaloSimulacion (Some inc) s,
     [SetInterval intervaloTiempo (TickSimulacion inc)]).

(** The callback of the interval. *)
Definition tickSimulacion (inc : Q) (s : State) : State :=
  if Qlt_le_dec (progreso s) 80 then
    let s := con_progreso (progreso s + inc) s in
    let s :=
      if Qlt_le_dec (progreso s) 20 then
        con_progresoMensaje "📋 Preparando datos..." s
      else if Qlt_le_dec (progreso s) 40 then
        con_progresoMensaje "🔍 Validando productos..." s
      else if Qlt_le_dec (progreso s) 60 then
        con_progresoMensaje "💾 Insertando en base de datos..." s
      else if Qlt_le_dec (progreso s) 80 then
        con_progresoMensaje "✏️ Actualizando registros..." s
      else s in
    con_progreso (inject_Z (Qfloor (progreso s))) s
  else
    let s := con_progreso 85 s in
    con_progresoMensaje "⏳ Completando proceso..." s.

Definition detenerSimulacion : Metodo :=
  fun s =>
    match intervaloSimulacion s with
    | Some _ => (con_intervaloSimulacion None s, [ClearInterval])
    | None => (s, [])
    end.

(** [crearWebSocketProgreso] of the service; the handlers it installs
    run on later events. *)
Definition conectarWebSocket : Metodo :=
  fun s => (con_websocket true s, [AbrirWebSocket]).

Definition desconectarWebSocket : Metodo :=
  fun s =>
    if websocket s then (con_websocket false s, [CerrarWebSocket])
    else (s, []).

(** The [next] handler of [cargarExcel] in [ejecutarCarga], up to the
    2 s timeout it starts. *)
Definition respuestaRecibida (s : State) : State :=
  let s := con_progreso 100 s in
  con_progresoMensaje "✅ Carga completada!" s.

Definition ejecutarTarea (t : Tarea) : Metodo :=
  match t with
  | IniciarCarga =>
      luego simularProgresoGradual (luego conectarWebSocket ejecutarCarga)
  | TickSimulacion inc => fun s => (tickSimulacion inc s, [])
  end.

(** The timers that a list of effects starts with [setTimeout]. *)
Definition temporizadores (es : list Efecto) : list Tarea :=
  flat_map (fun e => match e with SetTimeout _ t => [t] | _ => [] end) es.

(** A method followed by the timeouts it started, in order, with no
    other event in between. *)
Definition con_temporizadores (m : Metodo) : Metodo :=
  fun s =>
    let (s1, e1) := m s in
    fold_left (fun r t => let (s2, e2) := ejecutarTarea t (fst r) in
                          (s2, (snd r ++ e2)%list))
              (temporizadores e1) (s1, e1).

(** The files for which a list of effects calls [cargarExcel]. *)
Definition cargas (es : list Efecto) : list File :=
  flat_map (fun e => match e with CargarExcel f => [f] | _ => [] end) es.

(** The state after [n] ticks of the interval. *)
Fixpoint ticks (inc : Q) (n : nat) (s : State) : State :=
  match n with
  | O => s
  | S k => ticks inc k (tickSimulacion inc s)
  end.

End CargaExcel.

(** ** The earlier carga-excel component (no simulation, alerts) *)

Module CargaExcelAlertas.
Import Servicio Excel.

Record State : Type := mkState {
  archivoSeleccionado : option File;
  nombreArchivo : string;
  validacion : option ValidacionExcel;
  resultado : option ResultadoCarga;
  validando : bool;
  cargando : bool;
  mostrarVistaPrevia : bool;
  progreso : Q;
  progresoMensaje : string;
  websocket : bool
}.

Inductive Efecto : Type :=
| Alert (mensaje : string)
| CargarExcel (archivo : File)
| AbrirWebSocket.

Definition validacion_valida (s : State) : bool :=
  match validacion s with
  | Some v => valido v
  | None => false
  end.

(** Up to the subscription to the answer of [cargarExcel]. *)
Definition cargarArchivo (confirmar : bool) (s : State) : State * list Efecto :=
  match archivoSeleccionado s with
  | Some archivo =>
      if validacion_valida s then
        if negb confirmar then (s, [])
        else
          (mkState (archivoSeleccionado s) (nombreArchivo s) (validacion s)
             None (validando s) true (mostrarVistaPrevia s) 0
             (progresoMensaje s) true,
           [AbrirWebSocket; CargarExcel archivo])
      else (s, [Alert "⚠️ Primero valida el archivo"])
  | None => (s, [Alert "⚠️ Primero valida el archivo"])
  end.

Definition cargas (es : list Efecto) : list File :=
  flat_map (fun e => match e with CargarExcel f => [f] | _ => [] end) es.

End CargaExcelAlertas.

(** ** The two producto.service.ts: requests of the Excel endpoints *)

Module Http.

(** A POST of a multipart form: the URL and the fields appended to the
    [FormData], in order. *)
Record Post : Type := mkPost {
  url : string;
  formData : list (string * Excel.File)
}.

End Http.

(** The service that reads its base URL from the environment file, which
    is not part of the sources: [apiUrl] is an argument. *)
Module ServicioEntorno.

Definition validarExcel (apiUrl : string) (archivo : Excel.File) : Http.Post :=
  let formData := [] in
  let formData := (formData ++ [("archivo", archivo)])%list in
  Http.mkPost (apiUrl ++ "/productos/validar-excel") formData.

Definition cargarExcel (apiUrl : string) (archivo : Excel.File) : Http.Post :=
  let formData := [] in
  let formData := (formData ++ [("archivo", archivo)])%list in
  Http.mkPost (apiUrl ++ "/productos/cargar-excel") formData.

End ServicioEntorno.

(** The service with the fixed base URL (and [catchError] on the
    answers, which does not touch the request). *)
Module ServicioLocal.

Definition apiUrl : string := "http://localhost:8000/api".

Definition validarExcel (archivo : Excel.File) : Http.Post :=
  let formData := [] in
  let formData := (formData ++ [("file", archivo)])%list in
  Http.mkPost (apiUrl ++ "/productos/validar-excel") formData.

Definition cargarExcel (archivo : Excel.File) : Http.Post :=
  let formData := [] in
  let formData := (formData ++ [("file", archivo)])%list in
  Http.mkPost (apiUrl ++ "/productos/cargar-excel") formData.

End ServicioLocal.

(** ** backend/init.sql: the productos table *)

Module Sql.

(** *** Strings of the database *)

(** A byte that continues a UTF-8 character. *)
Definition es_continuacion (c : ascii) : bool :=
  let n := nat_of_ascii c in (128 <=? n)%nat && (n <? 192)%nat.

(** [LENGTH]: the number of characters. *)
Fixpoint LENGTH (s : string) : Z :=
  match s with
  | EmptyString => 0
  | String c r => ((if es_continuacion c then 0 else 1) + LENGTH r)%Z
  end.

Fixpoint ltrim (s : string) : string :=
  match s with
  | String c r => if Ascii.eqb c " " then ltrim r else s
  | EmptyString => s
  end.

(** [TRIM(s)], that is [TRIM(BOTH ' ' FROM s)]: only the space
    character is removed. *)
Definition TRIM (s : string) : string :=
  Js.reverse (ltrim (Js.reverse (ltrim s))).

Fixpoint solo_espacios (s : string) : bool :=
  match s with
  | String c r => Ascii.eqb c " " && solo_espacios r
  | EmptyString => true
  end.

Fixpoint tomar_continuacion (s : string) : string :=
  match s with
  | String c r => if es_continuacion c then String c (tomar_continuacion r) else ""
  | EmptyString => ""
  end.

Fixpoint saltar_continuacion (s : string) : string :=
  match s with
  | String c r => if es_continuacion c then saltar_continuacion r else s
  | EmptyString => s
  end.

(** The first [n] characters of [s] and the rest. *)
Fixpoint partir (n : nat) (s : string) : string * string :=
  match n with
  | O => ("", s)
  | S k =>
      match s with
      | EmptyString => ("", "")
      | String c r =>
          let (h, t) := partir k (saltar_continuacion r) in
          (String c (tomar_continuacion r ++ h), t)
      end
  end.

(** *** Errors and results *)

Inductive ErrorSql : Type :=
| string_data_right_truncation
| numeric_value_out_of_range
| not_null_violation (columna : string)
| check_violation (restriccion : string)
| unique_violation (indice : string).

Inductive Resultado (A : Type) : Type :=
| Ok (a : A)
| Error (e : ErrorSql).

Arguments Ok {A} a.
Arguments Error {A} e.

Definition ligar {A B} (r : Resultado A) (k : A -> Resultado B) : Resultado B :=
  match r with
  | Ok a => k a
  | Error e => Error e
  end.

Notation "x <- r ;; k" := (ligar r (fun x => k))
  (at level 61, r at next level, right associativity).

Definition exigir (b : bool) (e : ErrorSql) : Resultado unit :=
  if b then Ok tt else Error e.

(** *** Column types *)

(** A value stored in a [VARCHAR(n)] column: a longer value is an error
    unless the excess is made of spaces, which are cut off. *)
Definition varchar (n : nat) (v : option string) : Resultado (option string) :=
  match v with
  | None => Ok None
  | Some s =>
      if (LENGTH s <=? Z.of_nat n)%Z then Ok (Some s)
      else
        let (cabeza, cola) := partir n s in
        if solo_espacios cola then Ok (Some cabeza)
        else Error string_data_right_truncation
  end.

(** [INTEGER] and [SERIAL]: 32 bits. *)
Definition integer (v : option Z) : Resultado (option Z) :=
  match v with
  | None => Ok None
  | Some z =>
      if (-2147483648 <=? z)%Z && (z <=? 2147483647)%Z then Ok (Some z)
      else Error numeric_value_out_of_range
  end.

(** [DECIMAL(10, 2)], held in hundredths: fewer than 10^8 units. *)
Definition decimal_10_2 (v : option Z) : Resultado (option Z) :=
  match v with
  | None => Ok None
  | Some c =>
      if (Z.abs c <? 10000000000)%Z then Ok (Some c)
      else Error numeric_value_out_of_range
  end.

(** *** The table *)

(** A row; [None] is NULL.  [precio] is in hundredths, the two
    timestamps are instants on an integer clock. *)
Record Fila : Type := mkFila {
  id : option Z;
  codigo : option string;
  nombre : option string;
  descripcion : option string;
  cantidad : option Z;
  precio : option Z;
  categoria : option string;
  fecha_creacion : option Z;
  fecha_actualizacion : option Z
}.

(** The rows of productos and the last value of the sequence behind
    [id SERIAL]. *)
Record Tabla : Type := mkTabla {
  filas : list Fila;
  productos_id_seq : Z
}.

(** After [CREATE TABLE]. *)
Definition vacia : Tabla := mkTabla [] 0.

(** The declared types of the columns. *)
Definition tipos (r : Fila) : Resultado Fila :=
  i <- integer (id r) ;;
  c <- varchar 50 (codigo r) ;;
  n <- varchar 200 (nombre r) ;;
  q <- integer (cantidad r) ;;
  p <- decimal_10_2 (precio r) ;;
  g <- varchar 100 (categoria r) ;;
  Ok (mkFila i c n (descripcion r) q p g (fecha_creacion r)
        (fecha_actualizacion r)).

Definition presente {A} (v : option A) (columna : string) : Resultado unit :=
  match v with
  | Some _ => Ok tt
  | None => Error (not_null_violation columna)
  end.

(** PRIMARY KEY and NOT NULL. *)
Definition no_nulos (r : Fila) : Resultado unit :=
  _ <- presente (id r) "id" ;;
  _ <- presente (codigo r) "codigo" ;;
  _ <- presente (nombre r) "nombre" ;;
  _ <- presente (cantidad r) "cantidad" ;;
  presente (precio r) "precio".

(** A CHECK holds when its condition is true or unknown (NULL). *)
Definition check_cantidad (r : Fila) : bool :=
  match cantidad r with
  | Some c => (c >=? 0)%Z
  | None => true
  end.

Definition check_precio (r : Fila) : bool :=
  match precio r with
  | Some p => (p >=? 0)%Z
  | None => true
  end.

Definition check_codigo_no_vacio (r : Fila) : bool :=
  match codigo r with
  | Some c => (LENGTH (TRIM c) >? 0)%Z
  | None => true
  end.

Definition check_nombre_no_vacio (r : Fila) : bool :=
  match nombre r with
  | Some n => (LENGTH (TRIM n) >? 0)%Z
  | None => true
  end.

Definition checks (r : Fila) : Resultado unit :=
  _ <- exigir (check_cantidad r) (check_violation "check_cantidad") ;;
  _ <- exigir (check_precio r) (check_violation "check_precio") ;;
  _ <- exigir (check_codigo_no_vacio r) (check_violation "check_codigo_no_vacio") ;;
  exigir (check_nombre_no_vacio r) (check_violation "check_nombre_no_vacio").

Definition mismo_Z (a b : option Z) : bool :=
  match a, b with
  | Some x, Some y => (x =? y)%Z
  | _, _ => false
  end.

Definition mismo_texto (a b : option string) : bool :=
  match a, b with
  | Some x, Some y => String.eqb x y
  | _, _ => false
  end.

(** The unique indexes: the primary key and [codigo]; two NULLs never
    collide.  [otras] are the other rows of the table. *)
Definition unicos (otras : list Fila) (r : Fila) : Resultado unit :=
  _ <- exigir (negb (existsb (fun o => mismo_Z (id o) (id r)) otras))
         (unique_violation "productos_pkey") ;;
  exigir (negb (existsb (fun o => mismo_texto (codigo o) (codigo r)) otras))
    (unique_violation "productos_codigo_key").

(** Everything a new version of a row goes through before it is stored. *)
Definition aceptar_fila (otras : list Fila) (r : Fila) : Resultado Fila :=
  r <- tipos r ;;
  _ <- no_nulos r ;;
  _ <- checks r ;;
  _ <- unicos otras r ;;
  Ok r.

(** *** INSERT *)

(** What a statement gives for a column: nothing or DEFAULT, or a value
    (possibly NULL). *)
Inductive Valor (A : Type) : Type :=
| DEFAULT
| Dato (v : option A).

Arguments DEFAULT {A}.
Arguments Dato {A} v.

Record Valores : Type := mkValores {
  v_id : Valor Z;
  v_codigo : Valor string;
  v_nombre : Valor string;
  v_descripcion : Valor string;
  v_cantidad : Valor Z;
  v_precio : Valor Z;
  v_categoria : Valor string;
  v_fecha_creacion : Valor Z;
  v_fecha_actualizacion : Valor Z
}.

Definition o_defecto {A} (v : Valor A) (d : option A) : option A :=
  match v with
  | DEFAULT => d
  | Dato x => x
  end.

(** The row of a VALUES tuple; DEFAULT of [id] draws from the sequence,
    [ahora] is CURRENT_TIMESTAMP. *)
Definition fila_de (ahora : Z) (seq : Z) (v : Valores) : Fila * Z :=
  let (i, seq) :=
    match v_id v with
    | DEFAULT => (Some (seq + 1)%Z, (seq + 1)%Z)
    | Dato x => (x, seq)
    end in
  (mkFila i
     (o_defecto (v_codigo v) None)
     (o_defecto (v_nombre v) None)
     (o_defecto (v_descripcion v) None)
     (o_defecto (v_cantidad v) (Some 0%Z))
     (o_defecto (v_precio v) None)
     (o_defecto (v_categoria v) None)
     (o_defecto (v_fecha_creacion v) (Some ahora))
     (o_defecto (v_fecha_actualizacion v) (Some ahora)),
   seq).

(** The tuples of one INSERT, in order.  The sequence keeps what it
    gave out even when the statement fails. *)
Fixpoint insertar_filas (ahora : Z) (vs : list Valores) (t : Tabla)
  : Resultado (list Fila) * Z :=
  match vs with
  | [] => (Ok (filas t), productos_id_seq t)
  | v :: resto =>
      let (r, seq) := fila_de ahora (productos_id_seq t) v in
      match aceptar_fila (filas t) r with
      | Ok r' => insertar_filas ahora resto (mkTabla (filas t ++ [r']) seq)
      | Error e => (Error e, seq)
      end
  end.

(** *** UPDATE *)

(** The SET list: for each column, nothing or an expression over the
    row as it was. *)
Record Asignaciones : Type := mkAsignaciones {
  s_id : option (Fila -> option Z);
  s_codigo : option (Fila -> option string);
  s_nombre : option (Fila -> option string);
  s_descripcion : option (Fila -> option string);
  s_cantidad : option (Fila -> option Z);
  s_precio : option (Fila -> option Z);
  s_categoria : option (Fila -> option string);
  s_fecha_creacion : option (Fila -> option Z);
  s_fecha_actualizacion : option (Fila -> option Z)
}.

(** An assigned column takes the value of its expression, converted to
    the type of the column; the others keep what they hold. *)
Definition asignar {A} (tipo : option A -> Resultado (option A))
  (e : option (Fila -> option A)) (old : Fila) (actual : option A)
  : Resultado (option A) :=
  match e with
  | Some f => tipo (f old)
  | None => Ok actual
  end.

(** NEW as the statement builds it from OLD. *)
Definition aplicar (a : Asignaciones) (old : Fila) : Resultado Fila :=
  i <- asignar integer (s_id a) old (id old) ;;
  c <- asignar (varchar 50) (s_codigo a) old (codigo old) ;;
  n <- asignar (varchar 200) (s_nombre a) old (nombre old) ;;
  d <- asignar Ok (s_descripcion a) old (descripcion old) ;;
  q <- asignar integer (s_cantidad a) old (cantidad old) ;;
  p <- asignar decimal_10_2 (s_precio a) old (precio old) ;;
  g <- asignar (varchar 100) (s_categoria a) old (categoria old) ;;
  fc <- asignar Ok (s_fecha_creacion a) old (fecha_creacion old) ;;
  fa <- asignar Ok (s_fecha_actualizacion a) old (fecha_actualizacion old) ;;
  Ok (mkFila i c n d q p g fc fa).

(** The function of [trigger_actualizar_fecha], BEFORE UPDATE FOR EACH
    ROW: [NEW.fecha_actualizacion = CURRENT_TIMESTAMP; RETURN NEW]. *)
Definition actualizar_fecha_modificacion (ahora : Z) (NEW : Fila) : Fila :=
  mkFila (id NEW) (codigo NEW) (nombre NEW) (descripcion NEW) (cantidad NEW)
    (precio NEW) (categoria NEW) (fecha_creacion NEW) (Some ahora).

(** The new version of one row: the SET list, then the trigger. *)
Definition nueva_version (ahora : Z) (a : Asignaciones) (old : Fila) : Resultado Fila :=
  r <- aplicar a old ;;
  Ok (actualizar_fecha_modificacion ahora r).

(** The rows are visited one after the other; [hechas] are the rows
    already visited, in their new versions. *)
Fixpoint actualizar_filas (ahora : Z) (a : Asignaciones) (donde : Fila -> bool)
  (hechas pendientes : list Fila) : Resultado (list Fila) :=
  match pendientes with
  | [] => Ok hechas
  | old :: resto =>
      if donde old then
        r <- nueva_version ahora a old ;;
        _ <- no_nulos r ;;
        _ <- checks r ;;
        _ <- unicos (hechas ++ resto) r ;;
        actualizar_filas ahora a donde (hechas ++ [r]) resto
      else actualizar_filas ahora a donde (hechas ++ [old]) resto
  end.

(** *** Statements *)

Inductive Sentencia : Type :=
| INSERT (vs : list Valores)
| UPDATE (a : Asignaciones) (donde : Fila -> bool)
| DELETE (donde : Fila -> bool).

(** A statement run at the instant [ahora]: the table afterwards and
    the error, if any.  A statement that fails leaves the rows alone. *)
Definition ejecutar (ahora : Z) (st : Sentencia) (t : Tabla) : Tabla * option ErrorSql :=
  match st with
  | INSERT vs =>
      match insertar_filas ahora vs t with
      | (Ok fs, seq) => (mkTabla fs seq, None)
      | (Error e, seq) => (mkTabla (filas t) seq, Some e)
      end
  | UPDATE a donde =>
      match actualizar_filas ahora a donde [] (filas t) with
      | Ok fs => (mkTabla fs (productos_id_seq t), None)
      | Error e => (t, Some e)
      end
  | DELETE donde =>
      (mkTabla (filter (fun r => negb (donde r)) (filas t)) (productos_id_seq t),
       None)
  end.

Definition ejecutar_todas (guion : list (Z * Sentencia)) (t : Tabla) : Tabla :=
  fold_left (fun t p => fst (ejecutar (fst p) (snd p) t)) guion t.

(** The INSERT that closes init.sql. *)
Definition semilla (c n d : string) (q p : Z) (g : string) : Valores :=
  mkValores DEFAULT (Dato (Some c)) (Dato (Some n)) (Dato (Some d))
    (Dato (Some q)) (Dato (Some p)) (Dato (Some g)) DEFAULT DEFAULT.

Definition datos_iniciales : Sentencia :=
  INSERT
    [semilla "PROD001" "Laptop Dell XPS 15" "Laptop de alto rendimiento"
       10 129999 "Electrónica";
     semilla "PROD002" "Mouse Logitech MX Master" "Mouse ergonómico inalámbrico"
       25 9999 "Accesorios";
     semilla "PROD003" "Teclado Mecánico Keychron K2"
       "Teclado mecánico retroiluminado" 15 8999 "Accesorios";
     semilla "PROD004" "Monitor LG 27 4K" "Monitor 4K UHD 27 pulgadas"
       8 44999 "Electrónica";
     semilla "PROD005" "Webcam Logitech C920" "Webcam Full HD 1080p"
       20 7999 "Accesorios"].

End Sql.

(** ** Statements in the words of the specification *)

Module Especificacion.
Import Servicio.

(** The page number is in range. *)
Definition pagina_ok (s : ProductoList.State) : Prop :=
  (1 <= ProductoList.paginaActual s)%Z
  /\ ((1 <= ProductoList.totalPaginas s)%Z ->
      (ProductoList.paginaActual s <= ProductoList.totalPaginas s)%Z).





(** [seg] holds no dot. *)
Definition sin_punto (seg : string) : Prop :=
  forall a b : string, seg <> (a ++ "." ++ b)%string.

(** [seg] is the final dot-separated segment of [nombre]: what follows
    the last dot, or the whole name when it has none. *)
Definition ultimo_segmento (nombre seg : string) : Prop :=
  sin_punto seg
  /\ (nombre = seg \/ exists pre : string, nombre = (pre ++ "." ++ seg)%string).

(** A file that the upload form takes: at most 10 MB, and the final
    segment of its name is xlsx or xls in any case of letters. *)
Definition aceptable (f : Excel.File) : Prop :=
  (Excel.size f <= 10 * 1024 * 1024)%Z
  /\ exists seg : string,
       ultimo_segmento (Excel.name f) seg
       /\ (Js.toLowerCase seg = "xlsx" \/ Js.toLowerCase seg = "xls").

(** The form has taken [f]. *)
Definition aceptado (f : Excel.File) (s : CargaExcel.State) : Prop :=
  CargaExcel.archivoSeleccionado s = Some f
  /\ CargaExcel.nombreArchivo s = Excel.name f
  /\ CargaExcel.validacion s = None
  /\ CargaExcel.resultado s = None
  /\ CargaExcel.mostrarVistaPrevia s = false.

(** A row as the constraints of the table leave it; the trimming is the
    [TRIM] of SQL, which removes spaces. *)
Definition fila_valida (r : Sql.Fila) : Prop :=
  (exists c, Sql.cantidad r = Some c /\ (0 <= c)%Z)
  /\ (exists p, Sql.precio r = Some p /\ (0 <= p)%Z)
  /\ (exists c, Sql.codigo r = Some c /\ (0 < Sql.LENGTH (Sql.TRIM c))%Z)
  /\ (exists n, Sql.nombre r = Some n /\ (0 < Sql.LENGTH (Sql.TRIM n))%Z).

Definition invariante (fs : list Sql.Fila) : Prop :=
  Forall fila_valida fs /\ NoDup (map Sql.codigo fs).

(** The same with white space in general trimmed off, as the
    specification words it. *)
Definition fila_valida_spec (r : Sql.Fila) : Prop :=
  (exists c, Sql.cantidad r = Some c /\ (0 <= c)%Z)
  /\ (exists p, Sql.precio r = Some p /\ (0 <= p)%Z)
  /\ (exists c, Sql.codigo r = Some c /\ Js.trim c <> ""%string)
  /\ (exists n, Sql.nombre r = Some n /\ Js.trim n <> ""%string).

Definition invariante_spec (fs : list Sql.Fila) : Prop :=
  Forall fila_valida_spec fs /\ NoDup (map Sql.codigo fs).

(** [r] holds what [old] held in every column that the SET list leaves
    out, [fecha_actualizacion] apart. *)
Definition conserva (a : Sql.Asignaciones) (old r : Sql.Fila) : Prop :=
  (Sql.s_id a = None -> Sql.id r = Sql.id old)
  /\ (Sql.s_codigo a = None -> Sql.codigo r = Sql.codigo old)
  /\ (Sql.s_nombre a = None -> Sql.nombre r = Sql.nombre old)
  /\ (Sql.s_descripcion a = None -> Sql.descripcion r = Sql.descripcion old)
  /\ (Sql.s_cantidad a = None -> Sql.cantidad r = Sql.cantidad old)
  /\ (Sql.s_precio a = None -> Sql.precio r = Sql.precio old)
  /\ (Sql.s_categoria a = None -> Sql.categoria r = Sql.categoria old)
  /\ (Sql.s_fecha_creacion a = None ->
      Sql.fecha_creacion r = Sql.fecha_creacion old).

End Especificacion.

(** ** Sample inputs *)

Module Muestras.
Import Servicio.

(** Seven products filtered, page 2 of 2 shown. *)
Definition siete_en_pagina_2 : ProductoList.State :=
  ProductoList.mkState [] ProductoList.nuevoProducto false [] false 2 2 ""
    (repeat ProductoList.nuevoProducto 7).

(** A form that is complete except for a price of zero. *)
Definition tornillo (p : Js.number) : Producto :=
  {| id := None; codigo := "T-01"; nombre := "Tornillo";
     descripcion := None; cantidad := Js.Num 3; precio := p;
     categoria := None |}.

Definition formulario (p : Js.number) : ProductoList.State :=
  ProductoList.mkState [] (tornillo p) false [] false 1 0 "" [].

(** Two products and a search for " LAP ". *)
Definition portatil : Producto :=
  {| id := Some 1%Z; codigo := "PROD001"; nombre := "Laptop Dell XPS 15";
     descripcion := None; cantidad := Js.Num 10; precio := Js.Num (129999 # 100);
     categoria := Some "Equipos" |}.



(** A validated workbook of [filas] rows, ready to be uploaded. *)
Definition libro : Excel.File := Excel.mkFile "productos.xlsx" 20480.

Definition validado (filas : Z) : CargaExcel.State :=
  CargaExcel.con_validacion
    (Some (Excel.mkValidacion true "Archivo valido" [] filas [] None))
    (CargaExcel.con_archivoSeleccionado (Some libro) CargaExcel.inicial).

(** The same workbook after a validation that failed. *)
Definition invalido : CargaExcel.State :=
  CargaExcel.con_validacion
    (Some (Excel.mkValidacion false "Faltan columnas" ["precio"] 0 [] None))
    (CargaExcel.con_archivoSeleccionado (Some libro) CargaExcel.inicial).

(** An upper-case extension, and a file that only looks like Excel. *)
Definition informe : Excel.File := Excel.mkFile "Informe.final.XLSX" 1024.

Definition disfrazado : Excel.File := Excel.mkFile "productos.xlsx.exe" 1024.

(** A product whose code is a single tabulator. *)
Definition codigo_tabulador : Sql.Valores :=
  Sql.mkValores Sql.DEFAULT (Sql.Dato (Some (String "009" "")))
    (Sql.Dato (Some "Tuerca")) Sql.DEFAULT Sql.DEFAULT (Sql.Dato (Some 150%Z))
    Sql.DEFAULT Sql.DEFAULT Sql.DEFAULT.

(** [UPDATE productos SET cantidad = cantidad - 3 WHERE codigo = 'PROD002']. *)
Definition vender_tres : Sql.Sentencia :=
  Sql.UPDATE
    (Sql.mkAsignaciones None None None None
       (Some (fun r => option_map (fun c => (c - 3)%Z) (Sql.cantidad r)))
       None None None None)
    (fun r => Sql.mismo_texto (Sql.codigo r) (Some "PROD002")).

(** The table after init.sql, run at instant 1000. *)
Definition tabla_inicial : Sql.Tabla :=
  Sql.ejecutar_todas [(1000%Z, Sql.datos_iniciales)] Sql.vacia.

End Muestras.

(** ** More of the JavaScript primitives *)

Module JsTexto.

(** A whole number inside a template string. *)
Definition texto_de_entero (z : Z) : string :=
  NilEmpty.string_of_int (Z.to_int z).

(** [Array.prototype.join]. *)
Definition join (sep : string) (l : list string) : string :=
  String.concat sep l.

(** [String.prototype.endsWith]. *)
Definition endsWith (s t : string) : bool :=
  String.prefix (Js.reverse t) (Js.reverse s).

(** A byte outside ASCII: part of a character of several bytes. *)
Definition alto (a : ascii) : bool := (128 <=? nat_of_ascii a)%nat.


(** [a || b] on an optional string and a string. *)
Definition o_bien (a : option string) (b : string) : string :=
  match a with
  | Some (String c r) => String c r
  | _ => b
  end.

End JsTexto.

(** ** producto-list.component.ts: the rest of the form and the errors *)

Module ProductoListResto.
Import Servicio ProductoList.

Definition con_productoForm (p : Producto) (s : State) : State :=
  mkState (productos s) p (editando s) (errores s) (cargando s)
    (paginaActual s) (totalPaginas s) (terminoBusqueda s) (productosFiltrados s).

Definition con_editando (b : bool) (s : State) : State :=
  mkState (productos s) (productoForm s) b (errores s) (cargando s)
    (paginaActual s) (totalPaginas s) (terminoBusqueda s) (productosFiltrados s).

(** The scroll to the form is not part of the state. *)
Definition editarProducto (producto : Producto) (s : State) : State :=
  let s := con_productoForm producto s in
  let s := con_editando true s in
  con_errores [] s.

Definition cancelar (s : State) : State :=
  let s := con_productoForm nuevoProducto s in
  let s := con_editando false s in
  con_errores [] s.

Definition obtenerEstadoStock (cantidad : Js.number) : string :=
  match cantidad with
  | Js.Num q =>
      if Qeq_bool q 0 then "badge-danger"
      else if Js.lt cantidad 10 then "badge-warning"
      else "badge-success"
  | Js.NaN => "badge-success"
  end.

(** *** The error object of a failed request *)

(** An element of the [loc] array of a validation error. *)
Inductive Loc : Type :=
| LocTexto (s : string)
| LocNumero (z : Z).

(** An entry of a [detail] array: an object, of which [loc], [msg] and
    [message] are read. *)
Record Entrada : Type := mkEntrada {
  loc : option (list Loc);
  msg : option string;
  e_message : option string
}.

(** The [detail] of the body: missing or falsy, a string, an array of
    entries, or another truthy value, given by its JSON text (a first
    character and the rest: that text is never empty). *)
Inductive Detalle : Type :=
| DetalleAusente
| DetalleTexto (s : string)
| DetalleLista (l : list Entrada)
| DetalleOtro (c : ascii) (json : string).

(** [error.error]: nothing, an [ErrorEvent] of the browser, a string, or
    an object, of which [detail], [mensaje] and [message] are read. *)
Inductive Cuerpo : Type :=
| CuerpoNulo
| CuerpoEvento (message : string)
| CuerpoTexto (s : string)
| CuerpoObjeto (detail : Detalle) (mensaje message : option string).

Record HttpErrorResponse : Type := mkHttpError {
  status : Z;
  statusText : string;
  error : Cuerpo
}.


Definition texto_de_loc (l : Loc) : string :=
  match l with
  | LocTexto s => s
  | LocNumero z => JsTexto.texto_de_entero z
  end.





(** What the list component asks of the service besides saving. *)
Inductive Consulta : Type :=
| obtenerProductos
| eliminar (id : Z).

(** [cargarProductos], up to the answer. *)
Definition cargarProductos (s : State) : State * list Consulta :=
  (con_cargando true s, [obtenerProductos]).

(** The [next] handler of both requests of [guardarProducto]; the alert
    that closes it is not part of the state. *)
Definition guardadoCorrecto (s : State) : State * list Consulta :=
  let (s, q) := cargarProductos s in
  (cancelar s, q).

(** [confirmar] is the answer of the user to the [confirm] dialog. *)
Definition eliminarProducto (confirmar : bool) (id : Z) (s : State)
  : State * list Consulta :=
  if confirmar then (s, [eliminar id]) else (s, []).

(** The [next] handler of [eliminarProducto]. *)
Definition eliminadoCorrecto (s : State) : State * list Consulta :=
  cargarProductos s.

End ProductoListResto.

(** ** carga-excel.component.ts: answers, cleaning up *)

Module CargaExcelResto.
Import Servicio Excel CargaExcel.

(** The [next] handler of [validarExcel]. *)
Definition validacionRecibida (v : ValidacionExcel) (s : State) : State :=
  let s := con_validacion (Some v) s in
  let s := con_validando false s in
  if valido v then
    let s := con_mensajeExito (v_mensaje v) s in
    let s := con_mostrarVistaPrevia (0 <? List.length (datos_previos v))%nat s in
    match advertencias v with
    | Some (a :: l) => con_mensajeAdvertencia (JsTexto.join ", " (a :: l)) s
    | _ => s
    end
  else
    let s := con_mensajeError (v_mensaje v) s in
    if (0 <? List.length (v_errores v))%nat then
      let erroresTexto := JsTexto.join "; " (Js.slice (v_errores v) 0 3) in
      let s := con_mensajeError (mensajeError s ++ " - " ++ erroresTexto) s in
      if (3 <? List.length (v_errores v))%nat then
        con_mensajeError
          (mensajeError s ++ " (y "
           ++ JsTexto.texto_de_entero (Z.of_nat (List.length (v_errores v)) - 3)
           ++ " errores más)") s
      else s
    else s.

(** The [error] handler of [validarExcel]; [message] is the message of
    the [Error] that the service threw. *)
Definition validacionFallida (message : string) (s : State) : State :=
  let s :=
    con_mensajeError
      (JsTexto.o_bien (Some message) "Error desconocido al validar el archivo") s in
  con_validando false s.

(** What the 2 s timeout after the answer of [cargarExcel] writes down,
    between stopping the simulation and closing the socket. *)
Definition anotarResultado (r : ResultadoCarga) (s : State) : State :=
  let s := con_resultado (Some r) s in
  let s := con_cargando false s in
  if success r then
    let s := con_mensajeExito (r_mensaje r) s in
    let resumen :=
      "Creados: " ++ JsTexto.texto_de_entero (productos_creados r)
      ++ ", Actualizados: " ++ JsTexto.texto_de_entero (productos_actualizados r)
      ++ ", Total: " ++ JsTexto.texto_de_entero (total_procesados r) in
    let s := con_progresoMensaje resumen s in
    if (0 <? List.length (r_errores r))%nat then
      let erroresTexto := JsTexto.join "; " (Js.slice (r_errores r) 0 3) in
      let s :=
        con_mensajeAdvertencia
          ("Algunos productos tuvieron errores: " ++ erroresTexto) s in
      if (3 <? List.length (r_errores r))%nat then
        con_mensajeAdvertencia
          (mensajeAdvertencia s ++ " (y "
           ++ JsTexto.texto_de_entero (Z.of_nat (List.length (r_errores r)) - 3)
           ++ " más)") s
      else s
    else s
  else con_mensajeError (r_mensaje r) s.

(** The body of the 2 s timeout that the [next] handler of
    [cargarExcel] starts. *)
Definition cargaTerminada (r : ResultadoCarga) : Metodo :=
  luego detenerSimulacion
    (luego (fun s => (anotarResultado r s, [])) desconectarWebSocket).

(** What the [error] handler of [cargarExcel] writes down. *)
Definition anotarFallo (message : string) (s : State) : State :=
  let s :=
    con_mensajeError
      (JsTexto.o_bien (Some message) "Error desconocido al cargar el archivo") s in
  con_cargando false s.

(** The [error] handler of [cargarExcel]. *)
Definition cargaFallida (message : string) : Metodo :=
  luego detenerSimulacion
    (luego (fun s => (anotarFallo message s, [])) desconectarWebSocket).

(** The file input of the page, which [limpiar] also empties, is not
    part of the state. *)
Definition limpiar (s : State) : State :=
  let s := con_archivoSeleccionado None s in
  let s := con_nombreArchivo "" s in
  let s := con_validacion None s in
  let s := con_resultado None s in
  let s := con_mostrarVistaPrevia false s in
  let s := con_progreso 0 s in
  let s := con_progresoMensaje "" s in
  limpiarMensajes s.

Definition ngOnDestroy : Metodo := luego desconectarWebSocket detenerSimulacion.

(** The [onopen] handler of the socket. *)
Definition socketAbierto : Metodo := detenerSimulacion.

Definition getBadgeClass (cantidad : Js.number) : string :=
  match cantidad with
  | Js.Num q =>
      if Qeq_bool q 0 then "bg-danger"
      else if Js.lt cantidad 10 then "bg-warning"
      else if Js.lt cantidad 50 then "bg-info"
      else "bg-success"
  | Js.NaN => "bg-success"
  end.

End CargaExcelResto.

(** ** The service bound to localhost: [handleError] *)

Module ServicioLocalErrores.
Import ProductoListResto.

(** The callback of [detail.map] in [handleError]:
    [`${err.loc?.join('.')}: ${err.msg}`]. *)
Definition texto_de_entrada (err : Entrada) : string :=
  (match loc err with
   | Some l => JsTexto.join "." (map texto_de_loc l)
   | None => "undefined"
   end)
  ++ ": "
  ++ (match msg err with
      | Some m => m
      | None => "undefined"
      end).

(** The message of the [Error] that [handleError] throws. *)
Definition handleError (e : HttpErrorResponse) : string :=
  match error e with
  | CuerpoEvento message => "Error: " ++ message
  | cuerpo =>
      if (status e =? 0)%Z then
        "No se pudo conectar con el servidor. Verifica tu conexión."
      else
        match cuerpo with
        | CuerpoTexto (String c r) => String c r
        | CuerpoObjeto (DetalleTexto (String c r)) _ _ => String c r
        | CuerpoObjeto (DetalleLista l) _ _ =>
            JsTexto.join ", " (map texto_de_entrada l)
        | CuerpoObjeto (DetalleOtro c json) _ _ => String c json
        | CuerpoObjeto _ (Some (String c r)) _ => String c r
        | CuerpoObjeto _ _ (Some (String c r)) => String c r
        | _ =>
            "Error " ++ JsTexto.texto_de_entero (status e) ++ ": " ++ statusText e
        end
  end.

End ServicioLocalErrores.

(** ** The earlier carga-excel component: choosing a file, the answer *)

Module CargaExcelAlertasResto.
Import Servicio Excel CargaExcelAlertas.

Definition MAX_SIZE : Z := 10 * 1024 * 1024.

(** [event.target.files[0]] is the argument. *)
Definition onFileSelected (file : option File) (s : State) : State * list Efecto :=
  match file with
  | None => (s, [])
  | Some file =>
      if (size file >? MAX_SIZE)%Z then
        (s, [Alert "❌ El archivo excede el tamaño máximo de 10 MB"])
      else if negb (JsTexto.endsWith (name file) ".xlsx")
              && negb (JsTexto.endsWith (name file) ".xls") then
        (s, [Alert "❌ Solo se permiten archivos Excel (.xlsx o .xls)"])
      else
        (mkState (Some file) (name file) None None (validando s) (cargando s)
           false (progreso s) (progresoMensaje s) (websocket s),
         [])
  end.

(** The file input of the page, which [limpiar] also empties, is not
    part of the state. *)
Definition limpiar (s : State) : State :=
  mkState None "" None None (validando s) (cargando s) false 0 "" (websocket s).

Definition desconectarWebSocket (s : State) : State :=
  if websocket s then
    mkState (archivoSeleccionado s) (nombreArchivo s) (validacion s)
      (resultado s) (validando s) (cargando s) (mostrarVistaPrevia s)
      (progreso s) (progresoMensaje s) false
  else s.

(** The [next] handler of [cargarExcel]; the socket that it closes is
    the one recorded in [websocket]. *)
Definition cargaRespondida (r : ResultadoCarga) (s : State) : State * list Efecto :=
  let s :=
    mkState (archivoSeleccionado s) (nombreArchivo s) (validacion s) (Some r)
      (validando s) false (mostrarVistaPrevia s) 100 (progresoMensaje s)
      (websocket s) in
  if success r then
    (desconectarWebSocket (limpiar s), [Alert ("✅ " ++ r_mensaje r)])
  else (desconectarWebSocket s, []).

End CargaExcelAlertasResto.

(** ** The two producto.service.ts: the requests for products *)

Module HttpCrud.

Inductive Verbo : Type :=
| GET
| POST
| PUT
| DELETE.

(** A request with an optional JSON body. *)
Record Peticion : Type := mkPeticion {
  verbo : Verbo;
  url : string;
  cuerpo : option Servicio.Producto
}.

End HttpCrud.

(** The service configured from the environment; [apiUrl] is an
    argument, ids are whole numbers. *)
Module ServicioEntornoCrud.
Import HttpCrud.

Definition getProductos (apiUrl : string) : Peticion :=
  mkPeticion GET (apiUrl ++ "/productos") None.

Definition obtenerProductos (apiUrl : string) : Peticion :=
  getProductos apiUrl.

Definition getProducto (apiUrl : string) (id : Z) : Peticion :=
  mkPeticion GET (apiUrl ++ "/productos/" ++ JsTexto.texto_de_entero id) None.

Definition createProducto (apiUrl : string) (producto : Servicio.Producto)
  : Peticion :=
  mkPeticion POST (apiUrl ++ "/productos") (Some producto).

Definition crearProducto (apiUrl : string) (producto : Servicio.Producto)
  : Peticion :=
  createProducto apiUrl producto.

Definition updateProducto (apiUrl : string) (id : Z) (producto : Servicio.Producto)
  : Peticion :=
  mkPeticion PUT (apiUrl ++ "/productos/" ++ JsTexto.texto_de_entero id)
    (Some producto).

Definition actualizarProducto (apiUrl : string) (id : Z)
  (producto : Servicio.Producto) : Peticion :=
  updateProducto apiUrl id producto.

Definition deleteProducto (apiUrl : string) (id : Z) : Peticion :=
  mkPeticion DELETE (apiUrl ++ "/productos/" ++ JsTexto.texto_de_entero id) None.

Definition eliminarProducto (apiUrl : string) (id : Z) : Peticion :=
  deleteProducto apiUrl id.

End ServicioEntornoCrud.

(** The service bound to localhost. *)
Module ServicioLocalCrud.
Import HttpCrud.

Definition obtenerProductos : Peticion :=
  mkPeticion GET (ServicioLocal.apiUrl ++ "/productos") None.

Definition obtenerProductoPorId (id : Z) : Peticion :=
  mkPeticion GET
    (ServicioLocal.apiUrl ++ "/productos/" ++ JsTexto.texto_de_entero id) None.

Definition crearProducto (producto : Servicio.Producto) : Peticion :=
  mkPeticion POST (ServicioLocal.apiUrl ++ "/productos") (Some producto).

Definition actualizarProducto (id : Z) (producto : Servicio.Producto) : Peticion :=
  mkPeticion PUT
    (ServicioLocal.apiUrl ++ "/productos/" ++ JsTexto.texto_de_entero id)
    (Some producto).

Definition eliminarProducto (id : Z) : Peticion :=
  mkPeticion DELETE
    (ServicioLocal.apiUrl ++ "/productos/" ++ JsTexto.texto_de_entero id) None.

End ServicioLocalCrud.

(** ** More statements about the table *)

Module EspecificacionTabla.






(** No byte that continues a character stands at the start of the text
    or right after an ASCII character; every text in UTF-8 is so. *)
Fixpoint sin_suelta (previo_alto : bool) (s : string) : bool :=
  match s with
  | EmptyString => true
  | String c r =>
      (negb (Sql.es_continuacion c) || previo_alto)
      && sin_suelta (JsTexto.alto c) r
  end.

Definition bien_codificada (s : string) : Prop := sin_suelta false s = true.


(** The rows whose code is [c]. *)
Definition con_codigo (c : string) (fs : list Sql.Fila) : list Sql.Fila :=
  filter (fun r => Sql.mismo_texto (Sql.codigo r) (Some c)) fs.

End EspecificacionTabla.

(** ** More sample inputs *)

Module MuestrasResto.
Import ProductoListResto.


Definition error_422_vacio : HttpErrorResponse :=
  mkHttpError 422 "Unprocessable Entity"
    (CuerpoObjeto (DetalleLista []) None None).

(** No answer from the server. *)
Definition error_sin_conexion : HttpErrorResponse :=
  mkHttpError 0 "Unknown Error" CuerpoNulo.

(** The earlier component during an upload, and two answers. *)
Definition anterior_cargando : CargaExcelAlertas.State :=
  CargaExcelAlertas.mkState (Some Muestras.libro) "productos.xlsx"
    (Some (Excel.mkValidacion true "Archivo valido" [] 3 [] None))
    None false true true 40 "" true.

Definition carga_buena : Excel.ResultadoCarga :=
  Excel.mkResultado true "3 productos cargados" 2 1 [] 3.

Definition carga_mala : Excel.ResultadoCarga :=
  Excel.mkResultado false "No se pudo leer el archivo" 0 0 ["hoja vacia"] 0.

(** A 422 whose entries carry neither [loc] nor [msg]. *)
Definition error_sin_campos : HttpErrorResponse :=
  mkHttpError 422 "Unprocessable Entity"
    (CuerpoObjeto (DetalleLista [mkEntrada None None None]) None None).

(** A second PROD003, and an UPDATE that would empty every name if its
    WHERE clause selected a row. *)
Definition otro_prod003 : Sql.Valores :=
  Sql.semilla "PROD003" "Teclado de repuesto" "" 1 5000 "Accesorios".


End MuestrasResto.

(** * Properties *)

Open Scope list_scope.

Example trim_ex :
  Js.trim (" " ++ String "009" ("a b" ++ String "194" (String "160" "")))%string
  = "a b".
Proof. reflexivity. Qed.

Example split_ex : Js.split "." "a.b.XLSX" = ["a"; "b"; "XLSX"].
Proof. reflexivity. Qed.

Example split_ex2 : Js.split "." "" = [""].
Proof. reflexivity. Qed.

Example slice_ex : Js.slice [1;2;3;4;5;6;7]%Z 5 10 = [6;7]%Z.
Proof. reflexivity. Qed.

Example lower_ex : Js.toLowerCase "XlsX.Az@[" = "xlsx.az@[".
Proof. reflexivity. Qed.

(** ** Arithmetic and list helpers *)

Import Servicio.

Lemma ceil_div_5 (a : Z) :
  ProductoList.ceil_div a 5 = (- ((- a) / 5))%Z.
Proof.
  unfold ProductoList.ceil_div, Qceiling, Qfloor, Qdiv, Qmult, Qinv, Qopp, inject_Z.
  simpl. rewrite Z.mul_1_r. reflexivity.
Qed.

Lemma ceil_div_5_bounds (a : Z) :
  (5 * (ProductoList.ceil_div a 5 - 1) < a <= 5 * ProductoList.ceil_div a 5)%Z.
Proof.
  rewrite ceil_div_5.
  pose proof (Z.div_mod (- a) 5 ltac:(lia)) as E.
  pose proof (Z.mod_pos_bound (- a) 5 ltac:(lia)) as B.
  lia.
Qed.

Lemma firstn_add_skipn {A} (a b : nat) (l : list A) :
  firstn (a + b) l = firstn a l ++ firstn b (skipn a l).
Proof.
  revert l; induction a as [|a IH]; intros l; simpl; [reflexivity|].
  destruct l as [|x l]; simpl.
  - now rewrite firstn_nil.
  - now rewrite IH.
Qed.

Lemma skipn_add {A} (a b : nat) (l : list A) :
  skipn (a + b) l = skipn b (skipn a l).
Proof.
  revert l; induction a as [|a IH]; intros l; simpl; [reflexivity|].
  destruct l as [|x l]; simpl; [now rewrite skipn_nil | apply IH].
Qed.

Lemma slice_nonneg {A} (l : list A) (a b : Z) :
  (0 <= a <= b)%Z ->
  Js.slice l a b = firstn (Z.to_nat (b - a)) (skipn (Z.to_nat a) l).
Proof.
  intros H. unfold Js.slice, Js.rel_index.
  destruct (Z.ltb_spec a 0); [lia|].
  destruct (Z.ltb_spec b 0); [lia|].
  set (len := Z.of_nat (List.length l)).
  destruct (Z.le_gt_cases len a) as [Ha|Ha].
  - rewrite (skipn_all2 l (n := Z.to_nat (Z.min a len))) by (unfold len in *; lia).
    rewrite (skipn_all2 l (n := Z.to_nat a)) by (unfold len in *; lia).
    now rewrite !firstn_nil.
  - rewrite (Z.min_l a len) by lia.
    destruct (Z.le_gt_cases b len) as [Hb|Hb].
    + rewrite (Z.min_l b len) by lia. reflexivity.
    + rewrite (Z.min_r b len) by lia.
      rewrite !firstn_all2; try reflexivity;
        rewrite length_skipn; unfold len in *; lia.
Qed.

Lemma concat_chunks {A} (c : nat) (l : list A) (n k : nat) :
  List.concat (map (fun i => firstn c (skipn (c * i) l)) (seq k n))
  = firstn (c * n) (skipn (c * k) l).
Proof.
  revert k; induction n as [|n IH]; intros k; simpl.
  - now rewrite Nat.mul_0_r.
  - rewrite IH.
    replace (c * S n)%nat with (c + c * n)%nat by lia.
    rewrite firstn_add_skipn. f_equal. f_equal.
    replace (c * S k)%nat with (c * k + c)%nat by lia.
    apply skipn_add.
Qed.

(** ** The product list: pagination *)

Section Paginacion.
Import ProductoList Muestras.

Lemma calcularTotalPaginas_total (s : State) :
  totalPaginas (calcularTotalPaginas s)
  = ceil_div (Z.of_nat (List.length (productosFiltrados s))) 5.
Proof.
  unfold calcularTotalPaginas, productosPorPagina.
  match goal with |- context [if ?c then _ else _] => destruct c end; reflexivity.
Qed.

Lemma calcularTotalPaginas_filtrados (s : State) :
  productosFiltrados (calcularTotalPaginas s) = productosFiltrados s.
Proof.
  unfold calcularTotalPaginas.
  match goal with |- context [if ?c then _ else _] => destruct c end; reflexivity.
Qed.

Lemma pagina_es_trozo (s : State) :
  (1 <= paginaActual s)%Z ->
  obtenerProductosPaginados s
  = firstn 5 (skipn (5 * Z.to_nat (paginaActual s - 1)) (productosFiltrados s)).
Proof.
  intros H. unfold obtenerProductosPaginados, productosPorPagina.
  rewrite slice_nonneg by lia.
  f_equal; [lia|]. f_equal. lia.
Qed.

(** C4. [calcularTotalPaginas] stores the ceiling of
    |productosFiltrados| / 5 (the least [t] with [|productosFiltrados| <= 5 t])
    and leaves the filtered list alone; on a page [paginaActual] between
    1 and [totalPaginas], [obtenerProductosPaginados] returns exactly the
    elements at the indices [(paginaActual-1)*5 .. paginaActual*5 - 1] of
    [productosFiltrados]; the pages 1..totalPaginas, one after the other,
    give [productosFiltrados] back. *)
Theorem paginacion_particiona (s : State) :
  let s' := calcularTotalPaginas s in
  let n := Z.of_nat (List.length (productosFiltrados s)) in
  (totalPaginas s' = ceil_div n 5
   /\ (5 * (totalPaginas s' - 1) < n <= 5 * totalPaginas s')%Z
   /\ productosFiltrados s' = productosFiltrados s)
  /\ ((1 <= paginaActual s <= totalPaginas s)%Z ->
      forall i : nat,
        nth_error (obtenerProductosPaginados s) i
        = if (i <? 5)%nat
          then nth_error (productosFiltrados s)
                 (Z.to_nat ((paginaActual s - 1) * 5) + i)
          else None)
  /\ List.concat
       (map (fun p => obtenerProductosPaginados (con_paginaActual p s'))
            (obtenerRangoPaginas s'))
     = productosFiltrados s.
Proof.
  intros s' n. split; [|split].
  - subst s' n. rewrite calcularTotalPaginas_total.
    split; [reflexivity|]. split; [apply ceil_div_5_bounds|].
    apply calcularTotalPaginas_filtrados.
  - intros Hp i. rewrite pagina_es_trozo by lia.
    rewrite nth_error_firstn. destruct (i <? 5)%nat; [|reflexivity].
    rewrite nth_error_skipn. f_equal. lia.
  - unfold obtenerRangoPaginas. rewrite map_map.
    pose proof (ceil_div_5_bounds n) as B.
    assert (T : totalPaginas s' = ceil_div n 5)
      by (subst s' n; apply calcularTotalPaginas_total).
    assert (F : productosFiltrados s' = productosFiltrados s)
      by (subst s'; apply calcularTotalPaginas_filtrados).
    rewrite (map_ext _
      (fun i => firstn 5 (skipn (5 * i) (productosFiltrados s)))).
    + rewrite concat_chunks. rewrite Nat.mul_0_r. simpl skipn.
      apply firstn_all2. subst n. lia.
    + intros i. rewrite pagina_es_trozo by (simpl; lia).
      simpl paginaActual. simpl productosFiltrados.
      rewrite F. f_equal. f_equal. lia.
Qed.

(** The theorem at a list of seven products on page 2. *)
Lemma paginacion_particiona_witness :
  (1 <= paginaActual siete_en_pagina_2 <= totalPaginas siete_en_pagina_2)%Z
  /\ nth_error (obtenerProductosPaginados siete_en_pagina_2) 1
     = nth_error (productosFiltrados siete_en_pagina_2) 6.
Proof.
  split; [simpl; lia|].
  exact (proj1 (proj2 (paginacion_particiona siete_en_pagina_2))
           ltac:(simpl; lia) 1%nat).
Defined.

End Paginacion.

(** ** The product list: the page stays in range *)

Section PaginaEnRango.
Import ProductoList Muestras Especificacion.

Lemma calcularTotalPaginas_ok (s : State) :
  (1 <= paginaActual s)%Z -> pagina_ok (calcularTotalPaginas s).
Proof.
  intros H. unfold calcularTotalPaginas, pagina_ok. cbv zeta.
  set (t := ceil_div _ _). simpl.
  destruct (Z.gtb_spec (paginaActual s) t), (Z.gtb_spec t 0); simpl; lia.
Qed.

Lemma cambiarPagina_ok (n : Z) (s : State) :
  pagina_ok s -> pagina_ok (cambiarPagina n s).
Proof.
  unfold cambiarPagina, pagina_ok.
  destruct (Z.geb_spec n 1), (Z.leb_spec n (totalPaginas s)); simpl; lia.
Qed.

Lemma aplicarFiltros_ok (s : State) : pagina_ok (aplicarFiltros s).
Proof.
  unfold aplicarFiltros. apply calcularTotalPaginas_ok. simpl. lia.
Qed.

Lemma ejecutar_ok (o : Operacion) (s : State) :
  pagina_ok s -> pagina_ok (ejecutar o s).
Proof.
  intros H. destruct o; simpl.
  - apply aplicarFiltros_ok.
  - apply aplicarFiltros_ok.
  - apply aplicarFiltros_ok.
  - now apply cambiarPagina_ok.
  - apply calcularTotalPaginas_ok, H.
  - exact H.
  - unfold productosRecibidos.
    pose proof (aplicarFiltros_ok (con_productos data s)) as K.
    exact K.
Qed.

Lemma ejecutar_todas_ok (ops : list Operacion) (s : State) :
  pagina_ok s -> pagina_ok (ejecutar_todas ops s).
Proof.
  revert s; induction ops as [|o ops IH]; intros s H; simpl; [exact H|].
  apply IH, ejecutar_ok, H.
Qed.

(** C9. After any sequence of [aplicarFiltros], [buscar],
    [limpiarBusqueda], [cambiarPagina], [calcularTotalPaginas] (and of
    keystrokes in the search box and arrivals of the product list) from
    the initial state, [paginaActual >= 1], and [paginaActual <=
    totalPaginas] whenever [totalPaginas >= 1]; [cambiarPagina] with an
    argument outside [1..totalPaginas] changes nothing. *)
Theorem pagina_en_rango (ops : list Operacion) :
  let s := ejecutar_todas ops inicial in
  (1 <= paginaActual s)%Z
  /\ ((1 <= totalPaginas s)%Z -> (paginaActual s <= totalPaginas s)%Z)
  /\ (forall n : Z, ~ (1 <= n <= totalPaginas s)%Z -> cambiarPagina n s = s).
Proof.
  intros s.
  assert (K : pagina_ok s)
    by (apply ejecutar_todas_ok; unfold pagina_ok; simpl; lia).
  destruct K as [K1 K2]. repeat split; trivial.
  intros n Hn. unfold cambiarPagina.
  destruct (Z.geb_spec n 1), (Z.leb_spec n (totalPaginas s)); simpl;
    try reflexivity; lia.
Qed.

(** Seven products arrive, the user goes to page 2 and then asks for
    page 5, which does not exist. *)
Lemma pagina_en_rango_witness :
  (1 <= totalPaginas
          (ejecutar_todas
             [OpProductosRecibidos (repeat nuevoProducto 7); OpCambiarPagina 2]
             inicial))%Z
  /\ paginaActual
       (cambiarPagina 5
          (ejecutar_todas
             [OpProductosRecibidos (repeat nuevoProducto 7); OpCambiarPagina 2]
             inicial)) = 2%Z.
Proof.
  pose proof (pagina_en_rango
    [OpProductosRecibidos (repeat nuevoProducto 7); OpCambiarPagina 2]) as H.
  cbv zeta in H. destruct H as [_ [_ H]].
  split; [vm_compute; discriminate|].
  rewrite (H 5%Z); [reflexivity|].
  vm_compute. intros [_ K]. apply K. reflexivity.
Defined.

End PaginaEnRango.

(** ** The product list: search *)

Section Busqueda.
Import ProductoList Muestras Especificacion.

Lemma prefix_iff (t s : string) :
  String.prefix t s = true <-> exists b, s = (t ++ b)%string.
Proof.
  revert s; induction t as [|c t IH]; intros s.
  - split; [intros _; now exists s | intros _; now destruct s].
  - destruct s as [|d s]; simpl.
    + split; [discriminate | intros [b H]; discriminate].
    + destruct (ascii_dec c d) as [->|N].
      * rewrite IH. split; intros [b H]; exists b; [now rewrite H | now inversion H].
      * split; [discriminate | intros [b H]; inversion H; subst; now elim N].
Qed.





Lemma includes_in_empty (t : string) : Js.includes "" t = true -> t = ""%string.
Proof. destruct t; [reflexivity | discriminate]. Qed.




Lemma aplicarFiltros_pagina (s : State) :
  paginaActual (aplicarFiltros s) = 1%Z.
Proof.
  unfold aplicarFiltros, calcularTotalPaginas. cbv zeta.
  match goal with |- context [ceil_div ?a ?b] => set (t := ceil_div a b) end.
  simpl.
  destruct (Z.gtb_spec 1 t), (Z.gtb_spec t 0); simpl; lia.
Qed.



End Busqueda.

(** ** The product list: saving the form *)

Section Guardar.
Import ProductoList Muestras Especificacion.

Lemma trim_no_vacio (x : string) :
  Js.trim x <> ""%string ->
  ((x =? "") || (Js.trim x =? ""))%string = false.
Proof.
  intros H. apply orb_false_iff. split; apply String.eqb_neq; [|exact H].
  intros ->. apply H. reflexivity.
Qed.

(** C6, as the code has it: a form whose [precio] is strictly positive,
    whose [cantidad] is non-negative and whose [codigo] and [nombre] are
    non-empty after trimming passes the validation of [guardarProducto]:
    [errores] stays empty, [cargando] is raised and the create request
    (or, when editing a product that has an id, the update request) is
    issued with the form. *)
Theorem guardarProducto_acepta (s : State) (p c : Q) :
  Js.trim (codigo (productoForm s)) <> ""%string ->
  Js.trim (nombre (productoForm s)) <> ""%string ->
  precio (productoForm s) = Js.Num p -> 0 < p ->
  cantidad (productoForm s) = Js.Num c -> 0 <= c ->
  errores (fst (guardarProducto s)) = []
  /\ cargando (fst (guardarProducto s)) = true
  /\ snd (guardarProducto s)
     = Some (match (if editando s then id_valido (productoForm s) else None) with
             | Some k => actualizarProducto k (productoForm s)
             | None => crearProducto (productoForm s)
             end).
Proof.
  intros Hc Hn Hp Pp Hq Pq. unfold guardarProducto. cbv zeta.
  simpl productoForm. simpl errores.
  rewrite (trim_no_vacio _ Hc), (trim_no_vacio _ Hn), Hp, Hq.
  assert (E1 : Js.falsy (Js.Num p) || Js.leq (Js.Num p) 0 = false).
  { apply orb_false_iff. simpl. split.
    - destruct (Qeq_bool p 0) eqn:E; [|reflexivity].
      apply Qeq_bool_iff in E. rewrite E in Pp. now apply Qlt_irrefl in Pp.
    - destruct (Qle_bool p 0) eqn:E; [|reflexivity].
      apply Qle_bool_iff in E. exfalso. apply (Qlt_irrefl 0).
      eapply Qlt_le_trans; eauto. }
  assert (E2 : Js.lt (Js.Num c) 0 = false).
  { simpl. apply negb_false_iff. now apply Qle_bool_iff. }
  rewrite E1, E2. simpl editando.
  destruct (if editando s then id_valido (productoForm s) else None);
    simpl; auto.
Qed.

(** The theorem at a complete form with a price of 2.50. *)
Lemma guardarProducto_acepta_witness :
  snd (guardarProducto (formulario (Js.Num (5 # 2))))
  = Some (crearProducto (tornillo (Js.Num (5 # 2)))).
Proof.
  refine (proj2 (proj2
    (guardarProducto_acepta (formulario (Js.Num (5 # 2))) (5 # 2) 3 _ _ _ _ _ _))).
  - vm_compute; discriminate.
  - vm_compute; discriminate.
  - reflexivity.
  - reflexivity.
  - reflexivity.
  - vm_compute; discriminate.
Defined.

(** C6, as the specification has it, fails at a price of zero: the form
    meets every condition of the claim, and [guardarProducto] records an
    error and issues no request. *)
Lemma guardarProducto_rechaza_precio_cero :
  Js.trim (codigo (productoForm (formulario (Js.Num 0)))) <> ""%string
  /\ Js.trim (nombre (productoForm (formulario (Js.Num 0)))) <> ""%string
  /\ precio (productoForm (formulario (Js.Num 0))) = Js.Num 0
  /\ 0 <= 0
  /\ cantidad (productoForm (formulario (Js.Num 0))) = Js.Num 3
  /\ 0 <= 3
  /\ errores (fst (guardarProducto (formulario (Js.Num 0))))
     = ["📌 El precio debe ser mayor a 0"%string]
  /\ snd (guardarProducto (formulario (Js.Num 0))) = None.
Proof.
  repeat split; try (vm_compute; discriminate).
Qed.

End Guardar.

(** ** Excel upload: the guards of [cargarArchivo] *)

Section GuardasDeCarga.
Import Excel Muestras.

Lemma validacion_valida_true (s : CargaExcel.State) :
  CargaExcel.validacion_valida s = true ->
  exists v, CargaExcel.validacion s = Some v /\ valido v = true.
Proof.
  unfold CargaExcel.validacion_valida.
  destruct (CargaExcel.validacion s) as [v|]; [|discriminate].
  intros H. now exists v.
Qed.

Lemma validacion_valida_alertas (s : CargaExcelAlertas.State) :
  CargaExcelAlertas.validacion_valida s = true ->
  exists v, CargaExcelAlertas.validacion s = Some v /\ valido v = true.
Proof.
  unfold CargaExcelAlertas.validacion_valida.
  destruct (CargaExcelAlertas.validacion s) as [v|]; [|discriminate].
  intros H. now exists v.
Qed.

Lemma cargas_iniciarCarga (s : CargaExcel.State) :
  CargaExcel.cargas (snd (CargaExcel.ejecutarTarea CargaExcel.IniciarCarga s))
  = match CargaExcel.archivoSeleccionado s with
    | Some a => [a]
    | None => []
    end.
Proof. destruct s as [[a|]]; reflexivity. Qed.

Lemma guarda_falla (confirmar : bool) (s : CargaExcel.State) :
  CargaExcel.archivoSeleccionado s = None
  \/ CargaExcel.validacion_valida s = false ->
  exists m, CargaExcel.cargarArchivo confirmar s
            = (CargaExcel.con_mensajeAdvertencia m s, []).
Proof.
  intros G. unfold CargaExcel.cargarArchivo.
  destruct (CargaExcel.archivoSeleccionado s) as [a|].
  - destruct G as [G|G]; [discriminate|]. rewrite G. now eexists.
  - now eexists.
Qed.

Lemma con_temporizadores_nada (m : CargaExcel.Metodo) (s : CargaExcel.State) :
  snd (m s) = [] -> snd (CargaExcel.con_temporizadores m s) = [].
Proof.
  intros H. unfold CargaExcel.con_temporizadores.
  destruct (m s) as [s1 e1]. simpl in H. now subst e1.
Qed.

Lemma con_temporizadores_uno
  (m : CargaExcel.Metodo) (s s1 : CargaExcel.State) (ms : Z) (t : CargaExcel.Tarea) :
  m s = (s1, [CargaExcel.SetTimeout ms t]) ->
  CargaExcel.cargas (snd (CargaExcel.con_temporizadores m s))
  = CargaExcel.cargas (snd (CargaExcel.ejecutarTarea t s1)).
Proof.
  intros H. unfold CargaExcel.con_temporizadores. rewrite H.
  simpl. now destruct (CargaExcel.ejecutarTarea t s1).
Qed.

Lemma cargarArchivo_confirmado (s : CargaExcel.State) (a : File) :
  CargaExcel.archivoSeleccionado s = Some a ->
  CargaExcel.validacion_valida s = true ->
  exists s1, CargaExcel.cargarArchivo true s
             = (s1, [CargaExcel.SetTimeout 100 CargaExcel.IniciarCarga])
             /\ CargaExcel.archivoSeleccionado s1 = Some a.
Proof.
  intros Ea Ev. unfold CargaExcel.cargarArchivo. rewrite Ea, Ev.
  eexists. split; [reflexivity|].
  rewrite <- Ea. destruct s; reflexivity.
Qed.

Lemma cargas_de_cargarArchivo (confirmar : bool) (s : CargaExcel.State) (f : File) :
  In f (CargaExcel.cargas
          (snd (CargaExcel.con_temporizadores
                  (CargaExcel.cargarArchivo confirmar) s))) ->
  CargaExcel.archivoSeleccionado s = Some f
  /\ CargaExcel.validacion_valida s = true.
Proof.
  destruct (CargaExcel.archivoSeleccionado s) as [a|] eqn:Ea;
    [destruct (CargaExcel.validacion_valida s) eqn:Ev; [destruct confirmar|]|].
  - destruct (cargarArchivo_confirmado s a Ea Ev) as [s1 [H1 H2]].
    rewrite (con_temporizadores_uno _ _ _ _ _ H1), cargas_iniciarCarga, H2.
    intros [<-|[]]. split; reflexivity.
  - rewrite (con_temporizadores_nada (CargaExcel.cargarArchivo _) s); [intros []|].
    unfold CargaExcel.cargarArchivo. now rewrite Ea, Ev.
  - rewrite (con_temporizadores_nada (CargaExcel.cargarArchivo _) s); [intros []|].
    unfold CargaExcel.cargarArchivo. now rewrite Ea, Ev.
  - rewrite (con_temporizadores_nada (CargaExcel.cargarArchivo _) s); [intros []|].
    unfold CargaExcel.cargarArchivo. now rewrite Ea.
Qed.

Lemma guarda_falla_alertas (confirmar : bool) (s : CargaExcelAlertas.State) :
  CargaExcelAlertas.archivoSeleccionado s = None
  \/ CargaExcelAlertas.validacion_valida s = false ->
  exists m, CargaExcelAlertas.cargarArchivo confirmar s
            = (s, [CargaExcelAlertas.Alert m]).
Proof.
  intros G. unfold CargaExcelAlertas.cargarArchivo.
  destruct (CargaExcelAlertas.archivoSeleccionado s) as [a|].
  - destruct G as [G|G]; [discriminate|]. rewrite G. now eexists.
  - now eexists.
Qed.

Lemma cargas_de_cargarArchivo_alertas
  (confirmar : bool) (s : CargaExcelAlertas.State) (f : File) :
  In f (CargaExcelAlertas.cargas
          (snd (CargaExcelAlertas.cargarArchivo confirmar s))) ->
  CargaExcelAlertas.archivoSeleccionado s = Some f
  /\ CargaExcelAlertas.validacion_valida s = true.
Proof.
  unfold CargaExcelAlertas.cargarArchivo.
  destruct (CargaExcelAlertas.archivoSeleccionado s) as [a|]; [|intros []].
  destruct (CargaExcelAlertas.validacion_valida s); [|intros []].
  destruct confirmar; [|intros []].
  intros [<-|[]]. now split.
Qed.

(** C1. In both versions of the component, when no file is selected or
    the last validation is missing or not valid, [cargarArchivo] starts
    nothing (no timer, no socket, no request) and leaves [cargando],
    [progreso] and [resultado] as they were: the component with messages
    changes [mensajeAdvertencia] only, the one with alerts shows an
    alert and keeps its whole state.  Conversely every [cargarExcel]
    request that [cargarArchivo] causes, directly or through the timeout
    it starts, is for the file that was selected when it was called, and
    the validation held then has [valido = true] (the timeout is taken
    to fire before anything else happens); and whenever [ejecutarCarga]
    runs, it uploads nothing but the file selected at that moment. *)
Theorem cargarArchivo_guardado (confirmar : bool) :
  (forall (s : CargaExcel.State) (f : File),
      In f (CargaExcel.cargas (snd (CargaExcel.ejecutarCarga s))) ->
      CargaExcel.archivoSeleccionado s = Some f)
  /\
  (forall s : CargaExcel.State,
      (CargaExcel.archivoSeleccionado s = None
       \/ CargaExcel.validacion_valida s = false ->
       snd (CargaExcel.cargarArchivo confirmar s) = []
       /\ snd (CargaExcel.con_temporizadores
                 (CargaExcel.cargarArchivo confirmar) s) = []
       /\ (exists m, fst (CargaExcel.cargarArchivo confirmar s)
                     = CargaExcel.con_mensajeAdvertencia m s)
       /\ CargaExcel.cargando (fst (CargaExcel.cargarArchivo confirmar s))
          = CargaExcel.cargando s
       /\ CargaExcel.progreso (fst (CargaExcel.cargarArchivo confirmar s))
          = CargaExcel.progreso s
       /\ CargaExcel.resultado (fst (CargaExcel.cargarArchivo confirmar s))
          = CargaExcel.resultado s)
      /\ (forall f,
             In f (CargaExcel.cargas
                     (snd (CargaExcel.con_temporizadores
                             (CargaExcel.cargarArchivo confirmar) s))) ->
             CargaExcel.archivoSeleccionado s = Some f
             /\ exists v, CargaExcel.validacion s = Some v /\ valido v = true))
  /\ (forall s : CargaExcelAlertas.State,
         (CargaExcelAlertas.archivoSeleccionado s = None
          \/ CargaExcelAlertas.validacion_valida s = false ->
          exists m, CargaExcelAlertas.cargarArchivo confirmar s
                    = (s, [CargaExcelAlertas.Alert m]))
         /\ (forall f,
                In f (CargaExcelAlertas.cargas
                        (snd (CargaExcelAlertas.cargarArchivo confirmar s))) ->
                CargaExcelAlertas.archivoSeleccionado s = Some f
                /\ exists v, CargaExcelAlertas.validacion s = Some v
                             /\ valido v = true)).
Proof.
  split; [|split; intros s; split].
  - intros s f. unfold CargaExcel.ejecutarCarga.
    destruct (CargaExcel.archivoSeleccionado s) as [a|]; [|intros []].
    intros [<-|[]]. reflexivity.
  - intros G. destruct (guarda_falla confirmar s G) as [m H].
    split; [now rewrite H|].
    split; [apply con_temporizadores_nada; now rewrite H|].
    split; [exists m; now rewrite H|].
    rewrite H. now destruct s.
  - intros f Hf. destruct (cargas_de_cargarArchivo _ _ _ Hf) as [H1 H2].
    split; [exact H1 | now apply validacion_valida_true].
  - apply guarda_falla_alertas.
  - intros f Hf.
    destruct (cargas_de_cargarArchivo_alertas _ _ _ Hf) as [H1 H2].
    split; [exact H1 | now apply validacion_valida_alertas].
Qed.

(** The theorem at a workbook whose validation failed, and at the
    upload of a valid one. *)
Lemma cargarArchivo_guardado_witness :
  (CargaExcel.archivoSeleccionado invalido = None
   \/ CargaExcel.validacion_valida invalido = false)
  /\ snd (CargaExcel.con_temporizadores (CargaExcel.cargarArchivo true) invalido)
     = []
  /\ In libro
       (CargaExcel.cargas
          (snd (CargaExcel.con_temporizadores
                  (CargaExcel.cargarArchivo true) (validado 100))))
  /\ CargaExcel.archivoSeleccionado (validado 100) = Some libro.
Proof.
  assert (G : CargaExcel.archivoSeleccionado invalido = None
              \/ CargaExcel.validacion_valida invalido = false)
    by (right; reflexivity).
  assert (I : In libro
       (CargaExcel.cargas
          (snd (CargaExcel.con_temporizadores
                  (CargaExcel.cargarArchivo true) (validado 100)))))
    by (vm_compute; left; reflexivity).
  split; [exact G|]. split; [|split; [exact I|]].
  - exact (proj1 (proj2 (proj1 (proj1 (proj2 (cargarArchivo_guardado true))
                                  invalido) G))).
  - exact (proj1 (proj2 (proj1 (proj2 (cargarArchivo_guardado true))
                           (validado 100)) libro I)).
Defined.

End GuardasDeCarga.

(** ** Excel upload: choosing a file *)

Section SeleccionDeArchivo.
Import Excel CargaExcel Muestras Especificacion.

Lemma split_cons_dot (r : string) :
  Js.split "." (String "." r) = ""%string :: Js.split "." r.
Proof. reflexivity. Qed.

Lemma split_nonempty (s : string) : Js.split "." s <> [].
Proof.
  destruct s as [|c r]; simpl; [discriminate|].
  destruct (Ascii.eqb c "."); [discriminate|].
  destruct (Js.split "." r); discriminate.
Qed.

Lemma split_cons_other (c : ascii) (r : string) :
  c <> "."%char ->
  exists x xs, Js.split "." r = x :: xs
               /\ Js.split "." (String c r) = String c x :: xs.
Proof.
  intros N. simpl. apply Ascii.eqb_neq in N. rewrite N.
  destruct (Js.split "." r) as [|x xs] eqn:E.
  - now apply split_nonempty in E.
  - now exists x, xs.
Qed.

Lemma sin_punto_cons (c : ascii) (r : string) :
  sin_punto (String c r) -> c <> "."%char /\ sin_punto r.
Proof.
  intros H. split.
  - intros ->. now apply (H ""%string r).
  - intros a b E. apply (H (String c a) b). simpl. now rewrite E.
Qed.

Lemma cons_sin_punto (c : ascii) (r : string) :
  c <> "."%char -> sin_punto r -> sin_punto (String c r).
Proof.
  intros N H a b E. destruct a as [|d a]; simpl in E.
  - inversion E. contradiction.
  - inversion E. now apply (H a b).
Qed.

Lemma split_sin_punto (seg : string) :
  sin_punto seg -> Js.split "." seg = [seg].
Proof.
  induction seg as [|c r IH]; intros H; [reflexivity|].
  apply sin_punto_cons in H. destruct H as [N H].
  destruct (split_cons_other c r N) as [x [xs [E1 E2]]].
  rewrite E2. rewrite (IH H) in E1. now inversion E1.
Qed.

Lemma split_app (pre rest : string) :
  Js.split "." (pre ++ "." ++ rest)%string
  = Js.split "." pre ++ Js.split "." rest.
Proof.
  induction pre as [|c p IH]; [reflexivity|].
  destruct (ascii_dec c ".") as [->|N].
  - change (String "." p ++ "." ++ rest)%string
      with (String "." (p ++ "." ++ rest))%string.
    now rewrite !split_cons_dot, IH.
  - change (String c p ++ "." ++ rest)%string
      with (String c (p ++ "." ++ rest))%string.
    destruct (split_cons_other c p N) as [x [xs [E1 E2]]].
    destruct (split_cons_other c (p ++ "." ++ rest)%string N)
      as [y [ys [F1 F2]]].
    rewrite E2, F2. rewrite IH, E1 in F1. simpl in F1.
    now inversion F1.
Qed.

Lemma pop_last {A} (l : list A) (x : A) : Js.pop (l ++ [x]) = Some x.
Proof. unfold Js.pop. now rewrite rev_app_distr. Qed.

Lemma ultimo_segmento_pop (n seg : string) :
  ultimo_segmento n seg -> Js.pop (Js.split "." n) = Some seg.
Proof.
  intros [H [->|[pre ->]]].
  - now rewrite (split_sin_punto _ H).
  - rewrite split_app, (split_sin_punto _ H). apply pop_last.
Qed.

Lemma ultimo_segmento_existe (n : string) : exists seg, ultimo_segmento n seg.
Proof.
  induction n as [|c r [seg [H K]]].
  - exists ""%string. split; [|now left].
    intros a b E. destruct a; discriminate.
  - destruct (ascii_dec c ".") as [->|N].
    + exists seg. split; [exact H|]. right.
      destruct K as [->|[pre ->]].
      * now exists ""%string.
      * now exists (String "." pre).
    + destruct K as [->|[pre ->]].
      * exists (String c seg). split; [now apply cons_sin_punto | now left].
      * exists seg. split; [exact H|]. right. now exists (String c pre).
Qed.

Lemma pop_ultimo_segmento (n seg : string) :
  Js.pop (Js.split "." n) = Some seg <-> ultimo_segmento n seg.
Proof.
  split; [|apply ultimo_segmento_pop].
  intros H. destruct (ultimo_segmento_existe n) as [seg' K].
  rewrite (ultimo_segmento_pop _ _ K) in H. inversion H. now subst.
Qed.

Lemma es_excel_iff (x : string) :
  es_excel x = true <-> x = "xlsx"%string \/ x = "xls"%string.
Proof.
  unfold es_excel. simpl. rewrite orb_false_r, orb_true_iff, !String.eqb_eq.
  tauto.
Qed.

Lemma aceptable_iff (f : File) :
  aceptable f
  <-> (size f >? MAX_SIZE)%Z = false /\ es_excel (extension f) = true.
Proof.
  unfold aceptable, extension. rewrite es_excel_iff.
  assert (M : (size f <= 10 * 1024 * 1024)%Z <-> (size f >? MAX_SIZE)%Z = false).
  { unfold MAX_SIZE. destruct (Z.gtb_spec (size f) (10 * 1024 * 1024)); split;
      intros; try reflexivity; try discriminate; lia. }
  rewrite M. split.
  - intros [H [seg [K L]]]. split; [exact H|].
    now rewrite (ultimo_segmento_pop _ _ K).
  - intros [H L]. split; [exact H|].
    destruct (ultimo_segmento_existe (name f)) as [seg K].
    exists seg. split; [exact K|].
    now rewrite (ultimo_segmento_pop _ _ K) in L.
Qed.

(** C3. [onFileSelected] takes a chosen file (stores it, records its
    name, resets [validacion], [resultado] and the preview flag, and
    sends it to validation) if and only if its size is at most 10 MB and
    the lowercased final dot-separated segment of its name is xlsx or
    xls; otherwise an error message is set, no file is selected and
    nothing is sent. *)
Theorem onFileSelected_acepta (file : File) (s : State) :
  (aceptable file <-> aceptado file (fst (onFileSelected (Some file) s)))
  /\ (aceptable file ->
      snd (onFileSelected (Some file) s) = [ValidarExcel file])
  /\ (~ aceptable file ->
      archivoSeleccionado (fst (onFileSelected (Some file) s)) = None
      /\ nombreArchivo (fst (onFileSelected (Some file) s)) = ""%string
      /\ mensajeError (fst (onFileSelected (Some file) s)) <> ""%string
      /\ snd (onFileSelected (Some file) s) = []).
Proof.
  rewrite aceptable_iff. unfold onFileSelected, aceptado.
  destruct (size file >? MAX_SIZE)%Z; [|destruct (es_excel (extension file))];
    cbn [negb fst snd].
  - split; [split|split].
    + intros [H _]; discriminate.
    + intros [H _]. destruct s; discriminate.
    + intros [H _]; discriminate.
    + intros _. destruct s. repeat split. discriminate.
  - split; [split|split].
    + intros _. destruct s. repeat split.
    + intros _. now split.
    + intros _. destruct s. reflexivity.
    + intros H. exfalso. apply H. now split.
  - split; [split|split].
    + intros [_ H]; discriminate.
    + intros [H _]. destruct s; discriminate.
    + intros [_ H]; discriminate.
    + intros _. destruct s. repeat split. discriminate.
Qed.

(** The theorem at a file with an upper-case extension, which is taken,
    and at an executable named like a workbook, which is not. *)
Lemma onFileSelected_acepta_witness :
  aceptable informe
  /\ snd (onFileSelected (Some informe) inicial) = [ValidarExcel informe]
  /\ ~ aceptable disfrazado
  /\ archivoSeleccionado (fst (onFileSelected (Some disfrazado) inicial)) = None.
Proof.
  assert (A : aceptable informe)
    by (apply aceptable_iff; split; reflexivity).
  assert (B : ~ aceptable disfrazado)
    by (rewrite aceptable_iff; intros [_ H]; vm_compute in H; discriminate).
  split; [exact A|]. split; [|split; [exact B|]].
  - exact (proj1 (proj2 (onFileSelected_acepta informe inicial)) A).
  - exact (proj1 (proj2 (proj2 (onFileSelected_acepta disfrazado inicial)) B)).
Defined.

End SeleccionDeArchivo.

(** ** Excel upload: the simulated progress *)

Section Simulacion.
Import Excel CargaExcel Muestras.

Lemma progreso_tick (inc : Q) (s : State) :
  progreso s < 80 ->
  progreso (tickSimulacion inc s) = inject_Z (Qfloor (progreso s + inc)).
Proof.
  intros H. unfold tickSimulacion.
  destruct (Qlt_le_dec (progreso s) 80) as [_|F].
  - cbv zeta.
    repeat match goal with
           | |- context [Qlt_le_dec ?a ?b] => destruct (Qlt_le_dec a b)
           end; reflexivity.
  - exfalso. apply (Qlt_irrefl 80). eapply Qle_lt_trans; eauto.
Qed.

Lemma progreso_tick_espera (inc : Q) (s : State) :
  80 <= progreso s -> progreso (tickSimulacion inc s) = 85.
Proof.
  intros H. unfold tickSimulacion.
  destruct (Qlt_le_dec (progreso s) 80) as [F|_]; [|reflexivity].
  exfalso. apply (Qlt_irrefl 80). eapply Qle_lt_trans; eauto.
Qed.

Lemma Qfloor_fraccion (x : Q) : 0 <= x -> x < 1 -> Qfloor x = 0%Z.
Proof.
  intros H0 H1.
  assert (L : (0 <= Qfloor x)%Z) by (apply (Qfloor_resp_le 0 x H0)).
  assert (U : (Qfloor x < 1)%Z).
  { rewrite Zlt_Qlt. eapply Qle_lt_trans; [apply Qfloor_le | exact H1]. }
  lia.
Qed.

Lemma tiempoEstimado_lento (filas : Z) :
  (80 < filas)%Z -> (16000 < tiempoEstimado filas <= 30000)%Z.
Proof. unfold tiempoEstimado. lia. Qed.

Lemma incremento_fraccion (filas : Z) :
  (80 < filas)%Z ->
  0 <= incrementoPorCiclo filas /\ incrementoPorCiclo filas < 1.
Proof.
  intros H. apply tiempoEstimado_lento in H.
  unfold incrementoPorCiclo, intervaloTiempo.
  destruct (tiempoEstimado filas) as [|t|t]; try lia.
  unfold Qdiv, Qmult, Qinv, Qle, Qlt, inject_Z. simpl. lia.
Qed.

Lemma tick_estancado (inc : Q) (s : State) :
  0 <= inc -> inc < 1 -> progreso s = 0 ->
  progreso (tickSimulacion inc s) = 0.
Proof.
  intros H0 H1 P. rewrite progreso_tick by (rewrite P; reflexivity).
  rewrite P, Qplus_0_l, Qfloor_fraccion by assumption. reflexivity.
Qed.

Lemma ticks_estancados (inc : Q) (n : nat) (s : State) :
  0 <= inc -> inc < 1 -> progreso s = 0 ->
  progreso (ticks inc n s) = 0.
Proof.
  intros H0 H1. revert s. induction n as [|n IH]; intros s P; simpl.
  - exact P.
  - apply IH. now apply tick_estancado.
Qed.

Lemma incremento_acotado (filas : Z) :
  0 <= incrementoPorCiclo filas /\ incrementoPorCiclo filas <= 2.
Proof.
  assert (T : (8000 <= tiempoEstimado filas <= 30000)%Z)
    by (unfold tiempoEstimado; lia).
  unfold incrementoPorCiclo, intervaloTiempo.
  destruct (tiempoEstimado filas) as [|t|t]; try lia.
  unfold Qdiv, Qmult, Qinv, Qle, inject_Z. simpl. lia.
Qed.

(** While the bar holds a whole number between 0 and 85, a tick of the
    simulation never lowers it and never takes it above 85. *)
Lemma tick_no_decrece (inc : Q) (k : Z) (s : State) :
  0 <= inc -> inc <= 2 -> (0 <= k <= 85)%Z -> progreso s = inject_Z k ->
  exists k', progreso (tickSimulacion inc s) = inject_Z k'
             /\ (k <= k' <= 85)%Z.
Proof.
  intros H0 H2 Hk P.
  destruct (Qlt_le_dec (progreso s) 80) as [L|G].
  - rewrite (progreso_tick _ _ L), P. eexists. split; [reflexivity|].
    rewrite P in L. change 80 with (inject_Z 80) in L.
    rewrite <- Zlt_Qlt in L. split.
    + rewrite <- (Qfloor_Z k) at 1. apply Qfloor_resp_le.
      rewrite <- (Qplus_0_r (inject_Z k)) at 1.
      apply Qplus_le_compat; [apply Qle_refl | exact H0].
    + assert (U : inject_Z (Qfloor (inject_Z k + inc)) <= inject_Z 81).
      { eapply Qle_trans; [apply Qfloor_le|].
        change (inject_Z 81) with (inject_Z 79 + 2).
        apply Qplus_le_compat; [|exact H2].
        rewrite <- Zle_Qle. lia. }
      rewrite <- Zle_Qle in U. lia.
  - rewrite (progreso_tick_espera _ _ G). exists 85%Z.
    split; [reflexivity | lia].
Qed.

Lemma ticks_no_decrecen (inc : Q) (n : nat) (k : Z) (s : State) :
  0 <= inc -> inc <= 2 -> (0 <= k <= 85)%Z -> progreso s = inject_Z k ->
  exists k', progreso (ticks inc n s) = inject_Z k' /\ (k <= k' <= 85)%Z.
Proof.
  intros H0 H2. revert k s. induction n as [|n IH]; intros k s Hk P; simpl.
  - exists k. split; [exact P | lia].
  - destruct (tick_no_decrece inc k s H0 H2 Hk P) as [k1 [P1 B1]].
    destruct (IH k1 (tickSimulacion inc s) ltac:(lia) P1) as [k2 [P2 B2]].
    exists k2. split; [exact P2 | lia].
Qed.

(** C8, what the code does with more than 80 rows: the increment per
    tick, 80 / (tiempoEstimado / 200), is below 1, every tick rounds
    0 + increment down to 0, and the bar stays at 0 however many ticks
    pass; it never reaches the hold value 85. *)
Theorem simulacion_estancada (s : State) (v : ValidacionExcel) (n : nat) :
  validacion s = Some v ->
  (80 < total_filas v)%Z ->
  snd (simularProgresoGradual s)
  = [SetInterval 200 (TickSimulacion (incrementoPorCiclo (total_filas v)))]
  /\ progreso
       (ticks (incrementoPorCiclo (total_filas v)) n
          (fst (simularProgresoGradual s))) = 0.
Proof.
  intros Hv Hf.
  assert (T : totalFilas (con_progresoMensaje "Iniciando carga..."
                            (con_progreso 0 s)) = total_filas v).
  { unfold totalFilas. replace (validacion _) with (Some v)
      by (rewrite <- Hv; destruct s; reflexivity).
    destruct (Z.eqb_spec (total_filas v) 0); [lia | reflexivity]. }
  unfold simularProgresoGradual. cbv zeta. cbn [fst snd]. rewrite T.
  split; [reflexivity|].
  destruct (incremento_fraccion _ Hf) as [H0 H1].
  apply ticks_estancados; trivial.
Qed.

(** A workbook of 100 rows after the 101 ticks in which the bar was to
    reach 85. *)
Lemma simulacion_estancada_witness :
  progreso (ticks (incrementoPorCiclo 100) 101
              (fst (simularProgresoGradual (validado 100)))) = 0.
Proof.
  exact (proj2 (simulacion_estancada (validado 100)
                  (mkValidacion true "Archivo valido" [] 100 [] None) 101
                  eq_refl eq_refl)).
Defined.

(** With 50 rows every tick adds 1 instead of 1.6: after the 51 ticks of
    the estimate the bar is at 51, and it takes 81 ticks to show 85. *)
Example simulacion_lenta_50 :
  map (fun n => progreso (ticks (incrementoPorCiclo 50) n
                            (fst (simularProgresoGradual (validado 50)))))
      [51; 80; 81]%nat
  = [51; 80; 85].
Proof. vm_compute. reflexivity. Qed.

(** With up to 40 rows the increment is 2 and the estimate is met. *)
Example simulacion_exacta_10 :
  map (fun n => progreso (ticks (incrementoPorCiclo 10) n
                            (fst (simularProgresoGradual (validado 10)))))
      [1; 40; 41]%nat
  = [2; 80; 85].
Proof. vm_compute. reflexivity. Qed.

(** The answer of the upload sets the bar to 100, but the interval runs
    for two more seconds and its next tick puts 85 back. *)
Example simulacion_tras_respuesta :
  progreso (tickSimulacion (incrementoPorCiclo 10)
              (respuestaRecibida (validado 10))) = 85.
Proof. reflexivity. Qed.

End Simulacion.

(** ** The productos table: constraints *)

Section Restricciones.
Import Sql Muestras Especificacion.

Lemma ligar_ok {A B} (r : Resultado A) (k : A -> Resultado B) (b : B) :
  ligar r k = Ok b -> exists a, r = Ok a /\ k a = Ok b.
Proof. destruct r as [a|e]; simpl; [now exists a | discriminate]. Qed.

Ltac abrir H :=
  let x := fresh "x" in
  let E := fresh "E" in
  apply ligar_ok in H; destruct H as [x [E H]].

Lemma exigir_ok (b : bool) (e : ErrorSql) (u : unit) :
  exigir b e = Ok u -> b = true.
Proof. destruct b; [reflexivity | discriminate]. Qed.

Lemma presente_ok {A} (v : option A) (c : string) (u : unit) :
  presente v c = Ok u -> exists x, v = Some x.
Proof. destruct v as [x|]; [now exists x | discriminate]. Qed.

Lemma fila_valida_de_restricciones (r : Fila) (u1 u2 : unit) :
  no_nulos r = Ok u1 -> checks r = Ok u2 -> fila_valida r.
Proof.
  unfold no_nulos, checks. intros N C.
  abrir N. abrir N. abrir N. abrir N.
  abrir C. abrir C. abrir C.
  apply presente_ok in E0, E1, E2, N.
  apply exigir_ok in E3, E4, E5, C.
  destruct E0 as [c Ec], E1 as [n En], E2 as [q Eq], N as [p Ep].
  unfold check_cantidad, check_precio, check_codigo_no_vacio,
    check_nombre_no_vacio in *.
  rewrite Ec, En, Eq, Ep in *.
  repeat split.
  - exists q. split; [assumption | lia].
  - exists p. split; [assumption | lia].
  - exists c. split; [assumption | lia].
  - exists n. split; [assumption | lia].
Qed.

Lemma mismo_texto_refl (c : string) : mismo_texto (Some c) (Some c) = true.
Proof. simpl. apply String.eqb_refl. Qed.

Lemma unicos_codigo (otras : list Fila) (r : Fila) (u : unit) :
  unicos otras r = Ok u ->
  (exists c, codigo r = Some c) ->
  ~ In (codigo r) (map codigo otras).
Proof.
  unfold unicos. intros U [c Ec] I. abrir U. apply exigir_ok in U.
  apply negb_true_iff in U.
  apply in_map_iff in I. destruct I as [o [Eo Io]].
  assert (X : existsb (fun o => mismo_texto (codigo o) (codigo r)) otras = true).
  { apply existsb_exists. exists o. split; [exact Io|].
    rewrite Eo, Ec. apply mismo_texto_refl. }
  congruence.
Qed.

Lemma fila_valida_codigo (r : Fila) : fila_valida r -> exists c, codigo r = Some c.
Proof. intros [_ [_ [[c [E _]] _]]]. now exists c. Qed.

Lemma aceptar_fila_ok (otras : list Fila) (r r' : Fila) :
  aceptar_fila otras r = Ok r' ->
  fila_valida r' /\ ~ In (codigo r') (map codigo otras).
Proof.
  unfold aceptar_fila. intros H. abrir H. abrir H. abrir H. abrir H.
  inversion H; subst r'.
  assert (V : fila_valida x) by (eapply fila_valida_de_restricciones; eauto).
  split; [exact V|].
  eapply unicos_codigo; eauto using fila_valida_codigo.
Qed.

Lemma invariante_agregar (fs : list Fila) (r : Fila) :
  invariante fs -> fila_valida r -> ~ In (codigo r) (map codigo fs) ->
  invariante (fs ++ [r]).
Proof.
  intros [F N] V I. split.
  - apply Forall_app. split; [exact F | now constructor].
  - rewrite map_app. simpl.
    apply (Permutation_NoDup (Permutation_cons_append _ _)).
    now constructor.
Qed.

Lemma invariante_reemplazar (hechas resto : list Fila) (old r : Fila) :
  invariante (hechas ++ old :: resto) -> fila_valida r ->
  ~ In (codigo r) (map codigo (hechas ++ resto)) ->
  invariante ((hechas ++ [r]) ++ resto).
Proof.
  intros [F N] V I. rewrite <- app_assoc. simpl. split.
  - apply Forall_app in F. destruct F as [F1 F2]. inversion F2; subst.
    apply Forall_app. split; [exact F1 | now constructor].
  - rewrite map_app in *. simpl in *.
    apply (Permutation_NoDup (Permutation_middle _ _ _)).
    constructor; [exact I | now apply NoDup_remove_1 in N].
Qed.

Lemma invariante_filtrar (p : Fila -> bool) (fs : list Fila) :
  invariante fs -> invariante (filter p fs).
Proof.
  intros [F N]. split.
  - apply Forall_forall. intros r Hr. apply filter_In in Hr.
    rewrite Forall_forall in F. now apply F.
  - clear F. induction fs as [|r fs IH]; simpl in *; [constructor|].
    inversion N; subst. destruct (p r); simpl; auto.
    constructor; auto. intros I. apply H1.
    apply in_map_iff in I. destruct I as [o [Eo Io]].
    apply filter_In in Io. apply in_map_iff. exists o. tauto.
Qed.

Lemma insertar_filas_invariante (ahora : Z) (vs : list Valores) (t : Tabla) :
  invariante (filas t) ->
  forall fs, fst (insertar_filas ahora vs t) = Ok fs -> invariante fs.
Proof.
  revert t. induction vs as [|v vs IH]; intros t I fs H; simpl in H.
  - inversion H; subst. exact I.
  - destruct (fila_de ahora (productos_id_seq t) v) as [r seq].
    destruct (aceptar_fila (filas t) r) as [r'|e] eqn:A; [|discriminate].
    apply aceptar_fila_ok in A. destruct A as [V U].
    apply (IH (mkTabla (filas t ++ [r']) seq)); [|exact H].
    now apply invariante_agregar.
Qed.

Lemma actualizar_filas_invariante
  (ahora : Z) (a : Asignaciones) (donde : Fila -> bool)
  (pendientes hechas : list Fila) :
  invariante (hechas ++ pendientes) ->
  forall fs, actualizar_filas ahora a donde hechas pendientes = Ok fs ->
             invariante fs.
Proof.
  revert hechas. induction pendientes as [|old resto IH]; intros hechas I fs H;
    simpl in H.
  - rewrite app_nil_r in I. inversion H; subst. exact I.
  - destruct (donde old).
    + abrir H. abrir H. abrir H. abrir H.
      apply (IH (hechas ++ [x])); [|exact H].
      assert (V : fila_valida x)
        by (eapply fila_valida_de_restricciones; eauto).
      apply invariante_reemplazar with (old := old); trivial.
      eapply unicos_codigo; eauto using fila_valida_codigo.
    + apply (IH (hechas ++ [old])); [|exact H].
      now rewrite <- app_assoc.
Qed.

Lemma ejecutar_invariante (ahora : Z) (st : Sentencia) (t : Tabla) :
  invariante (filas t) -> invariante (filas (fst (ejecutar ahora st t))).
Proof.
  intros I. destruct st as [vs|a donde|donde]; simpl.
  - pose proof (insertar_filas_invariante ahora vs t I) as K.
    destruct (insertar_filas ahora vs t) as [[fs|e] seq]; simpl in *; auto.
  - pose proof (actualizar_filas_invariante ahora a donde (filas t) [] I) as K.
    destruct (actualizar_filas ahora a donde [] (filas t)) as [fs|e];
      simpl in *; auto.
  - now apply invariante_filtrar.
Qed.

Lemma ejecutar_error (ahora : Z) (st : Sentencia) (t : Tabla) :
  snd (ejecutar ahora st t) <> None ->
  filas (fst (ejecutar ahora st t)) = filas t.
Proof.
  destruct st as [vs|a donde|donde]; simpl.
  - destruct (insertar_filas ahora vs t) as [[fs|e] seq]; simpl;
      [intros H; now elim H | reflexivity].
  - destruct (actualizar_filas ahora a donde [] (filas t)) as [fs|e]; simpl;
      [intros H; now elim H | reflexivity].
  - intros H; now elim H.
Qed.

Lemma ejecutar_todas_invariante (guion : list (Z * Sentencia)) (t : Tabla) :
  invariante (filas t) -> invariante (filas (ejecutar_todas guion t)).
Proof.
  revert t. induction guion as [|[ahora st] guion IH]; intros t I; simpl.
  - exact I.
  - apply IH. now apply ejecutar_invariante.
Qed.

(** C2, as the table has it.  Whatever INSERT, UPDATE and DELETE
    statements have run since CREATE TABLE, every row has
    [cantidad >= 0], [precio >= 0], a [codigo] and a [nombre] that are
    not empty once the spaces around them are removed (the TRIM of SQL:
    the space character only), and no two rows share a [codigo].  Every
    statement keeps this, and a statement that ends in an error leaves
    the rows as they were. *)
Theorem productos_invariante (guion : list (Z * Sentencia)) :
  invariante (filas (ejecutar_todas guion vacia))
  /\ (forall (ahora : Z) (st : Sentencia) (t : Tabla),
         invariante (filas t) ->
         invariante (filas (fst (ejecutar ahora st t)))
         /\ (snd (ejecutar ahora st t) <> None ->
             filas (fst (ejecutar ahora st t)) = filas t)).
Proof.
  split.
  - apply ejecutar_todas_invariante. split; constructor.
  - intros ahora st t I. split.
    + now apply ejecutar_invariante.
    + apply ejecutar_error.
Qed.

(** The theorem at the table of init.sql: a sale keeps the invariant,
    and a second PROD001 is refused. *)
Lemma productos_invariante_witness :
  invariante (filas tabla_inicial)
  /\ invariante (filas (fst (ejecutar 2000 vender_tres tabla_inicial)))
  /\ snd (ejecutar 3000 (INSERT [semilla "PROD001" "Otro" "" 1 100 ""])
            tabla_inicial) <> None
  /\ filas (fst (ejecutar 3000 (INSERT [semilla "PROD001" "Otro" "" 1 100 ""])
                   tabla_inicial)) = filas tabla_inicial.
Proof.
  assert (I : invariante (filas tabla_inicial))
    by exact (proj1 (productos_invariante [(1000%Z, datos_iniciales)])).
  assert (E : snd (ejecutar 3000 (INSERT [semilla "PROD001" "Otro" "" 1 100 ""])
                     tabla_inicial) <> None)
    by (vm_compute; discriminate).
  split; [exact I|]. split; [|split; [exact E|]].
  - exact (proj1 (proj2 (productos_invariante []) 2000%Z vender_tres
                    tabla_inicial I)).
  - exact (proj2 (proj2 (productos_invariante []) 3000%Z _ tabla_inicial I) E).
Defined.

(** C2, as the specification has it, fails: a code made of one
    tabulator is accepted by [check_codigo_no_vacio], and the row that
    is stored has a code that is empty after trimming white space. *)
Lemma productos_codigo_tabulador :
  snd (ejecutar 2000 (INSERT [codigo_tabulador]) tabla_inicial) = None
  /\ ~ invariante_spec
         (filas (ejecutar_todas
                   [(1000%Z, datos_iniciales); (2000%Z, INSERT [codigo_tabulador])]
                   vacia)).
Proof.
  split; [reflexivity|].
  intros [F _]. rewrite Forall_forall in F.
  destruct (F (mkFila (Some 6%Z) (Some (String "009" "")) (Some "Tuerca"%string)
                 None (Some 0%Z) (Some 150%Z) None (Some 2000%Z) (Some 2000%Z)))
    as [_ [_ [[c [E T]] _]]].
  - vm_compute. do 5 right. left. reflexivity.
  - inversion E; subst c. apply T. reflexivity.
Qed.

End Restricciones.

(** ** The productos table: the update trigger *)

Section Disparador.
Import Sql Muestras Especificacion.

Lemma ligar_inv {A B} (r : Resultado A) (k : A -> Resultado B) (b : B) :
  ligar r k = Ok b -> exists a, r = Ok a /\ k a = Ok b.
Proof. destruct r as [a|e]; simpl; [now exists a | discriminate]. Qed.

Lemma asignar_nada {A} (tipo : option A -> Resultado (option A))
  (old : Fila) (actual v : option A) :
  asignar tipo None old actual = Ok v -> v = actual.
Proof. simpl. now inversion 1. Qed.

Lemma nueva_version_conserva (ahora : Z) (a : Asignaciones) (old r : Fila) :
  nueva_version ahora a old = Ok r ->
  fecha_actualizacion r = Some ahora /\ conserva a old r.
Proof.
  unfold nueva_version. intros H.
  apply ligar_inv in H. destruct H as [n [E H]]. inversion H; subst r. clear H.
  split; [reflexivity|].
  unfold aplicar in E.
  repeat (apply ligar_inv in E;
          let v := fresh "v" in
          let K := fresh "K" in destruct E as [v [K E]]).
  inversion E; subst n. clear E.
  unfold conserva. cbn [actualizar_fecha_modificacion id codigo nombre
    descripcion cantidad precio categoria fecha_creacion].
  repeat split; intros N;
    match goal with
    | K : asignar _ ?e _ _ = Ok ?v |- ?v = _ =>
        rewrite N in K; exact (asignar_nada _ _ _ _ K)
    end.
Qed.

Lemma actualizar_filas_forma
  (ahora : Z) (a : Asignaciones) (donde : Fila -> bool)
  (pendientes hechas fs : list Fila) :
  actualizar_filas ahora a donde hechas pendientes = Ok fs ->
  exists nuevas,
    fs = hechas ++ nuevas
    /\ Forall2 (fun old r =>
                  if donde old
                  then fecha_actualizacion r = Some ahora /\ conserva a old r
                  else r = old)
               pendientes nuevas.
Proof.
  revert hechas. induction pendientes as [|old resto IH]; intros hechas H;
    simpl in H.
  - exists []. inversion H; subst. split; [now rewrite app_nil_r | constructor].
  - destruct (donde old) eqn:D.
    + apply ligar_inv in H. destruct H as [r [E H]].
      apply ligar_inv in H. destruct H as [u1 [_ H]].
      apply ligar_inv in H. destruct H as [u2 [_ H]].
      apply ligar_inv in H. destruct H as [u3 [_ H]].
      destruct (IH _ H) as [nuevas [-> F]].
      exists (r :: nuevas). split; [now rewrite <- app_assoc|].
      constructor; [|exact F]. rewrite D.
      now apply nueva_version_conserva.
    + destruct (IH _ H) as [nuevas [-> F]].
      exists (old :: nuevas). split; [now rewrite <- app_assoc|].
      constructor; [|exact F]. now rewrite D.
Qed.

(** C7. The function of the trigger returns NEW with
    [fecha_actualizacion] set to the current timestamp and every other
    column as it received it.  So after an UPDATE that succeeds, every
    row that the WHERE clause selected carries the current timestamp in
    [fecha_actualizacion] and, in every other column that the SET list
    does not name ([fecha_creacion] among them), the value it had; the
    rows that were not selected are untouched. *)
Theorem trigger_solo_fecha (ahora : Z) :
  (forall NEW : Fila,
      fecha_actualizacion (actualizar_fecha_modificacion ahora NEW) = Some ahora
      /\ id (actualizar_fecha_modificacion ahora NEW) = id NEW
      /\ codigo (actualizar_fecha_modificacion ahora NEW) = codigo NEW
      /\ nombre (actualizar_fecha_modificacion ahora NEW) = nombre NEW
      /\ descripcion (actualizar_fecha_modificacion ahora NEW) = descripcion NEW
      /\ cantidad (actualizar_fecha_modificacion ahora NEW) = cantidad NEW
      /\ precio (actualizar_fecha_modificacion ahora NEW) = precio NEW
      /\ categoria (actualizar_fecha_modificacion ahora NEW) = categoria NEW
      /\ fecha_creacion (actualizar_fecha_modificacion ahora NEW)
         = fecha_creacion NEW)
  /\ (forall (a : Asignaciones) (donde : Fila -> bool) (t : Tabla),
         snd (ejecutar ahora (UPDATE a donde) t) = None ->
         Forall2 (fun old r =>
                    if donde old
                    then fecha_actualizacion r = Some ahora /\ conserva a old r
                    else r = old)
                 (filas t) (filas (fst (ejecutar ahora (UPDATE a donde) t)))).
Proof.
  split.
  - intros NEW. repeat split.
  - intros a donde t. simpl.
    destruct (actualizar_filas ahora a donde [] (filas t)) as [fs|e] eqn:E;
      simpl; [intros _ | discriminate].
    apply actualizar_filas_forma in E. destruct E as [nuevas [-> F]].
    exact F.
Qed.

(** The theorem at the sale of three units of PROD002 at instant 2000:
    the row keeps its creation time 1000 and is stamped 2000. *)
Lemma trigger_solo_fecha_witness :
  snd (ejecutar 2000 vender_tres tabla_inicial) = None
  /\ map (fun r => (codigo r, cantidad r, fecha_creacion r, fecha_actualizacion r))
         (filter (fun r => mismo_texto (codigo r) (Some "PROD002"%string))
            (filas (fst (ejecutar 2000 vender_tres tabla_inicial))))
     = [(Some "PROD002"%string, Some 22%Z, Some 1000%Z, Some 2000%Z)]
  /\ Forall2 (fun old r =>
                if mismo_texto (codigo old) (Some "PROD002"%string)
                then fecha_actualizacion r = Some 2000%Z
                     /\ fecha_creacion r = fecha_creacion old
                else r = old)
             (filas tabla_inicial)
             (filas (fst (ejecutar 2000 vender_tres tabla_inicial))).
Proof.
  assert (E : snd (ejecutar 2000 vender_tres tabla_inicial) = None)
    by reflexivity.
  split; [exact E|]. split; [reflexivity|].
  pose proof (proj2 (trigger_solo_fecha 2000) _ _ tabla_inicial E) as F.
  eapply Forall2_impl; [|exact F].
  intros old r. cbv beta.
  destruct (mismo_texto (codigo old) (Some "PROD002"%string)); [|trivial].
  intros [H1 [_ [_ [_ [_ [_ [_ [_ H2]]]]]]]]. split; [exact H1|].
  apply H2. reflexivity.
Defined.

End Disparador.

(** ** The two services *)

Section Servicios.
Import Muestras.

(** C10, as the services have it: for every file and base URL both
    services post to the same two paths under their base URL and send a
    form with one field, which holds the file; the field is named
    [archivo] by the service configured from the environment and [file]
    by the one bound to localhost. *)
Theorem servicios_excel (apiUrl : string) (archivo : Excel.File) :
  (Http.url (ServicioEntorno.validarExcel apiUrl archivo)
   = (apiUrl ++ "/productos/validar-excel")%string
   /\ Http.url (ServicioLocal.validarExcel archivo)
      = (ServicioLocal.apiUrl ++ "/productos/validar-excel")%string
   /\ Http.url (ServicioEntorno.cargarExcel apiUrl archivo)
      = (apiUrl ++ "/productos/cargar-excel")%string
   /\ Http.url (ServicioLocal.cargarExcel archivo)
      = (ServicioLocal.apiUrl ++ "/productos/cargar-excel")%string)
  /\ (map snd (Http.formData (ServicioEntorno.validarExcel apiUrl archivo))
      = [archivo]
      /\ map snd (Http.formData (ServicioLocal.validarExcel archivo)) = [archivo]
      /\ map snd (Http.formData (ServicioEntorno.cargarExcel apiUrl archivo))
         = [archivo]
      /\ map snd (Http.formData (ServicioLocal.cargarExcel archivo)) = [archivo])
  /\ (map fst (Http.formData (ServicioEntorno.validarExcel apiUrl archivo))
      = ["archivo"%string]
      /\ map fst (Http.formData (ServicioLocal.validarExcel archivo))
         = ["file"%string]
      /\ map fst (Http.formData (ServicioEntorno.cargarExcel apiUrl archivo))
         = ["archivo"%string]
      /\ map fst (Http.formData (ServicioLocal.cargarExcel archivo))
         = ["file"%string]).
Proof. repeat split. Qed.

(** C10, as the specification has it, fails: the two services name the
    field of the uploaded file differently, for [validarExcel] and for
    [cargarExcel], even with the same base URL. *)
Lemma servicios_campo_distinto :
  map fst (Http.formData (ServicioEntorno.cargarExcel ServicioLocal.apiUrl libro))
  <> map fst (Http.formData (ServicioLocal.cargarExcel libro))
  /\ map fst (Http.formData (ServicioEntorno.validarExcel ServicioLocal.apiUrl libro))
     <> map fst (Http.formData (ServicioLocal.validarExcel libro))
  /\ ServicioEntorno.cargarExcel ServicioLocal.apiUrl libro
     <> ServicioLocal.cargarExcel libro.
Proof. repeat split; discriminate. Qed.

End Servicios.

(** * Further properties of the code *)

(** ** The product list: saving, editing, pages *)

Section FormularioYPaginas.
Import ProductoList ProductoListResto Muestras.

Lemma guardarProducto_valido (s : State) (p c : Q) :
  Js.trim (codigo (productoForm s)) <> ""%string ->
  Js.trim (nombre (productoForm s)) <> ""%string ->
  precio (productoForm s) = Js.Num p -> 0 < p ->
  cantidad (productoForm s) = Js.Num c -> 0 <= c ->
  guardarProducto s
  = (con_cargando true (con_errores [] s),
     Some (match (if editando s then id_valido (productoForm s) else None) with
           | Some k => actualizarProducto k (productoForm s)
           | None => crearProducto (productoForm s)
           end)).
Proof.
  intros Hc Hn Hp Pp Hq Pq. unfold guardarProducto. cbv zeta.
  simpl productoForm. simpl errores.
  rewrite (trim_no_vacio _ Hc), (trim_no_vacio _ Hn), Hp, Hq.
  assert (E1 : Js.falsy (Js.Num p) || Js.leq (Js.Num p) 0 = false).
  { apply orb_false_iff. simpl. split.
    - destruct (Qeq_bool p 0) eqn:E; [|reflexivity].
      apply Qeq_bool_iff in E. rewrite E in Pp. now apply Qlt_irrefl in Pp.
    - destruct (Qle_bool p 0) eqn:E; [|reflexivity].
      apply Qle_bool_iff in E. exfalso. apply (Qlt_irrefl 0).
      eapply Qlt_le_trans; eauto. }
  assert (E2 : Js.lt (Js.Num c) 0 = false).
  { simpl. apply negb_false_iff. now apply Qle_bool_iff. }
  rewrite E1, E2. simpl editando.
  destruct (if editando s then id_valido (productoForm s) else None);
    reflexivity.
Qed.

(** X1. [guardarProducto] issues a request exactly when it records no
    error.  When it refuses the form it records exactly one message and
    changes nothing else ([cargando] stays as it was); when it accepts,
    [errores] is empty and [cargando] is raised. *)
Theorem guardarProducto_peticion_sii_sin_errores (s : State) :
  (snd (guardarProducto s) <> None <-> errores (fst (guardarProducto s)) = [])
  /\ (snd (guardarProducto s) = None ->
      exists m, fst (guardarProducto s) = con_errores [m] s)
  /\ (snd (guardarProducto s) <> None ->
      fst (guardarProducto s) = con_cargando true (con_errores [] s)).
Proof.
  unfold guardarProducto. cbv zeta. simpl productoForm. simpl errores.
  repeat match goal with
         | |- context [if ?c then _ else _] => destruct c
         | |- context [match ?c with Some _ => _ | None => _ end] => destruct c
         end; simpl;
    (split; [split; [intros H; try reflexivity; now elim H
                    | intros H; discriminate]
            | split; [intros H; try discriminate; now eexists
                     | intros H; try reflexivity; now elim H]]).
Qed.

(** The theorem at a form with a price of zero, which is refused. *)
Lemma guardarProducto_peticion_sii_sin_errores_witness :
  snd (guardarProducto (formulario (Js.Num 0))) = None
  /\ exists m, fst (guardarProducto (formulario (Js.Num 0)))
               = con_errores [m] (formulario (Js.Num 0)).
Proof.
  assert (H : snd (guardarProducto (formulario (Js.Num 0))) = None)
    by reflexivity.
  split; [exact H|].
  exact (proj1 (proj2 (guardarProducto_peticion_sii_sin_errores
                         (formulario (Js.Num 0)))) H).
Defined.

(** X2. Editing a product and saving it unchanged, when the product
    passes the validation of the form, issues the update request for the
    id of the product with the product as body; a product without id, or
    with id 0, is sent as a new product instead. *)
Theorem editar_y_guardar (producto : Producto) (s : State) (p c : Q) :
  Js.trim (codigo producto) <> ""%string ->
  Js.trim (nombre producto) <> ""%string ->
  precio producto = Js.Num p -> 0 < p ->
  cantidad producto = Js.Num c -> 0 <= c ->
  snd (guardarProducto (editarProducto producto s))
  = Some (match id producto with
          | Some k => if (k =? 0)%Z then crearProducto producto
                      else actualizarProducto k producto
          | None => crearProducto producto
          end).
Proof.
  intros Hc Hn Hp Pp Hq Pq.
  rewrite (guardarProducto_valido (editarProducto producto s) p c); trivial.
  simpl. unfold id_valido. destruct (id producto) as [k|]; [|reflexivity].
  now destruct (k =? 0)%Z.
Qed.

(** The theorem at PROD001 of the sample list, whose id is 1. *)
Lemma editar_y_guardar_witness :
  snd (guardarProducto (editarProducto portatil inicial))
  = Some (actualizarProducto 1 portatil).
Proof.
  refine (editar_y_guardar portatil inicial (129999 # 100) 10 _ _ _ _ _ _).
  - vm_compute; discriminate.
  - vm_compute; discriminate.
  - reflexivity.
  - reflexivity.
  - reflexivity.
  - vm_compute; discriminate.
Defined.

Lemma rango_In (s : State) (n : Z) :
  In n (obtenerRangoPaginas s) <-> (1 <= n <= totalPaginas s)%Z.
Proof.
  unfold obtenerRangoPaginas. rewrite in_map_iff. split.
  - intros [i [E I]]. apply in_seq in I. lia.
  - intros H. exists (Z.to_nat (n - 1)). split; [lia|].
    apply in_seq. lia.
Qed.

(** X3. The page numbers that [obtenerRangoPaginas] offers are exactly
    the numbers 1..totalPaginas, and they are exactly the arguments that
    [cambiarPagina] accepts: on an offered number it sets [paginaActual]
    to it, on any other number it does nothing. *)
Theorem rango_y_cambiarPagina (s : State) (n : Z) :
  (In n (obtenerRangoPaginas s) <-> (1 <= n <= totalPaginas s)%Z)
  /\ List.length (obtenerRangoPaginas s) = Z.to_nat (totalPaginas s)
  /\ (In n (obtenerRangoPaginas s) -> cambiarPagina n s = con_paginaActual n s)
  /\ (~ In n (obtenerRangoPaginas s) -> cambiarPagina n s = s).
Proof.
  split; [apply rango_In|]. split.
  - unfold obtenerRangoPaginas. now rewrite length_map, length_seq.
  - rewrite rango_In. unfold cambiarPagina.
    destruct (Z.geb_spec n 1), (Z.leb_spec n (totalPaginas s)); simpl;
      split; intros K; try reflexivity; lia.
Qed.

(** The theorem at the seven products on two pages: page 2 is offered,
    page 3 is not. *)
Lemma rango_y_cambiarPagina_witness :
  In 2%Z (obtenerRangoPaginas siete_en_pagina_2)
  /\ cambiarPagina 2 siete_en_pagina_2 = con_paginaActual 2 siete_en_pagina_2
  /\ ~ In 3%Z (obtenerRangoPaginas siete_en_pagina_2)
  /\ cambiarPagina 3 siete_en_pagina_2 = siete_en_pagina_2.
Proof.
  assert (A : In 2%Z (obtenerRangoPaginas siete_en_pagina_2))
    by (right; left; reflexivity).
  assert (B : ~ In 3%Z (obtenerRangoPaginas siete_en_pagina_2))
    by (intros [H|[H|[]]]; discriminate).
  split; [exact A|]. split; [|split; [exact B|]].
  - exact (proj1 (proj2 (proj2 (rango_y_cambiarPagina siete_en_pagina_2 2))) A).
  - exact (proj2 (proj2 (proj2 (rango_y_cambiarPagina siete_en_pagina_2 3))) B).
Defined.

(** X4. Once [calcularTotalPaginas] has run, no page that is offered is
    empty: every page from 1 to [totalPaginas] shows between one and
    five products, every page before the last shows five, and a page
    after the last shows none. *)
Theorem paginas_llenas (s : State) (p : Z) :
  let s' := calcularTotalPaginas s in
  let pagina := obtenerProductosPaginados (con_paginaActual p s') in
  ((1 <= p <= totalPaginas s')%Z ->
   (1 <= List.length pagina <= 5)%nat
   /\ ((p < totalPaginas s')%Z -> List.length pagina = 5%nat))
  /\ ((totalPaginas s' < p)%Z -> (1 <= p)%Z -> pagina = []).
Proof.
  intros s' pagina.
  pose proof (ceil_div_5_bounds (Z.of_nat (List.length (productosFiltrados s)))) as B.
  assert (T : totalPaginas s'
              = ceil_div (Z.of_nat (List.length (productosFiltrados s))) 5)
    by apply calcularTotalPaginas_total.
  assert (F : productosFiltrados s' = productosFiltrados s)
    by apply calcularTotalPaginas_filtrados.
  assert (P : (1 <= p)%Z ->
              pagina = firstn 5 (skipn (5 * Z.to_nat (p - 1)) (productosFiltrados s))).
  { intros H. subst pagina. rewrite pagina_es_trozo by (simpl; lia).
    simpl paginaActual. simpl productosFiltrados. now rewrite F. }
  split.
  - intros H. rewrite P by lia. rewrite length_firstn, length_skipn.
    split; [lia|]. intros L. lia.
  - intros H H1. rewrite P by lia.
    rewrite skipn_all2 by lia. apply firstn_nil.
Qed.

(** The theorem at seven products: page 1 has five, page 2 is the last. *)
Lemma paginas_llenas_witness :
  List.length
    (obtenerProductosPaginados
       (con_paginaActual 1 (calcularTotalPaginas siete_en_pagina_2))) = 5%nat.
Proof.
  exact (proj2 (proj1 (paginas_llenas siete_en_pagina_2 1)
                  ltac:(vm_compute; split; discriminate))
           ltac:(vm_compute; reflexivity)).
Defined.

End FormularioYPaginas.

(** ** The product list: properties of the search *)

Section BusquedaMas.
Import ProductoList ProductoListResto Muestras JsTexto.

Lemma aplicarFiltros_forma (s : State) :
  exists f t,
    aplicarFiltros s
    = mkState (productos s) (productoForm s) (editando s) (errores s)
        (cargando s) 1 t (terminoBusqueda s) f
    /\ f = (if ((terminoBusqueda s =? "") || (Js.trim (terminoBusqueda s) =? ""))%string
            then productos s
            else filter (coincide (Js.trim (Js.toLowerCase (terminoBusqueda s))))
                   (productos s))
    /\ t = ceil_div (Z.of_nat (List.length f)) 5.
Proof.
  unfold aplicarFiltros, calcularTotalPaginas, productosPorPagina. cbv zeta.
  destruct ((terminoBusqueda s =? "") || (Js.trim (terminoBusqueda s) =? ""))%string;
    cbn [con_productosFiltrados con_paginaActual con_totalPaginas paginaActual
         totalPaginas productosFiltrados productos productoForm editando errores
         cargando terminoBusqueda];
    match goal with
    | |- context [ceil_div ?a ?b] => set (t := ceil_div a b)
    end;
    destruct (Z.gtb_spec 1 t), (Z.gtb_spec t 0); cbn [andb];
      try lia; eexists; eexists; (split; [reflexivity | split; reflexivity]).
Qed.

(** X5. Searching twice is searching once: [aplicarFiltros] (and so
    [buscar]) applied to its own result changes nothing, and after
    [limpiarBusqueda] the term is empty and every product is listed. *)
Theorem aplicarFiltros_idempotente (s : State) :
  aplicarFiltros (aplicarFiltros s) = aplicarFiltros s
  /\ buscar (buscar s) = buscar s
  /\ terminoBusqueda (limpiarBusqueda s) = ""%string
  /\ productosFiltrados (limpiarBusqueda s) = productos s.
Proof.
  assert (I : aplicarFiltros (aplicarFiltros s) = aplicarFiltros s).
  { destruct (aplicarFiltros_forma s) as [f [t [E [Ef Et]]]].
    destruct (aplicarFiltros_forma (aplicarFiltros s)) as [f' [t' [E' [Ef' Et']]]].
    rewrite E'. rewrite E in Ef' |- *.
    cbn [terminoBusqueda productos productoForm editando errores cargando]
      in Ef' |- *.
    rewrite <- Ef in Ef'. subst f'. rewrite <- Et in Et'. now subst t'. }
  split; [exact I|]. split; [exact I|].
  destruct (aplicarFiltros_forma (con_terminoBusqueda "" s)) as [f [t [E [Ef Et]]]].
  unfold limpiarBusqueda. rewrite E.
  cbn [terminoBusqueda productosFiltrados con_terminoBusqueda].
  split; [reflexivity | exact Ef].
Qed.

(** *** The case of the term *)


















End BusquedaMas.

(** ** The product list: errors of a failed save *)

Section ErroresDeGuardado.
Import ProductoList ProductoListResto MuestrasResto.




End ErroresDeGuardado.

(** ** Excel upload: from the choice of a file to the upload *)

Section FlujoDeCarga.
Import Excel CargaExcel CargaExcelResto Muestras Especificacion.

Lemma sin_carga (c : bool) (s : State) :
  archivoSeleccionado s = None \/ validacion_valida s = false ->
  snd (cargarArchivo c s) = []
  /\ cargas (snd (con_temporizadores (cargarArchivo c) s)) = [].
Proof.
  intros G. destruct (guarda_falla c s G) as [m H].
  split; [now rewrite H|].
  rewrite con_temporizadores_nada; [reflexivity | now rewrite H].
Qed.

Lemma onFileSelected_bloquea (file : File) (s : State) :
  archivoSeleccionado (fst (onFileSelected (Some file) s)) = None
  \/ validacion_valida (fst (onFileSelected (Some file) s)) = false.
Proof.
  unfold onFileSelected.
  destruct (size file >? MAX_SIZE)%Z; [left; now destruct s|].
  destruct (es_excel (extension file)); [right | left]; now destruct s.
Qed.

(** X8. Nothing can be uploaded between the choice of a file and the
    answer of its validation: right after [onFileSelected] with a file
    (taken or refused), after [validarArchivo], after an answer with
    [valido = false], and after [limpiar], [cargarArchivo] starts
    nothing and uploads nothing, whatever the user answers. *)
Theorem carga_bloqueada (c : bool) (s : State) :
  (forall file,
      snd (cargarArchivo c (fst (onFileSelected (Some file) s))) = []
      /\ cargas (snd (con_temporizadores (cargarArchivo c)
                        (fst (onFileSelected (Some file) s)))) = [])
  /\ (snd (cargarArchivo c (fst (validarArchivo s))) = []
      /\ cargas (snd (con_temporizadores (cargarArchivo c)
                        (fst (validarArchivo s)))) = [])
  /\ (forall v, valido v = false ->
                snd (cargarArchivo c (validacionRecibida v s)) = []
                /\ cargas (snd (con_temporizadores (cargarArchivo c)
                                  (validacionRecibida v s))) = [])
  /\ (snd (cargarArchivo c (limpiar s)) = []
      /\ cargas (snd (con_temporizadores (cargarArchivo c) (limpiar s))) = []).
Proof.
  split; [|split; [|split]].
  - intros file. apply sin_carga, onFileSelected_bloquea.
  - apply sin_carga. unfold validarArchivo.
    destruct (archivoSeleccionado s) eqn:E;
      [right; now destruct s | left; exact E].
  - intros v V. apply sin_carga. right.
    unfold validacionRecibida. cbv zeta. rewrite V.
    destruct (0 <? List.length (v_errores v))%nat;
      [destruct (3 <? List.length (v_errores v))%nat|];
      unfold validacion_valida; destruct s; simpl; exact V.
  - apply sin_carga. left. now destruct s.
Qed.

(** The theorem at a workbook whose validation failed. *)
Lemma carga_bloqueada_witness :
  cargas (snd (con_temporizadores (cargarArchivo true)
                 (validacionRecibida
                    (mkValidacion false "Faltan columnas" ["precio"] 0 [] None)
                    (validado 100)))) = [].
Proof.
  exact (proj2 (proj1 (proj2 (proj2 (carga_bloqueada true (validado 100))))
                  (mkValidacion false "Faltan columnas" ["precio"] 0 [] None)
                  eq_refl)).
Defined.

Lemma validacionRecibida_valida (v : ValidacionExcel) (s : State) :
  valido v = true ->
  archivoSeleccionado (validacionRecibida v s) = archivoSeleccionado s
  /\ validacion_valida (validacionRecibida v s) = true
  /\ validando (validacionRecibida v s) = false
  /\ mostrarVistaPrevia (validacionRecibida v s)
     = (0 <? List.length (datos_previos v))%nat.
Proof.
  intros V. unfold validacionRecibida. cbv zeta. rewrite V.
  unfold validacion_valida.
  destruct (advertencias v) as [[|a l]|]; destruct s; simpl; auto.
Qed.

(** X9. An answer with [valido = true] opens the upload for the file
    that is selected when the answer arrives: [cargarArchivo], once
    confirmed, uploads exactly that file, once; declined, it changes
    nothing.  In particular a file that [onFileSelected] took is
    uploaded after its validation, and the preview is shown exactly when
    the answer holds rows. *)
Theorem validar_y_cargar (v : ValidacionExcel) (s : State) (f : File) :
  valido v = true ->
  (archivoSeleccionado s = Some f ->
   cargas (snd (con_temporizadores (cargarArchivo true) (validacionRecibida v s)))
   = [f]
   /\ cargarArchivo false (validacionRecibida v s) = (validacionRecibida v s, []))
  /\ (aceptable f ->
      cargas (snd (con_temporizadores (cargarArchivo true)
                     (validacionRecibida v (fst (onFileSelected (Some f) s)))))
      = [f])
  /\ mostrarVistaPrevia (validacionRecibida v s)
     = (0 <? List.length (datos_previos v))%nat.
Proof.
  intros V.
  assert (G : forall s0, archivoSeleccionado s0 = Some f ->
    cargas (snd (con_temporizadores (cargarArchivo true) (validacionRecibida v s0)))
    = [f]
    /\ cargarArchivo false (validacionRecibida v s0) = (validacionRecibida v s0, [])).
  { intros s0 A.
    destruct (validacionRecibida_valida v s0 V) as [A' [V' _]].
    rewrite A in A'. split.
    - destruct (cargarArchivo_confirmado _ f A' V') as [s1 [H1 H2]].
      now rewrite (con_temporizadores_uno _ _ _ _ _ H1), cargas_iniciarCarga, H2.
    - unfold cargarArchivo. now rewrite A', V'. }
  split; [apply G|]. split.
  - intros A. apply G. apply aceptable_iff in A. destruct A as [A1 A2].
    unfold onFileSelected. rewrite A1, A2. now destruct s.
  - now destruct (validacionRecibida_valida v s V) as [_ [_ [_ P]]].
Qed.

(** The theorem at the report with the upper-case extension. *)
Lemma validar_y_cargar_witness :
  cargas (snd (con_temporizadores (cargarArchivo true)
                 (validacionRecibida
                    (mkValidacion true "Archivo valido" [] 3 [] None)
                    (fst (onFileSelected (Some informe) inicial)))))
  = [informe].
Proof.
  refine (proj1 (proj2 (validar_y_cargar
                          (mkValidacion true "Archivo valido" [] 3 [] None)
                          inicial informe eq_refl)) _).
  apply aceptable_iff. split; reflexivity.
Defined.

Lemma detenerSimulacion_fin (s : State) :
  intervaloSimulacion (fst (detenerSimulacion s)) = None
  /\ websocket (fst (detenerSimulacion s)) = websocket s
  /\ snd (detenerSimulacion s)
     = match intervaloSimulacion s with Some _ => [ClearInterval] | None => [] end.
Proof.
  unfold detenerSimulacion.
  destruct (intervaloSimulacion s) eqn:E; destruct s; simpl in *; auto.
Qed.

Lemma desconectarWebSocket_fin (s : State) :
  websocket (fst (desconectarWebSocket s)) = false
  /\ intervaloSimulacion (fst (desconectarWebSocket s)) = intervaloSimulacion s
  /\ snd (desconectarWebSocket s)
     = if websocket s then [CerrarWebSocket] else [].
Proof.
  unfold desconectarWebSocket.
  destruct (websocket s) eqn:E; destruct s; simpl in *; auto.
Qed.

Lemma liberar_efectos (s : State) (m : State -> State) :
  (forall x, intervaloSimulacion (m x) = intervaloSimulacion x) ->
  (forall x, websocket (m x) = websocket x) ->
  intervaloSimulacion
    (fst (luego detenerSimulacion
            (luego (fun x => (m x, [])) desconectarWebSocket) s)) = None
  /\ websocket
       (fst (luego detenerSimulacion
               (luego (fun x => (m x, [])) desconectarWebSocket) s)) = false
  /\ snd (luego detenerSimulacion
            (luego (fun x => (m x, [])) desconectarWebSocket) s)
     = (match intervaloSimulacion s with Some _ => [ClearInterval] | None => [] end)
       ++ (if websocket s then [CerrarWebSocket] else [])
  /\ exists s1, intervaloSimulacion s1 = None
                /\ fst (luego detenerSimulacion
                          (luego (fun x => (m x, [])) desconectarWebSocket) s)
                   = fst (desconectarWebSocket (m s1)).
Proof.
  intros Hi Hw. unfold luego.
  destruct (detenerSimulacion_fin s) as [D1 [D2 D3]].
  destruct (detenerSimulacion s) as [s1 e1]. simpl in D1, D2, D3.
  destruct (desconectarWebSocket_fin (m s1)) as [W1 [W2 W3]].
  destruct (desconectarWebSocket (m s1)) as [s2 e2] eqn:E. simpl in W1, W2, W3.
  simpl. rewrite W2, Hi, D1, W1, D3, W3, Hw, D2.
  repeat split. exists s1. split; [exact D1|]. now rewrite E.
Qed.

Lemma desconectar_conserva (s : State) :
  cargando (fst (desconectarWebSocket s)) = cargando s
  /\ resultado (fst (desconectarWebSocket s)) = resultado s
  /\ mensajeError (fst (desconectarWebSocket s)) = mensajeError s.
Proof.
  unfold desconectarWebSocket. destruct (websocket s); destruct s; simpl; auto.
Qed.

Lemma anotarResultado_campos (r : ResultadoCarga) (x : State) :
  intervaloSimulacion (anotarResultado r x) = intervaloSimulacion x
  /\ websocket (anotarResultado r x) = websocket x
  /\ cargando (anotarResultado r x) = false
  /\ resultado (anotarResultado r x) = Some r.
Proof.
  unfold anotarResultado. cbv zeta.
  destruct (success r);
    [destruct (0 <? List.length (r_errores r))%nat;
     [destruct (3 <? List.length (r_errores r))%nat|]|];
    destruct x; simpl; auto.
Qed.

Lemma anotarFallo_campos (message : string) (x : State) :
  intervaloSimulacion (anotarFallo message x) = intervaloSimulacion x
  /\ websocket (anotarFallo message x) = websocket x
  /\ cargando (anotarFallo message x) = false
  /\ mensajeError (anotarFallo message x) <> ""%string.
Proof.
  unfold anotarFallo. cbv zeta.
  destruct x; simpl. repeat split.
  destruct message; discriminate.
Qed.

(** X10. However an upload ends, the component is left idle and holds
    no handle: after the closing step of an answer, after a failed
    request and after [ngOnDestroy], there is no interval and no socket
    in the state; the interval is cleared and the socket closed exactly
    when one was held, so releasing twice does nothing the second time.
    After an answer or a failure [cargando] is lowered; an answer is
    kept in [resultado], a failure leaves a message in [mensajeError]. *)
Theorem carga_sin_restos (s : State) :
  (forall r,
      intervaloSimulacion (fst (cargaTerminada r s)) = None
      /\ websocket (fst (cargaTerminada r s)) = false
      /\ cargando (fst (cargaTerminada r s)) = false
      /\ resultado (fst (cargaTerminada r s)) = Some r
      /\ snd (cargaTerminada r s)
         = (match intervaloSimulacion s with
            | Some _ => [ClearInterval]
            | None => []
            end) ++ (if websocket s then [CerrarWebSocket] else []))
  /\ (forall message,
         intervaloSimulacion (fst (cargaFallida message s)) = None
         /\ websocket (fst (cargaFallida message s)) = false
         /\ cargando (fst (cargaFallida message s)) = false
         /\ mensajeError (fst (cargaFallida message s)) <> ""%string
         /\ snd (cargaFallida message s)
            = (match intervaloSimulacion s with
               | Some _ => [ClearInterval]
               | None => []
               end) ++ (if websocket s then [CerrarWebSocket] else []))
  /\ (intervaloSimulacion (fst (ngOnDestroy s)) = None
      /\ websocket (fst (ngOnDestroy s)) = false
      /\ snd (ngOnDestroy (fst (ngOnDestroy s))) = [])
  /\ snd (detenerSimulacion (fst (detenerSimulacion s))) = []
  /\ snd (desconectarWebSocket (fst (desconectarWebSocket s))) = [].
Proof.
  split; [|split; [|split; [|split]]].
  - intros r. unfold cargaTerminada.
    destruct (liberar_efectos s (anotarResultado r)) as [L1 [L2 [L3 [s1 [_ L4]]]]];
      try (intros x; apply anotarResultado_campos).
    destruct (desconectar_conserva (anotarResultado r s1)) as [C1 [C2 _]].
    destruct (anotarResultado_campos r s1) as [_ [_ [A1 A2]]].
    rewrite L4 at 3 4. rewrite C1, C2. auto.
  - intros message. unfold cargaFallida.
    destruct (liberar_efectos s (anotarFallo message)) as [L1 [L2 [L3 [s1 [_ L4]]]]];
      try (intros x; apply anotarFallo_campos).
    destruct (desconectar_conserva (anotarFallo message s1)) as [C1 [_ C3]].
    destruct (anotarFallo_campos message s1) as [_ [_ [A1 A2]]].
    rewrite L4 at 3 4. rewrite C1, C3. auto.
  - unfold ngOnDestroy, luego.
    destruct (desconectarWebSocket_fin s) as [W1 [W2 W3]].
    destruct (desconectarWebSocket s) as [s1 e1]. simpl in W1, W2, W3.
    destruct (detenerSimulacion_fin s1) as [D1 [D2 D3]].
    destruct (detenerSimulacion s1) as [s2 e2]. simpl in D1, D2, D3.
    simpl. split; [exact D1|]. split; [now rewrite D2|].
    destruct (desconectarWebSocket_fin s2) as [V1 [V2 V3]].
    destruct (desconectarWebSocket s2) as [s3 e3]. simpl in V1, V2, V3.
    destruct (detenerSimulacion_fin s3) as [F1 [F2 F3]].
    destruct (detenerSimulacion s3) as [s4 e4]. simpl in F1, F2, F3.
    simpl. rewrite V3, F3, V2, D1, D2, W1. reflexivity.
  - destruct (detenerSimulacion_fin s) as [D1 _].
    destruct (detenerSimulacion_fin (fst (detenerSimulacion s))) as [_ [_ D3]].
    now rewrite D3, D1.
  - destruct (desconectarWebSocket_fin s) as [W1 _].
    destruct (desconectarWebSocket_fin (fst (desconectarWebSocket s))) as [_ [_ W3]].
    now rewrite W3, W1.
Qed.

End FlujoDeCarga.

(** ** Excel upload: the bar between start and answer *)

Section BarraDeProgreso.
Import Excel CargaExcel CargaExcelResto Muestras.

Lemma ticks_suma (inc : Q) (a b : nat) (s : State) :
  ticks inc (a + b) s = ticks inc b (ticks inc a s).
Proof.
  revert s. induction a as [|a IH]; intros s; simpl; [reflexivity | apply IH].
Qed.

Lemma simular_inicio (s : State) :
  progreso (fst (simularProgresoGradual s)) = 0
  /\ intervaloSimulacion (fst (simularProgresoGradual s))
     = Some (incrementoPorCiclo
               (totalFilas (con_progresoMensaje "Iniciando carga..."
                              (con_progreso 0 s))))
  /\ snd (simularProgresoGradual s)
     = [SetInterval intervaloTiempo
          (TickSimulacion
             (incrementoPorCiclo
                (totalFilas (con_progresoMensaje "Iniciando carga..."
                               (con_progreso 0 s)))))].
Proof. unfold simularProgresoGradual. cbv zeta. now destruct s. Qed.

Lemma totalFilas_inicio (s : State) :
  totalFilas (con_progresoMensaje "Iniciando carga..." (con_progreso 0 s))
  = totalFilas s.
Proof. unfold totalFilas. now destruct s. Qed.

(** X11. Whatever the number of rows, the bar that
    [simularProgresoGradual] drives starts at 0, shows whole numbers
    only, never goes down from one tick to a later one and never passes
    85. *)
Theorem barra_monotona (s : State) (n k : nat) :
  snd (simularProgresoGradual s)
  = [SetInterval 200 (TickSimulacion (incrementoPorCiclo (totalFilas s)))]
  /\ progreso (fst (simularProgresoGradual s)) = 0
  /\ exists a b : Z,
       progreso (ticks (incrementoPorCiclo (totalFilas s)) n
                   (fst (simularProgresoGradual s))) = inject_Z a
       /\ progreso (ticks (incrementoPorCiclo (totalFilas s)) (n + k)
                      (fst (simularProgresoGradual s))) = inject_Z b
       /\ (0 <= a <= b)%Z /\ (b <= 85)%Z.
Proof.
  destruct (simular_inicio s) as [P [_ E]]. rewrite totalFilas_inicio in E.
  split; [exact E|]. split; [exact P|].
  destruct (incremento_acotado (totalFilas s)) as [I0 I2].
  destruct (ticks_no_decrecen _ n 0 _ I0 I2 ltac:(lia) P) as [a [Pa Ba]].
  rewrite ticks_suma.
  destruct (ticks_no_decrecen _ k a _ I0 I2 ltac:(lia) Pa) as [b [Pb Bb]].
  exists a, b. repeat split; trivial; lia.
Qed.

Lemma incremento_rapido (filas : Z) :
  (filas <= 40)%Z -> incrementoPorCiclo filas = 16000 # 8000.
Proof.
  intros H. unfold incrementoPorCiclo, tiempoEstimado.
  replace (Z.max 8000 (Z.min (filas * 200) 30000)) with 8000%Z by lia.
  reflexivity.
Qed.

Lemma tick_rapido (k : Z) (s : State) :
  (0 <= k < 80)%Z -> progreso s = inject_Z k ->
  progreso (tickSimulacion (16000 # 8000) s) = inject_Z (k + 2).
Proof.
  intros Hk P. rewrite progreso_tick.
  - rewrite P. f_equal. unfold Qfloor, Qplus, inject_Z. simpl.
    replace (k * 8000 + 16000)%Z with ((k + 2) * 8000)%Z by lia.
    apply Z.div_mul. lia.
  - rewrite P. change 80 with (inject_Z 80). rewrite <- Zlt_Qlt. lia.
Qed.

Lemma ticks_rapidos (n : nat) (j : Z) (s : State) :
  (0 <= j)%Z -> (j + Z.of_nat n <= 40)%Z -> progreso s = inject_Z (2 * j) ->
  progreso (ticks (16000 # 8000) n s) = inject_Z (2 * (j + Z.of_nat n)).
Proof.
  revert j s. induction n as [|n IH]; intros j s H0 H1 P.
  - cbn [ticks]. rewrite P. f_equal. lia.
  - cbn [ticks]. rewrite (IH (j + 1)%Z); try lia.
    + f_equal. lia.
    + rewrite (tick_rapido (2 * j)); [f_equal; lia | lia | exact P].
Qed.

Lemma ticks_en_espera (inc : Q) (n : nat) (s : State) :
  80 <= progreso s ->
  progreso (ticks inc (S n) s) = 85.
Proof.
  revert s. induction n as [|n IH]; intros s H.
  - simpl. now apply progreso_tick_espera.
  - change (ticks inc (S (S n)) s) with (ticks inc (S n) (tickSimulacion inc s)).
    apply IH. rewrite (progreso_tick_espera _ _ H). discriminate.
Qed.

(** X12. With at most 40 rows (or with no row count, which counts as
    10) the estimate of the simulation is met: the bar gains 2 on every
    tick, shows 80 after 40 ticks of 200 ms and holds 85 from tick 41
    on. *)
Theorem barra_exacta (s : State) (n : nat) :
  (totalFilas s <= 40)%Z ->
  progreso (ticks (incrementoPorCiclo (totalFilas s)) n
              (fst (simularProgresoGradual s)))
  = if (n <=? 40)%nat then inject_Z (2 * Z.of_nat n) else 85.
Proof.
  intros H. rewrite (incremento_rapido _ H).
  destruct (simular_inicio s) as [P _].
  destruct (Nat.leb_spec n 40) as [L|L].
  - rewrite (ticks_rapidos n 0); trivial; lia.
  - replace n with (40 + S (n - 41))%nat by lia.
    rewrite ticks_suma. apply ticks_en_espera.
    rewrite (ticks_rapidos 40 0); trivial; try lia. discriminate.
Qed.

(** The theorem at a workbook of 10 rows: 80 after 40 ticks, then 85. *)
Lemma barra_exacta_witness :
  progreso (ticks (incrementoPorCiclo (totalFilas (validado 10))) 40
              (fst (simularProgresoGradual (validado 10)))) = 80
  /\ progreso (ticks (incrementoPorCiclo (totalFilas (validado 10))) 41
                 (fst (simularProgresoGradual (validado 10)))) = 85.
Proof.
  split.
  - exact (barra_exacta (validado 10) 40 ltac:(vm_compute; discriminate)).
  - exact (barra_exacta (validado 10) 41 ltac:(vm_compute; discriminate)).
Defined.

Lemma iniciar_sin_archivo (x : State) :
  archivoSeleccionado x = None ->
  cargas (snd (ejecutarTarea IniciarCarga x)) = []
  /\ snd (ejecutarTarea IniciarCarga x)
     = [SetInterval 200 (TickSimulacion (incrementoPorCiclo (totalFilas x)));
        AbrirWebSocket]
  /\ cargando (fst (ejecutarTarea IniciarCarga x)) = cargando x
  /\ intervaloSimulacion (fst (ejecutarTarea IniciarCarga x))
     = Some (incrementoPorCiclo (totalFilas x))
  /\ websocket (fst (ejecutarTarea IniciarCarga x)) = true.
Proof.
  intros A. rewrite cargas_iniciarCarga, A.
  unfold ejecutarTarea, luego.
  destruct (simular_inicio x) as [_ [I E]]. rewrite totalFilas_inicio in I, E.
  assert (C : cargando (fst (simularProgresoGradual x)) = cargando x
              /\ archivoSeleccionado (fst (simularProgresoGradual x)) = None).
  { unfold simularProgresoGradual. cbv zeta. rewrite <- A. now destruct x. }
  destruct C as [C1 C2].
  destruct (simularProgresoGradual x) as [s1 e1]. simpl in I, E, C1, C2.
  unfold conectarWebSocket, ejecutarCarga.
  replace (archivoSeleccionado (con_websocket true s1)) with (@None File)
    by (rewrite <- C2; now destruct s1).
  cbn [fst snd app]. rewrite E.
  split; [reflexivity|]. split; [reflexivity|].
  rewrite <- C1, <- I. now destruct s1.
Qed.

(** X13. When the selection is cleared between [cargarArchivo] and the
    timeout it started, the guard of [ejecutarCarga] sends no upload;
    the simulation and the socket are started all the same and
    [cargando] stays raised. *)
Theorem limpiar_antes_de_cargar (s : State) (f : File) :
  archivoSeleccionado s = Some f ->
  validacion_valida s = true ->
  snd (cargarArchivo true s) = [SetTimeout 100 IniciarCarga]
  /\ cargas (snd (ejecutarTarea IniciarCarga (limpiar (fst (cargarArchivo true s)))))
     = []
  /\ cargando (fst (ejecutarTarea IniciarCarga (limpiar (fst (cargarArchivo true s)))))
     = true
  /\ intervaloSimulacion
       (fst (ejecutarTarea IniciarCarga (limpiar (fst (cargarArchivo true s)))))
     <> None
  /\ websocket
       (fst (ejecutarTarea IniciarCarga (limpiar (fst (cargarArchivo true s)))))
     = true.
Proof.
  intros A V.
  assert (E : cargarArchivo true s
              = (con_resultado None
                   (limpiarMensajes (con_progreso 0 (con_cargando true s))),
                 [SetTimeout 100 IniciarCarga])).
  { unfold cargarArchivo. now rewrite A, V. }
  rewrite E. cbn [fst snd]. split; [reflexivity|].
  assert (L : archivoSeleccionado
                (limpiar (con_resultado None
                            (limpiarMensajes
                               (con_progreso 0 (con_cargando true s))))) = None
              /\ cargando
                   (limpiar (con_resultado None
                               (limpiarMensajes
                                  (con_progreso 0 (con_cargando true s))))) = true).
  { now destruct s. }
  destruct L as [L1 L2].
  destruct (iniciar_sin_archivo _ L1) as [I1 [_ [I3 [I4 I5]]]].
  rewrite I1, I3, I4, I5, L2. repeat split. discriminate.
Qed.

(** The theorem at the validated workbook of 100 rows. *)
Lemma limpiar_antes_de_cargar_witness :
  cargas (snd (ejecutarTarea IniciarCarga
                 (limpiar (fst (cargarArchivo true (validado 100)))))) = []
  /\ cargando (fst (ejecutarTarea IniciarCarga
                      (limpiar (fst (cargarArchivo true (validado 100)))))) = true.
Proof.
  pose proof (limpiar_antes_de_cargar (validado 100) libro eq_refl eq_refl)
    as [_ [H1 [H2 _]]].
  split; [exact H1 | exact H2].
Defined.

End BarraDeProgreso.

(** ** The messages of a failed request *)

Section MensajesDeError.
Import ProductoListResto ServicioLocalErrores MuestrasResto.
Import CargaExcel CargaExcelResto.

Lemma join_no_vacio (sep x : string) (l : list string) :
  x <> ""%string -> JsTexto.join sep (x :: l) <> ""%string.
Proof.
  intros H. unfold JsTexto.join. simpl. destruct l; [exact H|].
  destruct x; [contradiction | discriminate].
Qed.

Lemma texto_de_entrada_no_vacio (err : Entrada) :
  texto_de_entrada err <> ""%string.
Proof.
  unfold texto_de_entrada.
  destruct (match loc err with
            | Some l => JsTexto.join "." (map texto_de_loc l)
            | None => "undefined"%string
            end); discriminate.
Qed.

(** X14. The message that [handleError] gives is empty in one case
    only: a status other than 0 and a body whose [detail] is an empty
    array.  In that case, and in no other, the upload form shows its own
    text, "Error desconocido al validar el archivo"; otherwise it shows
    the message of [handleError].  Either way [mensajeError] is not
    empty and [validando] is lowered.  A status of 0 gives the
    connection message whatever the body, unless the body is an
    [ErrorEvent]. *)
Theorem handleError_vacio (e : HttpErrorResponse) (s : State) :
  (handleError e = ""%string
   <-> (status e <> 0)%Z
       /\ exists m1 m2, error e = CuerpoObjeto (DetalleLista []) m1 m2)
  /\ (handleError e = ""%string ->
      mensajeError (validacionFallida (handleError e) s)
      = "Error desconocido al validar el archivo"%string)
  /\ (handleError e <> ""%string ->
      mensajeError (validacionFallida (handleError e) s) = handleError e)
  /\ mensajeError (validacionFallida (handleError e) s) <> ""%string
  /\ validando (validacionFallida (handleError e) s) = false
  /\ ((status e = 0)%Z -> (forall m, error e <> CuerpoEvento m) ->
      handleError e
      = "No se pudo conectar con el servidor. Verifica tu conexión."%string).
Proof.
  split; [|split; [|split; [|split; [|split]]]].
  - unfold handleError.
    destruct (error e) as [|m|[|c r]|[|[|c r]|[|x l]|c j] [[|c1 r1]|] [[|c2 r2]|]];
      destruct (Z.eqb_spec (status e) 0) as [Z0|Z0];
      try (split; [discriminate | intros [H [m1 [m2 K]]];
                                  try contradiction; discriminate]);
      try (split; [intros H; destruct (JsTexto.texto_de_entero (status e));
                             discriminate
                  | intros [H [m1 [m2 K]]]; try contradiction; discriminate]);
      try (split; [intros _; split; [exact Z0 | eexists; eexists; reflexivity]
                  | intros _; reflexivity]);
      try (split; [intros H; exfalso;
                   apply (join_no_vacio ", " (texto_de_entrada x)
                            (map texto_de_entrada l));
                   [apply texto_de_entrada_no_vacio | exact H]
                  | intros [H [m1 [m2 K]]]; discriminate]).
  - intros H. rewrite H. now destruct s.
  - intros H. destruct (handleError e) as [|c r]; [contradiction|].
    now destruct s.
  - destruct (handleError e) as [|c r]; destruct s; discriminate.
  - now destruct s.
  - intros Z0 N. unfold handleError. rewrite Z0.
    destruct (error e) as [| m | |]; try reflexivity. now elim (N m).
Qed.

(** The theorem at a 422 with an empty [detail], for which the form
    falls back to its own text, and at a lost connection. *)
Lemma handleError_vacio_witness :
  handleError error_422_vacio = ""%string
  /\ mensajeError (validacionFallida (handleError error_422_vacio) inicial)
     = "Error desconocido al validar el archivo"%string
  /\ handleError error_sin_conexion
     = "No se pudo conectar con el servidor. Verifica tu conexión."%string.
Proof.
  assert (H : handleError error_422_vacio = ""%string) by reflexivity.
  split; [exact H|]. split.
  - exact (proj1 (proj2 (handleError_vacio error_422_vacio inicial)) H).
  - apply (proj2 (proj2 (proj2 (proj2 (proj2
             (handleError_vacio error_sin_conexion inicial)))))).
    + reflexivity.
    + discriminate.
Defined.

End MensajesDeError.

(** ** Strings: suffixes and the text of whole numbers *)

Section Cadenas.

Lemma append_assoc (a b c : string) : ((a ++ b) ++ c = a ++ b ++ c)%string.
Proof. induction a as [|x a IH]; simpl; [reflexivity | now rewrite IH]. Qed.

Lemma append_nil_r (a : string) : (a ++ "" = a)%string.
Proof. induction a as [|x a IH]; simpl; [reflexivity | now rewrite IH]. Qed.

Lemma append_cancel_l (a x y : string) : (a ++ x = a ++ y)%string -> x = y.
Proof.
  induction a as [|c a IH]; simpl; intros H; [exact H|].
  inversion H. now apply IH.
Qed.

Lemma rev_append_app (s acc : string) :
  Js.rev_append s acc = (Js.reverse s ++ acc)%string.
Proof.
  unfold Js.reverse. revert acc.
  induction s as [|c r IH]; intros acc; simpl; [reflexivity|].
  rewrite (IH (String c acc)), (IH (String c "")), append_assoc. reflexivity.
Qed.

Lemma reverse_app (a b : string) :
  Js.reverse (a ++ b) = (Js.reverse b ++ Js.reverse a)%string.
Proof.
  induction a as [|c a IH]; simpl.
  - now rewrite append_nil_r.
  - unfold Js.reverse at 1 3. simpl.
    rewrite !rev_append_app, IH, append_assoc. reflexivity.
Qed.

Lemma reverse_involutive (s : string) : Js.reverse (Js.reverse s) = s.
Proof.
  induction s as [|c r IH]; [reflexivity|].
  unfold Js.reverse at 2. simpl. rewrite rev_append_app, reverse_app, IH.
  reflexivity.
Qed.

Lemma endsWith_iff (s t : string) :
  JsTexto.endsWith s t = true <-> exists pre, s = (pre ++ t)%string.
Proof.
  unfold JsTexto.endsWith. rewrite prefix_iff. split.
  - intros [b H]. exists (Js.reverse b).
    rewrite <- (reverse_involutive s), H, reverse_app, reverse_involutive.
    reflexivity.
  - intros [pre ->]. exists (Js.reverse pre). apply reverse_app.
Qed.

Lemma texto_de_entero_inj (a b : Z) :
  JsTexto.texto_de_entero a = JsTexto.texto_de_entero b -> a = b.
Proof.
  unfold JsTexto.texto_de_entero. intros H.
  apply DecimalZ.to_int_inj.
  assert (K : NilEmpty.int_of_string (NilEmpty.string_of_int (Z.to_int a))
              = NilEmpty.int_of_string (NilEmpty.string_of_int (Z.to_int b)))
    by now rewrite H.
  rewrite !NilEmpty.isi in K. now inversion K.
Qed.

End Cadenas.

(** ** The earlier upload component beside the present one *)

Section ComponenteAnterior.
Import Excel Muestras MuestrasResto Especificacion.

Lemma sin_punto_xlsx : sin_punto "xlsx" /\ sin_punto "xls".
Proof.
  split; intros a b E;
    assert (H : Js.split "." (a ++ "." ++ b)%string = [a ++ "." ++ b]%string)
      by (rewrite <- E; reflexivity);
    rewrite split_app in H;
    pose proof (split_nonempty a) as Na; pose proof (split_nonempty b) as Nb;
    destruct (Js.split "." a) as [|x [|y l]]; try contradiction;
    destruct (Js.split "." b); try contradiction; discriminate.
Qed.

(** X15. The earlier component takes a file only when the present one
    would take it too: a size of at most 10 MB and a name that ends in
    .xlsx or .xls (in lower case) make the file acceptable.  When the
    earlier component refuses a file it shows one alert and keeps its
    whole state, the previous selection included. *)
Theorem anterior_mas_estricto (file : File) (s : CargaExcelAlertas.State) :
  (snd (CargaExcelAlertasResto.onFileSelected (Some file) s) = [] ->
   aceptable file
   /\ CargaExcelAlertas.archivoSeleccionado
        (fst (CargaExcelAlertasResto.onFileSelected (Some file) s)) = Some file
   /\ CargaExcelAlertas.validacion
        (fst (CargaExcelAlertasResto.onFileSelected (Some file) s)) = None)
  /\ (snd (CargaExcelAlertasResto.onFileSelected (Some file) s) <> [] ->
      exists m, CargaExcelAlertasResto.onFileSelected (Some file) s
                = (s, [CargaExcelAlertas.Alert m])).
Proof.
  unfold CargaExcelAlertasResto.onFileSelected.
  destruct (Z.gtb_spec (size file) CargaExcelAlertasResto.MAX_SIZE) as [G|G].
  - split; [discriminate | intros _; now eexists].
  - destruct (JsTexto.endsWith (name file) ".xlsx") eqn:E1;
      [|destruct (JsTexto.endsWith (name file) ".xls") eqn:E2]; simpl.
    + split; [intros _ | intros H; now elim H].
      split; [|split; reflexivity].
      apply endsWith_iff in E1. destruct E1 as [pre E1].
      split; [unfold CargaExcelAlertasResto.MAX_SIZE in G; lia|].
      exists "xlsx"%string. split; [|left; reflexivity].
      split; [apply sin_punto_xlsx|]. right. exists pre. exact E1.
    + split; [intros _ | intros H; now elim H].
      split; [|split; reflexivity].
      apply endsWith_iff in E2. destruct E2 as [pre E2].
      split; [unfold CargaExcelAlertasResto.MAX_SIZE in G; lia|].
      exists "xls"%string. split; [|right; reflexivity].
      split; [apply sin_punto_xlsx|]. right. exists pre. exact E2.
    + split; [discriminate | intros _; now eexists].
Qed.

(** The theorem at productos.xlsx, which is taken, and at the report
    with the upper-case extension, which the earlier component refuses. *)
Lemma anterior_mas_estricto_witness :
  aceptable libro
  /\ exists m, CargaExcelAlertasResto.onFileSelected (Some informe) anterior_cargando
               = (anterior_cargando, [CargaExcelAlertas.Alert m]).
Proof.
  split.
  - exact (proj1 (proj1 (anterior_mas_estricto libro anterior_cargando) eq_refl)).
  - apply (proj2 (anterior_mas_estricto informe anterior_cargando)).
    discriminate.
Defined.

(** X16. In the earlier component a successful upload leaves nothing to
    show: the answer is stored and at once wiped by [limpiar], so that
    [resultado] is null, [progreso] is 0 and no file is selected; only
    the answer of a failed upload stays in [resultado], with [progreso]
    at 100 and the selection kept.  Either way [cargando] is lowered and
    no socket is held. *)
Theorem anterior_descarta_resultado (r : ResultadoCarga) (s : CargaExcelAlertas.State) :
  (success r = true ->
   CargaExcelAlertas.resultado (fst (CargaExcelAlertasResto.cargaRespondida r s))
   = None
   /\ CargaExcelAlertas.progreso (fst (CargaExcelAlertasResto.cargaRespondida r s))
      = 0
   /\ CargaExcelAlertas.archivoSeleccionado
        (fst (CargaExcelAlertasResto.cargaRespondida r s)) = None)
  /\ (success r = false ->
      CargaExcelAlertas.resultado (fst (CargaExcelAlertasResto.cargaRespondida r s))
      = Some r
      /\ CargaExcelAlertas.progreso
           (fst (CargaExcelAlertasResto.cargaRespondida r s)) = 100
      /\ CargaExcelAlertas.archivoSeleccionado
           (fst (CargaExcelAlertasResto.cargaRespondida r s))
         = CargaExcelAlertas.archivoSeleccionado s)
  /\ CargaExcelAlertas.cargando (fst (CargaExcelAlertasResto.cargaRespondida r s))
     = false
  /\ CargaExcelAlertas.websocket (fst (CargaExcelAlertasResto.cargaRespondida r s))
     = false.
Proof.
  unfold CargaExcelAlertasResto.cargaRespondida,
    CargaExcelAlertasResto.desconectarWebSocket, CargaExcelAlertasResto.limpiar.
  cbv zeta. destruct (success r); destruct s as [a n v x vd cg pv pr pm ws];
    destruct ws; simpl; repeat split; intros; try reflexivity; discriminate.
Qed.

(** The theorem at an upload that worked and at one that did not. *)
Lemma anterior_descarta_resultado_witness :
  CargaExcelAlertas.resultado
    (fst (CargaExcelAlertasResto.cargaRespondida carga_buena anterior_cargando))
  = None
  /\ CargaExcelAlertas.resultado
       (fst (CargaExcelAlertasResto.cargaRespondida carga_mala anterior_cargando))
     = Some carga_mala.
Proof.
  split.
  - exact (proj1 (proj1 (anterior_descarta_resultado carga_buena anterior_cargando)
                    eq_refl)).
  - exact (proj1 (proj1 (proj2 (anterior_descarta_resultado carga_mala
                                  anterior_cargando)) eq_refl)).
Defined.

End ComponenteAnterior.

(** ** The two services: requests for products *)

Section ServiciosCrud.
Import HttpCrud.

(** X17. With the same base URL the two services send the same request
    for each of the five operations on products: the same verb, URL and
    body; the Spanish and English names of the service configured from
    the environment are the same requests.  The URL of a product
    determines its id: two different ids never give the same URL. *)
Theorem servicios_crud (id : Z) (producto : Servicio.Producto) :
  (ServicioEntornoCrud.obtenerProductos ServicioLocal.apiUrl
   = ServicioLocalCrud.obtenerProductos
   /\ ServicioEntornoCrud.getProducto ServicioLocal.apiUrl id
      = ServicioLocalCrud.obtenerProductoPorId id
   /\ ServicioEntornoCrud.crearProducto ServicioLocal.apiUrl producto
      = ServicioLocalCrud.crearProducto producto
   /\ ServicioEntornoCrud.actualizarProducto ServicioLocal.apiUrl id producto
      = ServicioLocalCrud.actualizarProducto id producto
   /\ ServicioEntornoCrud.eliminarProducto ServicioLocal.apiUrl id
      = ServicioLocalCrud.eliminarProducto id)
  /\ (forall (apiUrl : string) (otro : Z),
         id <> otro ->
         url (ServicioEntornoCrud.getProducto apiUrl id)
         <> url (ServicioEntornoCrud.getProducto apiUrl otro))
  /\ (forall otro : Z,
         id <> otro ->
         url (ServicioLocalCrud.actualizarProducto id producto)
         <> url (ServicioLocalCrud.actualizarProducto otro producto)).
Proof.
  split; [repeat split|]. split.
  - intros apiUrl otro N H. apply N. simpl in H.
    apply append_cancel_l in H. apply (append_cancel_l "/productos/") in H.
    now apply texto_de_entero_inj.
  - intros otro N H. apply N. simpl in H.
    apply (append_cancel_l ServicioLocal.apiUrl) in H.
    apply (append_cancel_l "/productos/") in H.
    now apply texto_de_entero_inj.
Qed.

(** The theorem at the products 7 and 70. *)
Lemma servicios_crud_witness :
  url (ServicioLocalCrud.actualizarProducto 7 Muestras.portatil)
  <> url (ServicioLocalCrud.actualizarProducto 70 Muestras.portatil).
Proof.
  apply (proj2 (proj2 (servicios_crud 7 Muestras.portatil)) 70%Z).
  discriminate.
Defined.

End ServiciosCrud.

(** ** The productos table: keys, types, inserting and looking up *)

Section TablaMas.
Import Sql Muestras MuestrasResto Especificacion EspecificacionTabla.

Lemma ligar_Ok {A B} (r : Resultado A) (k : A -> Resultado B) (b : B) :
  ligar r k = Ok b -> exists a, r = Ok a /\ k a = Ok b.
Proof. destruct r as [a|e]; simpl; [now exists a | discriminate]. Qed.




















End TablaMas.

(** ** The productos table: single statements *)

Section Sentencias.
Import Sql Muestras MuestrasResto Especificacion EspecificacionTabla.

Lemma mismo_texto_iff (a : option string) (c : string) :
  mismo_texto a (Some c) = true <-> a = Some c.
Proof.
  destruct a as [x|]; simpl; [|split; discriminate].
  rewrite String.eqb_eq. split; [now intros -> | now inversion 1].
Qed.

Lemma con_codigo_ninguno (c : string) (fs : list Fila) :
  ~ In (Some c) (map codigo fs) -> con_codigo c fs = [].
Proof.
  induction fs as [|x fs IH]; simpl; intros N; [reflexivity|].
  destruct (mismo_texto (codigo x) (Some c)) eqn:M.
  - apply mismo_texto_iff in M. exfalso. apply N. now left.
  - apply IH. intros I. apply N. now right.
Qed.

Lemma buscar_unico (fs : list Fila) (r : Fila) (c : string) :
  NoDup (map codigo fs) -> In r fs -> codigo r = Some c ->
  con_codigo c fs = [r].
Proof.
  induction fs as [|x fs IH]; simpl; intros N I C; [contradiction|].
  inversion N as [|y l Nx Nf]; subst.
  destruct I as [->|I].
  - rewrite C, mismo_texto_refl. f_equal.
    apply con_codigo_ninguno. now rewrite <- C.
  - destruct (mismo_texto (codigo x) (Some c)) eqn:M.
    + apply mismo_texto_iff in M. exfalso. apply Nx. rewrite M, <- C.
      now apply in_map.
    + now apply IH.
Qed.

Lemma insertar_filas_forma (ahora : Z) (vs : list Valores) (t : Tabla) (fs : list Fila) :
  fst (insertar_filas ahora vs t) = Ok fs ->
  exists nuevas, fs = filas t ++ nuevas /\ List.length nuevas = List.length vs.
Proof.
  revert t. induction vs as [|v vs IH]; intros t H; simpl in H.
  - inversion H; subst. exists []. now rewrite app_nil_r.
  - destruct (fila_de ahora (productos_id_seq t) v) as [r seq].
    destruct (aceptar_fila (filas t) r) as [r'|e]; [|discriminate].
    destruct (IH _ H) as [nuevas [E L]]. simpl in E.
    exists (r' :: nuevas). rewrite <- app_assoc in E. simpl in *.
    split; [exact E | now rewrite L].
Qed.

(** X19. An INSERT that succeeds leaves the rows that were there as
    they were and appends one row per tuple, in order; each new row is
    then the one and only row that a search by its code finds. *)
Theorem insertar_y_buscar (ahora : Z) (vs : list Valores) (t : Tabla) :
  invariante (filas t) ->
  snd (ejecutar ahora (INSERT vs) t) = None ->
  exists nuevas,
    filas (fst (ejecutar ahora (INSERT vs) t)) = filas t ++ nuevas
    /\ List.length nuevas = List.length vs
    /\ forall r c, In r nuevas -> codigo r = Some c ->
                   con_codigo c (filas (fst (ejecutar ahora (INSERT vs) t))) = [r].
Proof.
  intros I. simpl.
  pose proof (insertar_filas_invariante ahora vs t I) as K.
  pose proof (insertar_filas_forma ahora vs t) as F.
  destruct (insertar_filas ahora vs t) as [[fs|e] seq]; simpl in *;
    [intros _ | discriminate].
  destruct (F fs eq_refl) as [nuevas [E L]].
  exists nuevas. split; [exact E|]. split; [exact L|].
  intros r c Hr Hc. destruct (K fs eq_refl) as [_ N].
  apply buscar_unico; trivial. rewrite E. apply in_or_app. now right.
Qed.

(** The theorem at the five rows of init.sql on the empty table. *)
Lemma insertar_y_buscar_witness :
  exists nuevas,
    filas (fst (ejecutar 1000 datos_iniciales vacia)) = nuevas
    /\ List.length nuevas = 5%nat.
Proof.
  destruct (insertar_y_buscar 1000
              [semilla "PROD001" "Laptop Dell XPS 15" "Laptop de alto rendimiento"
                 10 129999 "Electrónica";
               semilla "PROD002" "Mouse Logitech MX Master"
                 "Mouse ergonómico inalámbrico" 25 9999 "Accesorios";
               semilla "PROD003" "Teclado Mecánico Keychron K2"
                 "Teclado mecánico retroiluminado" 15 8999 "Accesorios";
               semilla "PROD004" "Monitor LG 27 4K" "Monitor 4K UHD 27 pulgadas"
                 8 44999 "Electrónica";
               semilla "PROD005" "Webcam Logitech C920" "Webcam Full HD 1080p"
                 20 7999 "Accesorios"]
              vacia (conj (Forall_nil _) (NoDup_nil _))
              ltac:(vm_compute; reflexivity))
    as [nuevas [E [L _]]].
  exists nuevas. split; [exact E | exact L].
Defined.

Lemma tipos_codigo (r r' : Fila) (c : string) :
  tipos r = Ok r' -> codigo r = Some c -> (LENGTH c <= 50)%Z ->
  codigo r' = Some c.
Proof.
  unfold tipos. intros H C L.
  apply ligar_Ok in H. destruct H as [i [_ H]].
  apply ligar_Ok in H. destruct H as [k [E H]].
  apply ligar_Ok in H. destruct H as [n [_ H]].
  apply ligar_Ok in H. destruct H as [q [_ H]].
  apply ligar_Ok in H. destruct H as [p [_ H]].
  apply ligar_Ok in H. destruct H as [g [_ H]].
  inversion H; subst r'. simpl. rewrite C in E. unfold varchar in E.
  destruct (Z.leb_spec (LENGTH c) (Z.of_nat 50)) as [K|K]; [now inversion E|].
  simpl in K. lia.
Qed.

Lemma aceptar_fila_tipos (otras : list Fila) (r r' : Fila) :
  aceptar_fila otras r = Ok r' -> tipos r = Ok r'.
Proof.
  unfold aceptar_fila. intros H.
  apply ligar_Ok in H. destruct H as [x [E H]].
  apply ligar_Ok in H. destruct H as [u1 [_ H]].
  apply ligar_Ok in H. destruct H as [u2 [_ H]].
  apply ligar_Ok in H. destruct H as [u3 [_ H]].
  inversion H; now subst.
Qed.

Lemma fila_de_codigo (ahora seq : Z) (v : Valores) (c : option string) :
  v_codigo v = Dato c -> codigo (fst (fila_de ahora seq v)) = c.
Proof.
  intros H. unfold fila_de. destruct (v_id v); simpl; now rewrite H.
Qed.

(** X20. A code that a row of the table already holds is always
    refused: an INSERT of one tuple with that code ends in an error and
    leaves the rows as they were, whatever its other values. *)
Theorem codigo_repetido (ahora : Z) (v : Valores) (c : string) (t : Tabla) :
  In (Some c) (map codigo (filas t)) ->
  v_codigo v = Dato (Some c) ->
  (LENGTH c <= 50)%Z ->
  snd (ejecutar ahora (INSERT [v]) t) <> None
  /\ filas (fst (ejecutar ahora (INSERT [v]) t)) = filas t.
Proof.
  intros I V L. simpl.
  pose proof (fila_de_codigo ahora (productos_id_seq t) v _ V) as C.
  destruct (fila_de ahora (productos_id_seq t) v) as [r seq]. simpl in C.
  destruct (aceptar_fila (filas t) r) as [r'|e] eqn:A; simpl.
  - exfalso. pose proof (aceptar_fila_tipos _ _ _ A) as T.
    pose proof (tipos_codigo _ _ _ T C L) as C'.
    apply aceptar_fila_ok in A. destruct A as [_ N].
    apply N. now rewrite C'.
  - split; [discriminate | reflexivity].
Qed.

(** The theorem at a second PROD003 for the table of init.sql. *)
Lemma codigo_repetido_witness :
  snd (ejecutar 2000 (INSERT [otro_prod003]) tabla_inicial) <> None
  /\ filas (fst (ejecutar 2000 (INSERT [otro_prod003]) tabla_inicial))
     = filas tabla_inicial.
Proof.
  apply (codigo_repetido 2000 otro_prod003 "PROD003" tabla_inicial).
  - vm_compute. right; right; left; reflexivity.
  - reflexivity.
  - vm_compute; discriminate.
Defined.







End Sentencias.

(** ** The form of the list and the checks of the table *)

Section FormularioYTabla.
Import Especificacion EspecificacionTabla.

Lemma ltrim_partes (c : string) :
  exists sp, c = (sp ++ Sql.ltrim c)%string /\ Sql.solo_espacios sp = true.
Proof.
  induction c as [|a r [sp [E S]]]; [now exists ""%string|].
  simpl. destruct (Ascii.eqb_spec a " ") as [->|N].
  - exists (String " " sp). simpl. split; [now rewrite <- E | exact S].
  - now exists ""%string.
Qed.

Lemma ltrim_vacio (c : string) :
  Sql.ltrim c = ""%string -> Sql.solo_espacios c = true.
Proof.
  induction c as [|a r IH]; [reflexivity|]. simpl.
  destruct (Ascii.eqb a " "); [exact IH | discriminate].
Qed.

Lemma ltrim_de_espacios (c : string) :
  Sql.solo_espacios c = true -> Sql.ltrim c = ""%string.
Proof.
  induction c as [|a r IH]; [reflexivity|]. simpl.
  destruct (Ascii.eqb a " "); simpl; [exact IH | discriminate].
Qed.

Lemma solo_espacios_app (a b : string) :
  Sql.solo_espacios (a ++ b) = Sql.solo_espacios a && Sql.solo_espacios b.
Proof.
  induction a as [|x a IH]; simpl; [reflexivity|].
  now rewrite IH, andb_assoc.
Qed.

Lemma solo_espacios_reverse (a : string) :
  Sql.solo_espacios (Js.reverse a) = Sql.solo_espacios a.
Proof.
  induction a as [|x a IH]; [reflexivity|].
  unfold Js.reverse. simpl. rewrite rev_append_app, solo_espacios_app, IH.
  simpl. rewrite andb_true_r. apply andb_comm.
Qed.

Lemma reverse_vacio (a : string) : Js.reverse a = ""%string -> a = ""%string.
Proof.
  intros H. rewrite <- (reverse_involutive a), H. reflexivity.
Qed.

(** What [TRIM] leaves: the text between the spaces. *)
Lemma TRIM_partes (c : string) :
  exists sp1 sp2,
    c = (sp1 ++ Sql.TRIM c ++ sp2)%string
    /\ Sql.solo_espacios sp1 = true /\ Sql.solo_espacios sp2 = true.
Proof.
  destruct (ltrim_partes c) as [sp1 [E1 S1]].
  destruct (ltrim_partes (Js.reverse (Sql.ltrim c))) as [sp2 [E2 S2]].
  exists sp1, (Js.reverse sp2). split; [|split; [exact S1|]].
  - rewrite E1 at 1. f_equal. unfold Sql.TRIM.
    rewrite <- reverse_app, <- E2. now rewrite reverse_involutive.
  - now rewrite solo_espacios_reverse.
Qed.

Lemma strip_de_espacios (c : string) :
  Sql.solo_espacios c = true -> Js.strip false c = ""%string.
Proof.
  induction c as [|a r IH]; [reflexivity|]. simpl.
  destruct (Ascii.eqb_spec a " ") as [->|N]; simpl; [|discriminate].
  exact IH.
Qed.

Lemma sin_suelta_tras_espacios (sp x : string) :
  Sql.solo_espacios sp = true ->
  sin_suelta false (sp ++ x) = true -> sin_suelta false x = true.
Proof.
  induction sp as [|a sp IH]; simpl; [auto|].
  destruct (Ascii.eqb_spec a " ") as [->|N]; simpl; [|discriminate].
  exact IH.
Qed.

Lemma LENGTH_no_negativa (s : string) : (0 <= Sql.LENGTH s)%Z.
Proof.
  induction s as [|a r IH]; simpl; [lia|].
  destruct (Sql.es_continuacion a); lia.
Qed.

Lemma trim_y_TRIM (c : string) :
  bien_codificada c -> Js.trim c <> ""%string ->
  (0 < Sql.LENGTH (Sql.TRIM c))%Z.
Proof.
  intros B T.
  destruct (TRIM_partes c) as [sp1 [sp2 [E [S1 S2]]]].
  destruct (Sql.TRIM c) as [|a t] eqn:Tc.
  - exfalso. apply T. simpl in E.
    assert (S : Sql.solo_espacios c = true)
      by (rewrite E, solo_espacios_app, S1, S2; reflexivity).
    unfold Js.trim. now rewrite (strip_de_espacios _ S).
  - unfold bien_codificada in B. rewrite E in B.
    apply (sin_suelta_tras_espacios _ _ S1) in B. simpl in B.
    rewrite orb_false_r in B. apply andb_true_iff in B. destruct B as [B _].
    apply negb_true_iff in B. simpl. rewrite B.
    pose proof (LENGTH_no_negativa t). lia.
Qed.

(** X23. What the form of the list accepts as code and as name also
    passes the checks of the table: when [guardarProducto] issues its
    request and the code and the name are texts in UTF-8, a row that
    holds them satisfies [check_codigo_no_vacio] and
    [check_nombre_no_vacio].  (The converse fails: C2.) *)
Theorem formulario_pasa_checks (s : ProductoList.State) (r : Sql.Fila) :
  snd (ProductoList.guardarProducto s) <> None ->
  bien_codificada (Servicio.codigo (ProductoList.productoForm s)) ->
  bien_codificada (Servicio.nombre (ProductoList.productoForm s)) ->
  Sql.codigo r = Some (Servicio.codigo (ProductoList.productoForm s)) ->
  Sql.nombre r = Some (Servicio.nombre (ProductoList.productoForm s)) ->
  Sql.check_codigo_no_vacio r = true /\ Sql.check_nombre_no_vacio r = true.
Proof.
  intros G Bc Bn Ec En.
  assert (T : Js.trim (Servicio.codigo (ProductoList.productoForm s)) <> ""%string
              /\ Js.trim (Servicio.nombre (ProductoList.productoForm s)) <> ""%string).
  { revert G. unfold ProductoList.guardarProducto. cbv zeta.
    simpl ProductoList.productoForm.
    destruct ((Servicio.codigo (ProductoList.productoForm s) =? "")
              || (Js.trim (Servicio.codigo (ProductoList.productoForm s)) =? ""))%string
      eqn:C; [intros G; now elim G|].
    destruct ((Servicio.nombre (ProductoList.productoForm s) =? "")
              || (Js.trim (Servicio.nombre (ProductoList.productoForm s)) =? ""))%string
      eqn:N; [intros G; now elim G|].
    intros _. apply orb_false_iff in C, N.
    destruct C as [_ C], N as [_ N]. apply String.eqb_neq in C, N. now split. }
  destruct T as [Tc Tn].
  unfold Sql.check_codigo_no_vacio, Sql.check_nombre_no_vacio. rewrite Ec, En.
  pose proof (trim_y_TRIM _ Bc Tc). pose proof (trim_y_TRIM _ Bn Tn).
  split; apply Z.gtb_lt; assumption.
Qed.

(** The theorem at the form of the screw with a price of 2.50. *)
Lemma formulario_pasa_checks_witness :
  Sql.check_codigo_no_vacio
    (Sql.mkFila (Some 9%Z) (Some "T-01"%string) (Some "Tornillo"%string) None
       (Some 3%Z) (Some 250%Z) None None None) = true
  /\ Sql.check_nombre_no_vacio
       (Sql.mkFila (Some 9%Z) (Some "T-01"%string) (Some "Tornillo"%string) None
          (Some 3%Z) (Some 250%Z) None None None) = true.
Proof.
  apply (formulario_pasa_checks (Muestras.formulario (Js.Num (5 # 2)))).
  - vm_compute; discriminate.
  - reflexivity.
  - reflexivity.
  - reflexivity.
  - reflexivity.
Defined.

End FormularioYTabla.

(** ** The product list: after a save, stock badges *)

Section DespuesDeGuardar.
Import ProductoList ProductoListResto CargaExcelResto.

Lemma guardar_sin_codigo (x : State) :
  Servicio.codigo (productoForm x) = ""%string ->
  snd (guardarProducto x) = None.
Proof.
  intros H. unfold guardarProducto. cbv zeta.
  replace (productoForm (con_errores [] x)) with (productoForm x) by reflexivity.
  rewrite H. reflexivity.
Qed.

Lemma filtrados_dependen (a b : State) :
  productos a = productos b -> terminoBusqueda a = terminoBusqueda b ->
  productosFiltrados (aplicarFiltros a) = productosFiltrados (aplicarFiltros b).
Proof.
  intros Hp Ht.
  destruct (aplicarFiltros_forma a) as [f1 [t1 [E1 [F1 _]]]].
  destruct (aplicarFiltros_forma b) as [f2 [t2 [E2 [F2 _]]]].
  rewrite E1, E2. cbn [productosFiltrados]. rewrite F1, F2, Hp, Ht. reflexivity.
Qed.

Lemma con_cargando_conserva (b : bool) (y : State) :
  paginaActual (con_cargando b y) = paginaActual y
  /\ productosFiltrados (con_cargando b y) = productosFiltrados y.
Proof. split; reflexivity. Qed.

(** X24. Once the answer of a save has arrived, the form is empty again
    and out of edit mode, the product list is asked for anew, and saving
    a second time sends nothing: the empty form is refused.  When the
    list arrives it is shown from page 1, filtered by the term that was
    in the search box. *)
Theorem despues_de_guardar (s : State) (data : list Servicio.Producto) :
  productoForm (fst (guardadoCorrecto s)) = nuevoProducto
  /\ editando (fst (guardadoCorrecto s)) = false
  /\ snd (guardadoCorrecto s) = [obtenerProductos]
  /\ snd (guardarProducto (fst (guardadoCorrecto s))) = None
  /\ paginaActual (productosRecibidos data (fst (guardadoCorrecto s))) = 1%Z
  /\ cargando (productosRecibidos data (fst (guardadoCorrecto s))) = false
  /\ productosFiltrados (productosRecibidos data (fst (guardadoCorrecto s)))
     = productosFiltrados (aplicarFiltros (con_productos data s)).
Proof.
  unfold guardadoCorrecto, cargarProductos, cancelar. cbn [fst snd].
  split; [reflexivity|]. split; [reflexivity|]. split; [reflexivity|].
  split; [apply guardar_sin_codigo; reflexivity|].
  split; [|split; [unfold productosRecibidos; reflexivity|]].
  - unfold productosRecibidos.
    rewrite (proj1 (con_cargando_conserva false _)).
    apply aplicarFiltros_pagina.
  - unfold productosRecibidos.
    rewrite (proj2 (con_cargando_conserva false _)).
    apply filtrados_dependen; reflexivity.
Qed.

(** X25. The two stock badges agree: [obtenerEstadoStock] of the list
    and [getBadgeClass] of the upload preview mark the same quantities
    as danger (exactly 0) and as warning (below 10 and not 0, negative
    quantities included); [getBadgeClass] splits the rest at 50. *)
Theorem insignias_de_stock (cantidad : Js.number) :
  (obtenerEstadoStock cantidad = "badge-danger"%string
   <-> getBadgeClass cantidad = "bg-danger"%string)
  /\ (obtenerEstadoStock cantidad = "badge-warning"%string
      <-> getBadgeClass cantidad = "bg-warning"%string)
  /\ (obtenerEstadoStock cantidad = "badge-success"%string
      <-> getBadgeClass cantidad = "bg-info"%string
          \/ getBadgeClass cantidad = "bg-success"%string)
  /\ (forall q, cantidad = Js.Num q -> q < 0 ->
                obtenerEstadoStock cantidad = "badge-warning"%string)
  /\ (forall q, cantidad = Js.Num q ->
                (getBadgeClass cantidad = "bg-info"%string <-> 10 <= q /\ q < 50)).
Proof.
  split; [|split; [|split; [|split]]].
  - unfold obtenerEstadoStock, getBadgeClass.
    destruct cantidad as [q|]; [|split; discriminate].
    destruct (Qeq_bool q 0); [split; reflexivity|].
    destruct (Js.lt (Js.Num q) 10); [split; discriminate|].
    destruct (Js.lt (Js.Num q) 50); split; discriminate.
  - unfold obtenerEstadoStock, getBadgeClass.
    destruct cantidad as [q|]; [|split; discriminate].
    destruct (Qeq_bool q 0); [split; discriminate|].
    destruct (Js.lt (Js.Num q) 10); [split; reflexivity|].
    destruct (Js.lt (Js.Num q) 50); split; discriminate.
  - unfold obtenerEstadoStock, getBadgeClass.
    destruct cantidad as [q|]; [|split; auto].
    destruct (Qeq_bool q 0); [split; [discriminate | intros [H|H]; discriminate]|].
    destruct (Js.lt (Js.Num q) 10);
      [split; [discriminate | intros [H|H]; discriminate]|].
    destruct (Js.lt (Js.Num q) 50); split; auto.
  - intros q -> Hq. unfold obtenerEstadoStock.
    destruct (Qeq_bool q 0) eqn:E.
    + apply Qeq_bool_iff in E. rewrite E in Hq. now apply Qlt_irrefl in Hq.
    + assert (L : Js.lt (Js.Num q) 10 = true).
      { simpl. apply negb_true_iff. destruct (Qle_bool 10 q) eqn:K; [|reflexivity].
        apply Qle_bool_iff in K. exfalso. apply (Qlt_irrefl 0).
        apply Qlt_trans with (y := 10); [reflexivity|].
        eapply Qle_lt_trans; eauto. }
      now rewrite L.
  - intros q ->. unfold getBadgeClass. simpl.
    destruct (Qeq_bool q 0) eqn:E.
    + apply Qeq_bool_iff in E. split; [discriminate|]. intros [H _].
      rewrite E in H. exfalso. now apply H.
    + destruct (Qle_bool 10 q) eqn:K10; simpl.
      * apply Qle_bool_iff in K10.
        destruct (Qle_bool 50 q) eqn:K50; simpl.
        -- apply Qle_bool_iff in K50. split; [discriminate|]. intros [_ H].
           exfalso. apply (Qlt_irrefl q). eapply Qlt_le_trans; eauto.
        -- split; [intros _ | reflexivity]. split; [exact K10|].
           apply Qnot_le_lt. intros H. apply Qle_bool_iff in H. congruence.
      * split; [discriminate|]. intros [H _]. apply Qle_bool_iff in H. congruence.
Qed.

(** The theorem at a stock of -3, which both badges show as warning, and
    at a stock of 25. *)
Lemma insignias_de_stock_witness :
  obtenerEstadoStock (Js.Num (-3 # 1)) = "badge-warning"%string
  /\ getBadgeClass (Js.Num 25) = "bg-info"%string.
Proof.
  split.
  - exact (proj1 (proj2 (proj2 (proj2 (insignias_de_stock (Js.Num (-3 # 1))))))
             (-3 # 1) eq_refl eq_refl).
  - apply (proj2 (proj2 (proj2 (proj2 (insignias_de_stock (Js.Num 25))))) 25 eq_refl).
    split; [discriminate | reflexivity].
Defined.

End DespuesDeGuardar.
